(** * The tracking monitor of pysolovideo (tracking/monitor.py)

    A shallow embedding of the [Monitor] class: its constructor, its read
    accessors, [stop], the renderer [_draw_on_frame] and the main loop [run].

    Python objects that are shared by reference (the numpy frames and the
    dictionary of last positions) live in a store and are named by their
    address.  Calls into the collaborators (camera, tracking units, result
    writer, OpenCV) are recorded in a trace; an environment decides which of
    them raise, and at which of them the controlling thread calls [stop()]. *)

From stdpp Require Import base gmap strings list pretty.
From Stdlib Require Import ZArith QArith_base.
Open Scope Z_scope.

(** ** Exceptions

    Instances of Python's [Exception]; these are what [except Exception]
    catches.  [PSVException] is the project's own class. *)

Inductive ExnClass :=
| PSVException | ValueError | TypeError | AttributeError | KeyError
| ZeroDivisionError | IOError | RuntimeError.

Record Exn := mkExn { exn_class : ExnClass; exn_msg : string }.

Definition isinstance_PSVException (e : Exn) : bool :=
  match exn_class e with PSVException => true | _ => false end.

Definition isinstance_KeyError (e : Exn) : bool :=
  match exn_class e with KeyError => true | _ => false end.

(** ** Data *)

Definition Point := (Z * Z)%type.
Definition Colour := (Z * Z * Z)%type.

Record ROI := mkROI { idx : Z; polygon : list Point; offset : Point }.

Record Position := mkPosition {
  pos_x : Z; pos_y : Z; pos_w : Z; pos_h : Z; pos_phi : Z;
  is_inferred : bool; has_interacted : bool }.

Definition DataRow := list Z.

(** OpenCV constants used by the module. *)
Definition FONT_HERSHEY_COMPLEX_SMALL : Z := 5.
Definition CV_AA : Z := 16.
Definition CV_WINDOW_AUTOSIZE : Z := 1.

(** The drawing primitives the renderer calls, with their arguments. *)
Inductive DrawOp :=
| putText (text : string) (org : Point) (fontFace : Z) (fontScale : Q) (color : Colour)
| drawContours (contours : list (list Point)) (contourIdx : Z) (color : Colour)
    (thickness : Z) (lineType : Z)
| ellipse (box : Point * (Z * Z) * Z) (color : Colour) (thickness : Z) (lineType : Z).

(** A frame: its shape (rows, columns), the pixels delivered by the camera
    and the drawing primitives applied to it in place since, oldest first. *)
Record ndarray := mkNdarray { shape : Z * Z; pixels : list Z; drawn : list DrawOp }.

Definition draw (op : DrawOp) (a : ndarray) : ndarray :=
  {| shape := shape a; pixels := pixels a; drawn := drawn a ++ [op] |}.

(** Addresses of frames and of dictionaries in the store. *)
Definition loc := nat.

(** The (timestamp, frame) pairs the camera yields when iterated. *)
Definition Camera := list (Z * ndarray).

Record ResultWriter := mkResultWriter { rw_file : string; rw_metadata : option string }.
Record VideoWriter := mkVideoWriter { vw_path : string; vw_fps : Z; vw_size : Z * Z }.

(** ** Tracking units

    [TrackingUnit] is imported from another module; the monitor uses its
    constructor, calls it on [(t, frame)], asks for its last position and
    reads its [roi]. *)

Class TrackingUnitAPI (TrackerClass Interactor Tracker : Type) := {
  tracker_new : TrackerClass -> ROI -> option Interactor -> Tracker;
  tracker_call : Tracker -> Z -> ndarray -> Tracker * option DataRow;
  tracker_get_last_position : Tracker -> bool -> option Position }.

Record TrackingUnit (Interactor Tracker : Type) := mkTrackingUnit {
  roi : ROI; interactor : option Interactor; tracker : Tracker }.
Arguments mkTrackingUnit {Interactor Tracker}.
Arguments roi {Interactor Tracker}.
Arguments interactor {Interactor Tracker}.
Arguments tracker {Interactor Tracker}.

(** ** Calls into collaborators and the trace *)

Inductive Call :=
| GetPid                                             (* os.getpid() *)
| BuildROIs                                          (* rbs.DefaultROIBuilder()(camera) *)
| CameraRestart                                      (* camera.restart() *)
| NewTrackingUnit (roi_idx : Z) (bound : bool)       (* TrackingUnit(tracker_class, r, inter) *)
| NamedWindow (name : string) (flags : Z)            (* cv2.namedWindow *)
| NewResultWriter (file : string)                    (* ResultWriter(file, metadata=...) *)
| CameraNext (item : option (Z * loc))               (* the camera iterator is advanced *)
| Track (j : nat) (t : Z) (frame : loc)              (* track_u(t, frame), unit number j *)
| GetLastPosition (j : nat) (absolute : bool)        (* track_u.get_last_position *)
| WriteRow (t : Z) (roi_idx : Z) (row : DataRow)     (* result_writer.write *)
| Flush                                              (* result_writer.flush() *)
| CopyFrame (src dst : loc)                          (* frame.copy() *)
| Draw (dst : loc) (op : DrawOp)                     (* cv2.putText, drawContours, ellipse *)
| Imshow (name : string) (frame : loc)               (* cv2.imshow *)
| WaitKey (delay : Z)                                (* cv2.waitKey *)
| DestroyAllWindows                                  (* cv2.destroyAllWindows() *)
| Fourcc (code : string)                             (* cv2.cv.CV_FOURCC *)
| NewVideoWriter (path : string) (fps : Z) (size : Z * Z)  (* cv2.VideoWriter *)
| WriteVideo (frame : loc)                           (* vw.write *)
| ReleaseVideo.                                      (* vw.release() *)

Inductive Level := INFO | ERROR.

Inductive Res (A : Type) := Ok (a : A) | Raise (e : Exn).
Arguments Ok {A}.
Arguments Raise {A}.

Inductive Item :=
| Called (c : Call)                 (* the call returned *)
| Raised (c : Call) (e : Exn)       (* the call raised e *)
| Logged (l : Level) (msg : string)
| Client_stop (r : Res unit).       (* the controlling thread called stop() *)

(** What the surroundings do.  Positions in the trace number the moments at
    which the monitor is inside a collaborator. *)
Record Env := mkEnv {
  fault : nat -> option Exn;     (* the call made at this moment raises *)
  stop_at : nat -> bool;         (* stop() is called at this moment *)
  pid : Z;                       (* os.getpid() *)
  default_rois : list ROI }.     (* what DefaultROIBuilder finds *)

(** ** Computations that may raise *)

Section Raising.
Context {St : Type}.

Definition M (A : Type) : Type := St -> Res A * St.

Definition ret {A} (a : A) : M A := fun s => (Ok a, s).
Definition raise {A} (e : Exn) : M A := fun s => (Raise e, s).
Definition bind {A B} (m : M A) (k : A -> M B) : M B :=
  fun s => match m s with
           | (Ok a, s') => k a s'
           | (Raise e, s') => (Raise e, s')
           end.

Definition gets {A} (f : St -> A) : M A := fun s => (Ok (f s), s).
Definition modify (f : St -> St) : M unit := fun s => (Ok tt, f s).
Definition when (b : bool) (m : M unit) : M unit := if b then m else ret tt.

(** try: m / except Exception as e: h e *)
Definition try_except {A} (m : M A) (h : Exn -> M A) : M A :=
  fun s => match m s with
           | (Ok a, s') => (Ok a, s')
           | (Raise e, s') => h e s'
           end.

(** try: m / except: pass *)
Definition try_pass (m : M unit) : M unit := try_except m (fun _ => ret tt).

(** try: m / finally: f *)
Definition try_finally {A} (m : M A) (f : M unit) : M A :=
  fun s => match m s with
           | (r, s') => match f s' with
                        | (Ok _, s'') => (r, s'')
                        | (Raise e, s'') => (Raise e, s'')
                        end
           end.

(** x = d[k] inside try / except KeyError: the value, or [None] when the
    handler runs. *)
Definition try_KeyError {A} (m : M A) : M (option A) :=
  fun s => match m s with
           | (Ok a, s') => (Ok (Some a), s')
           | (Raise e, s') =>
               if isinstance_KeyError e then (Ok None, s') else (Raise e, s')
           end.

(** for j, a in enumerate(l) *)
Fixpoint for_enumerate {A} (body : nat -> A -> M unit) (j : nat) (l : list A) : M unit :=
  match l with
  | [] => ret tt
  | a :: l' => bind (body j a) (fun _ => for_enumerate body (S j) l')
  end.

(** [f(a) for a in l] *)
Fixpoint comprehension {A B} (f : A -> M B) (l : list A) : M (list B) :=
  match l with
  | [] => ret []
  | a :: l' => bind (f a) (fun b => bind (comprehension f l') (fun bs => ret (b :: bs)))
  end.

(** for a in l *)
Definition for_each {A} (body : A -> M unit) (l : list A) : M unit :=
  for_enumerate (fun _ => body) 0%nat l.

End Raising.
Arguments M : clear implicits.

Notation "'let*' x := m 'in' k" := (bind m (fun x => k))
  (at level 10, x name, m at level 100, k at level 200, only parsing).
Notation "m >> k" := (bind m (fun _ => k))
  (at level 100, k at level 200, right associativity, only parsing).

Section Monitor.
Context {TrackerClass Interactor Tracker : Type}.
Context `{API : TrackingUnitAPI TrackerClass Interactor Tracker}.

(** ** The object and the state of the world *)

(** The attributes of a [Monitor] instance.  [_window_name] is [None] while
    the attribute does not exist; [_frame_buffer] is [None] for Python's
    [None]; [_last_positions] is the address of the dictionary. *)
Record Monitor := mkMonitor {
  _camera : Camera;
  _result_file : option string;
  _metadata : option string;
  _exception : option Exn;
  _draw_results : bool;
  _window_name : option string;
  draw_every_n : Z;
  _max_duration : option Z;
  _video_out : option string;
  _frame_buffer : option loc;
  _force_stop : bool;
  _last_positions : loc;
  _last_time_stamp : Z;
  _is_running : bool;
  _unit_trackers : list (TrackingUnit Interactor Tracker) }.

Definition set__camera v (m : Monitor) : Monitor :=
  mkMonitor v (_result_file m) (_metadata m) (_exception m) (_draw_results m) (_window_name m) (draw_every_n m) (_max_duration m) (_video_out m) (_frame_buffer m) (_force_stop m) (_last_positions m) (_last_time_stamp m) (_is_running m) (_unit_trackers m).
Definition set__result_file v (m : Monitor) : Monitor :=
  mkMonitor (_camera m) v (_metadata m) (_exception m) (_draw_results m) (_window_name m) (draw_every_n m) (_max_duration m) (_video_out m) (_frame_buffer m) (_force_stop m) (_last_positions m) (_last_time_stamp m) (_is_running m) (_unit_trackers m).
Definition set__metadata v (m : Monitor) : Monitor :=
  mkMonitor (_camera m) (_result_file m) v (_exception m) (_draw_results m) (_window_name m) (draw_every_n m) (_max_duration m) (_video_out m) (_frame_buffer m) (_force_stop m) (_last_positions m) (_last_time_stamp m) (_is_running m) (_unit_trackers m).
Definition set__exception v (m : Monitor) : Monitor :=
  mkMonitor (_camera m) (_result_file m) (_metadata m) v (_draw_results m) (_window_name m) (draw_every_n m) (_max_duration m) (_video_out m) (_frame_buffer m) (_force_stop m) (_last_positions m) (_last_time_stamp m) (_is_running m) (_unit_trackers m).
Definition set__draw_results v (m : Monitor) : Monitor :=
  mkMonitor (_camera m) (_result_file m) (_metadata m) (_exception m) v (_window_name m) (draw_every_n m) (_max_duration m) (_video_out m) (_frame_buffer m) (_force_stop m) (_last_positions m) (_last_time_stamp m) (_is_running m) (_unit_trackers m).
Definition set__window_name v (m : Monitor) : Monitor :=
  mkMonitor (_camera m) (_result_file m) (_metadata m) (_exception m) (_draw_results m) v (draw_every_n m) (_max_duration m) (_video_out m) (_frame_buffer m) (_force_stop m) (_last_positions m) (_last_time_stamp m) (_is_running m) (_unit_trackers m).
Definition set_draw_every_n v (m : Monitor) : Monitor :=
  mkMonitor (_camera m) (_result_file m) (_metadata m) (_exception m) (_draw_results m) (_window_name m) v (_max_duration m) (_video_out m) (_frame_buffer m) (_force_stop m) (_last_positions m) (_last_time_stamp m) (_is_running m) (_unit_trackers m).
Definition set__max_duration v (m : Monitor) : Monitor :=
  mkMonitor (_camera m) (_result_file m) (_metadata m) (_exception m) (_draw_results m) (_window_name m) (draw_every_n m) v (_video_out m) (_frame_buffer m) (_force_stop m) (_last_positions m) (_last_time_stamp m) (_is_running m) (_unit_trackers m).
Definition set__video_out v (m : Monitor) : Monitor :=
  mkMonitor (_camera m) (_result_file m) (_metadata m) (_exception m) (_draw_results m) (_window_name m) (draw_every_n m) (_max_duration m) v (_frame_buffer m) (_force_stop m) (_last_positions m) (_last_time_stamp m) (_is_running m) (_unit_trackers m).
Definition set__frame_buffer v (m : Monitor) : Monitor :=
  mkMonitor (_camera m) (_result_file m) (_metadata m) (_exception m) (_draw_results m) (_window_name m) (draw_every_n m) (_max_duration m) (_video_out m) v (_force_stop m) (_last_positions m) (_last_time_stamp m) (_is_running m) (_unit_trackers m).
Definition set__force_stop v (m : Monitor) : Monitor :=
  mkMonitor (_camera m) (_result_file m) (_metadata m) (_exception m) (_draw_results m) (_window_name m) (draw_every_n m) (_max_duration m) (_video_out m) (_frame_buffer m) v (_last_positions m) (_last_time_stamp m) (_is_running m) (_unit_trackers m).
Definition set__last_positions v (m : Monitor) : Monitor :=
  mkMonitor (_camera m) (_result_file m) (_metadata m) (_exception m) (_draw_results m) (_window_name m) (draw_every_n m) (_max_duration m) (_video_out m) (_frame_buffer m) (_force_stop m) v (_last_time_stamp m) (_is_running m) (_unit_trackers m).
Definition set__last_time_stamp v (m : Monitor) : Monitor :=
  mkMonitor (_camera m) (_result_file m) (_metadata m) (_exception m) (_draw_results m) (_window_name m) (draw_every_n m) (_max_duration m) (_video_out m) (_frame_buffer m) (_force_stop m) (_last_positions m) v (_is_running m) (_unit_trackers m).
Definition set__is_running v (m : Monitor) : Monitor :=
  mkMonitor (_camera m) (_result_file m) (_metadata m) (_exception m) (_draw_results m) (_window_name m) (draw_every_n m) (_max_duration m) (_video_out m) (_frame_buffer m) (_force_stop m) (_last_positions m) (_last_time_stamp m) v (_unit_trackers m).
Definition set__unit_trackers v (m : Monitor) : Monitor :=
  mkMonitor (_camera m) (_result_file m) (_metadata m) (_exception m) (_draw_results m) (_window_name m) (draw_every_n m) (_max_duration m) (_video_out m) (_frame_buffer m) (_force_stop m) (_last_positions m) (_last_time_stamp m) (_is_running m) v.

(** The instance before [__init__] has assigned anything.  [__init__] reads
    no attribute before assigning it, so these values are never observed. *)
Definition object_new : Monitor :=
  mkMonitor [] None None None false None 0 None None None false 0%nat 0 false [].

(** The world: the environment, the object, the two local variables of
    [run], the store and the trace (most recent item first). *)
Record State := mkState {
  env : Env;
  self : Monitor;
  vw : option VideoWriter;
  result_writer : option ResultWriter;
  arrays : list ndarray;
  dicts : list (gmap Z Position);
  trace : list Item }.

Definition upd_self (f : Monitor -> Monitor) (s : State) : State :=
  mkState (env s) (f (self s)) (vw s) (result_writer s) (arrays s) (dicts s) (trace s).
Definition set_vw v (s : State) : State :=
  mkState (env s) (self s) v (result_writer s) (arrays s) (dicts s) (trace s).
Definition set_result_writer v (s : State) : State :=
  mkState (env s) (self s) (vw s) v (arrays s) (dicts s) (trace s).
Definition set_arrays v (s : State) : State :=
  mkState (env s) (self s) (vw s) (result_writer s) v (dicts s) (trace s).
Definition set_dicts v (s : State) : State :=
  mkState (env s) (self s) (vw s) (result_writer s) (arrays s) v (trace s).
Definition record (it : Item) (s : State) : State :=
  mkState (env s) (self s) (vw s) (result_writer s) (arrays s) (dicts s) (it :: trace s).

Definition getattr {A} (f : Monitor -> A) : M State A := gets (fun s => f (self s)).
Definition setattr (f : Monitor -> Monitor) : M State unit := modify (upd_self f).

(** ** Logging, external calls and the store *)

Definition logging_info (msg : string) : M State unit := modify (record (Logged INFO msg)).
Definition logging_error (msg : string) : M State unit := modify (record (Logged ERROR msg)).

(** An address that names nothing; no run of the module produces one. *)
Definition dangling : Exn := mkExn RuntimeError "dangling reference".

(** *** stop *)

Definition stop : M State unit :=
  let* e := getattr _exception in
  match e with
  | Some e => raise e
  | None => setattr (set__force_stop true)
  end.

(** The controlling thread calls [stop()] now if the environment says so;
    what the call did is recorded, an exception it raises goes to the caller. *)
Definition interleave : M State unit := fun s =>
  if stop_at (env s) (length (trace s)) then
    match stop s with (r, s') => (Ok tt, record (Client_stop r) s') end
  else (Ok tt, s).

(** A call into a collaborator: it raises if the environment says so. *)
Definition call (c : Call) : M State unit := fun s =>
  match fault (env s) (length (trace s)) with
  | Some e => (Raise e, record (Raised c e) s)
  | None => (Ok tt, record (Called c) s)
  end.

(** The same while the object is shared with the controlling thread. *)
Definition ext (c : Call) : M State unit := interleave >> call c.

(** *** The store *)

Definition ndarray_new (a : ndarray) : M State loc :=
  let* l := gets (fun s => length (arrays s)) in
  modify (fun s => set_arrays (arrays s ++ [a]) s) >>
  ret l.

Definition ndarray_get (l : loc) : M State ndarray :=
  let* o := gets (fun s => arrays s !! l) in
  match o with
  | Some a => ret a
  | None => raise dangling
  end.

Definition ndarray_update (l : loc) (f : ndarray -> ndarray) : M State unit :=
  let* a := ndarray_get l in
  modify (fun s => set_arrays (<[l := f a]> (arrays s)) s).

(** {} *)
Definition dict_new : M State loc :=
  let* l := gets (fun s => length (dicts s)) in
  modify (fun s => set_dicts (dicts s ++ [∅]) s) >>
  ret l.

Definition dict_get (d : loc) : M State (gmap Z Position) :=
  let* o := gets (fun s => dicts s !! d) in
  match o with
  | Some m => ret m
  | None => raise dangling
  end.

(** d[k] *)
Definition dict_getitem (d : loc) (k : Z) : M State Position :=
  let* m := dict_get d in
  match m !! k with
  | Some v => ret v
  | None => raise (mkExn KeyError (pretty k))
  end.

(** d[k] = v *)
Definition dict_setitem (d : loc) (k : Z) (v : Position) : M State unit :=
  let* m := dict_get d in
  modify (fun s => set_dicts (<[d := <[k := v]> m]> (dicts s)) s).

(** *** Collaborators *)

(** One step of the camera's iterator that yields [(t, a)]: the frame is a
    new array. *)
Definition camera_yield (t : Z) (a : ndarray) : M State loc :=
  let* frame := gets (fun s => length (arrays s)) in
  ext (CameraNext (Some (t, frame))) >>
  ndarray_new a.

Inductive LoopCtl := Continue | Break.

(** for i, (t, frame) in enumerate(camera) *)
Fixpoint for_camera (body : Z -> Z -> loc -> M State LoopCtl) (i : Z) (items : Camera)
  : M State unit :=
  match items with
  | [] => ext (CameraNext None)
  | (t, a) :: rest =>
      let* frame := camera_yield t a in
      let* ctl := body i t frame in
      match ctl with
      | Break => ret tt
      | Continue => for_camera body (i + 1) rest
      end
  end.

(** TrackingUnit(tracker_class, r, inter) *)
Definition TrackingUnit__init__ (tracker_class : TrackerClass) (r : ROI)
    (inter : option Interactor) : M State (TrackingUnit Interactor Tracker) :=
  call (NewTrackingUnit (idx r) (bool_decide (is_Some inter))) >>
  ret (mkTrackingUnit r inter (tracker_new tracker_class r inter)).

(** track_u(t, frame), for the unit at position j of the list *)
Definition TrackingUnit__call__ (j : nat) (t : Z) (frame : loc) : M State (option DataRow) :=
  ext (Track j t frame) >>
  let* a := ndarray_get frame in
  let* units := getattr _unit_trackers in
  match units !! j with
  | Some u =>
      let r := tracker_call (tracker u) t a in
      setattr (set__unit_trackers (<[j := mkTrackingUnit (roi u) (interactor u) (fst r)]> units)) >>
      ret (snd r)
  | None => raise dangling
  end.

(** track_u.get_last_position(absolute=...) *)
Definition TrackingUnit_get_last_position (j : nat) (absolute : bool)
  : M State (option Position) :=
  ext (GetLastPosition j absolute) >>
  let* units := getattr _unit_trackers in
  match units !! j with
  | Some u => ret (tracker_get_last_position (tracker u) absolute)
  | None => raise dangling
  end.

Definition ResultWriter__init__ (file : string) (metadata : option string)
  : M State ResultWriter :=
  ext (NewResultWriter file) >> ret (mkResultWriter file metadata).

Definition ResultWriter_write (rw : ResultWriter) (t : Z) (r : ROI) (row : DataRow)
  : M State unit := ext (WriteRow t (idx r) row).

Definition ResultWriter_flush (rw : ResultWriter) : M State unit := ext Flush.

Definition ndarray_copy (frame : option loc) : M State loc :=
  match frame with
  | None => raise (mkExn AttributeError "'NoneType' object has no attribute 'copy'")
  | Some src =>
      let* a := ndarray_get src in
      let* dst := gets (fun s => length (arrays s)) in
      ext (CopyFrame src dst) >>
      ndarray_new a
  end.

Definition cv2_draw (img : loc) (op : DrawOp) : M State unit :=
  ext (Draw img op) >> ndarray_update img (draw op).

Definition cv2_putText img text org fontFace fontScale color : M State unit :=
  cv2_draw img (putText text org fontFace fontScale color).
Definition cv2_drawContours img contours contourIdx color thickness lineType : M State unit :=
  cv2_draw img (drawContours contours contourIdx color thickness lineType).
Definition cv2_ellipse img box color thickness lineType : M State unit :=
  cv2_draw img (ellipse box color thickness lineType).

Definition cv2_namedWindow (name : string) (flags : Z) : M State unit :=
  ext (NamedWindow name flags).
Definition cv2_imshow (name : string) (img : loc) : M State unit := ext (Imshow name img).
Definition cv2_waitKey (delay : Z) : M State unit := ext (WaitKey delay).
Definition cv2_destroyAllWindows : M State unit := ext DestroyAllWindows.
Definition cv2_CV_FOURCC (code : string) : M State unit := ext (Fourcc code).
Definition cv2_VideoWriter (path : string) (fps : Z) (size : Z * Z) : M State VideoWriter :=
  ext (NewVideoWriter path fps size) >> ret (mkVideoWriter path fps size).
Definition VideoWriter_write (w : VideoWriter) (img : loc) : M State unit :=
  ext (WriteVideo img).
Definition VideoWriter_release (w : VideoWriter) : M State unit := ext ReleaseVideo.

(** self._window_name; the attribute exists only if [draw_results] was set *)
Definition getattr__window_name : M State string :=
  let* n := getattr _window_name in
  match n with
  | Some n => ret n
  | None => raise (mkExn AttributeError "'Monitor' object has no attribute '_window_name'")
  end.

(** max_duration * 1000 *)
Definition mul (a : option Z) (b : Z) : M State Z :=
  match a with
  | Some a => ret (a * b)
  | None => raise (mkExn TypeError "unsupported operand type(s) for *: 'NoneType' and 'int'")
  end.

(** ** The methods of [Monitor] *)

(** *** __init__ *)

(** The assignments of lines 62 to 81. *)
Definition init_attributes (camera : Camera) (result_file : option string)
    (draw_results : bool) (draw_every_n : Z) (video_out : option string)
    (max_duration : option Z) (metadata : option string) : M State unit :=
  setattr (set__camera camera) >>
  setattr (set__result_file result_file) >>
  setattr (set__metadata metadata) >>
  setattr (set__exception None) >>
  setattr (set__draw_results draw_results) >>
  (let* dr := getattr _draw_results in
   when dr (call GetPid >>
            let* p := gets (fun s => pid (env s)) in
            setattr (set__window_name (Some ("psv_" +:+ pretty p))))) >>
  setattr (set_draw_every_n draw_every_n) >>
  (let* ms := mul max_duration 1000 in
   setattr (set__max_duration (Some ms))) >>
  setattr (set__video_out video_out) >>
  setattr (set__frame_buffer None) >>
  setattr (set__force_stop false) >>
  (let* d := dict_new in setattr (set__last_positions d)) >>
  setattr (set__last_time_stamp 0) >>
  setattr (set__is_running false).

(** Lines 83 to 86: the ROIs, then the camera is restarted. *)
Definition init_rois (rois : option (list ROI)) : M State (list ROI) :=
  let* rois := match rois with
               | None => call BuildROIs >> gets (fun s => default_rois (env s))
               | Some rois => ret rois
               end in
  call CameraRestart >>
  ret rois.

(** Lines 88 to 94: the tracking units. *)
Definition init_units (tracker_class : TrackerClass) (rois : list ROI)
    (interactors : option (list Interactor)) : M State unit :=
  match interactors with
  | None =>
      let* units := comprehension (fun r => TrackingUnit__init__ tracker_class r None) rois in
      setattr (set__unit_trackers units)
  | Some interactors =>
      if Nat.eqb (length interactors) (length rois) then
        let* units := comprehension
                        (fun ri => TrackingUnit__init__ tracker_class (fst ri) (Some (snd ri)))
                        (zip rois interactors) in
        setattr (set__unit_trackers units)
      else raise (mkExn ValueError "You should have one interactor per ROI")
  end.

Definition __init__ (camera : Camera) (tracker_class : TrackerClass)
    (rois : option (list ROI)) (interactors : option (list Interactor))
    (result_file : option string) (draw_results : bool) (draw_every_n : Z)
    (video_out : option string) (max_duration : option Z) (metadata : option string)
  : M State unit :=
  init_attributes camera result_file draw_results draw_every_n video_out max_duration
    metadata >>
  let* rois := init_rois rois in
  init_units tracker_class rois interactors.

(** Monitor(camera, tracker_class, ...): a new object, then [__init__]. *)
Definition Monitor_new camera tracker_class rois interactors result_file draw_results
    draw_every_n video_out max_duration metadata : M State unit :=
  setattr (fun _ => object_new) >>
  __init__ camera tracker_class rois interactors result_file draw_results
    draw_every_n video_out max_duration metadata.

(** *** _draw_on_frame *)

(** The body of the for statement of [_draw_on_frame]: lines 134 to 153. *)
Definition draw_unit (positions : loc) (frame_cp : loc)
    (track_u : TrackingUnit Interactor Tracker) : M State unit :=
  cv2_putText frame_cp (pretty (idx (roi track_u))) (offset (roi track_u))
    FONT_HERSHEY_COMPLEX_SMALL (3 # 4)%Q (255, 255, 0) >>
  let* pos := try_KeyError (dict_getitem positions (idx (roi track_u))) in
  match pos with
  | None => ret tt
  | Some pos =>
      let roi_colour := if has_interacted pos then (0, 255, 0) else (255, 0, 255) in
      let colour := if is_inferred pos then (255, 0, 0) else (0, 255, 255) in
      cv2_drawContours frame_cp [polygon (roi track_u)] (-1) roi_colour 1 CV_AA >>
      cv2_ellipse frame_cp ((pos_x pos, pos_y pos), (pos_w pos, pos_h pos), pos_phi pos)
        colour 1 CV_AA
  end.

Definition _draw_on_frame (frame : option loc) : M State loc :=
  let* frame_cp := ndarray_copy frame in
  let* positions := getattr _last_positions in
  let* units := getattr _unit_trackers in
  for_each (draw_unit positions frame_cp) units >>
  ret frame_cp.

(** *** The read accessors *)

Definition reraise : M State unit :=
  let* e := getattr _exception in
  match e with
  | Some e => raise e
  | None => ret tt
  end.

Definition last_positions : M State loc :=
  reraise >> getattr _last_positions.

Definition last_time_stamp : M State Q :=
  reraise >>
  let* ts := getattr _last_time_stamp in
  ret (ts # 1000)%Q.

Definition last_drawn_frame : M State loc :=
  reraise >>
  let* fb := getattr _frame_buffer in
  _draw_on_frame fb.

Definition result_files : M State (list (option string)) :=
  reraise >>
  let* f := getattr _result_file in
  ret [f].

(** What a client can ask of the object, and what comes back. *)
Inductive Request :=
| Get_last_positions | Get_last_time_stamp | Get_last_drawn_frame | Get_result_files
| Call_stop.

Inductive Value :=
| VDict (d : loc) | VFloat (q : Q) | VFrame (f : loc) | VList (l : list (option string))
| VNone.

Definition request (r : Request) : M State Value :=
  match r with
  | Get_last_positions => let* d := last_positions in ret (VDict d)
  | Get_last_time_stamp => let* q := last_time_stamp in ret (VFloat q)
  | Get_last_drawn_frame => let* f := last_drawn_frame in ret (VFrame f)
  | Get_result_files => let* l := result_files in ret (VList l)
  | Call_stop => stop >> ret VNone
  end.

(** *** run *)

(** self._draw_results and i % self.draw_every_n == 0 *)
Definition draw_due (i : Z) : M State bool :=
  let* dr := getattr _draw_results in
  if dr then
    let* n := getattr draw_every_n in
    if n =? 0 then raise (mkExn ZeroDivisionError "integer division or modulo by zero")
    else ret (i mod n =? 0)
  else ret false.

(** The tracking of one unit: lines 188 to 198. *)
Definition track_one (t : Z) (frame : loc) (j : nat)
    (track_u : TrackingUnit Interactor Tracker) : M State unit :=
  let* data_row := TrackingUnit__call__ j t frame in
  match data_row with
  | None => ret tt
  | Some data_row =>
      let* abs_pos := TrackingUnit_get_last_position j true in
      (match abs_pos with
       | Some abs_pos =>
           let* d := getattr _last_positions in
           dict_setitem d (idx (roi track_u)) abs_pos
       | None => ret tt
       end) >>
      let* rw := gets result_writer in
      match rw with
      | Some rw => ResultWriter_write rw t (roi track_u) data_row
      | None => ret tt
      end
  end.

(** Lines 181 and 182: the video writer is opened at the first frame. *)
Definition open_video (frame : loc) : M State unit :=
  let* video_out := getattr _video_out in
  let* vw0 := gets vw in
  match video_out, vw0 with
  | Some path, None =>
      cv2_CV_FOURCC "DIVX" >>
      let* a := ndarray_get frame in
      let* w := cv2_VideoWriter path 50 (snd (shape a), fst (shape a)) in
      modify (set_vw (Some w))
  | _, _ => ret tt
  end.

(** Lines 184 to 198: every tracking unit, in the order of the list. *)
Definition fan_out (t : Z) (frame : loc) : M State unit :=
  let* units := getattr _unit_trackers in
  for_enumerate (track_one t frame) 0%nat units.

(** Lines 200 and 201. *)
Definition flush_results : M State unit :=
  let* rw := gets result_writer in
  match rw with
  | Some rw => ResultWriter_flush rw
  | None => ret tt
  end.

(** Lines 203 to 210: the window and the video. *)
Definition show (i : Z) (frame : loc) : M State unit :=
  let* due := draw_due i in
  let* vw1 := gets vw in
  if due || bool_decide (is_Some vw1) then
    let* tmp := _draw_on_frame (Some frame) in
    (let* due := draw_due i in
     when due (let* name := getattr__window_name in
               cv2_imshow name tmp >> cv2_waitKey 1)) >>
    let* vw2 := gets vw in
    match vw2 with
    | Some w => VideoWriter_write w tmp
    | None => ret tt
    end
  else ret tt.

(** What follows the two stop conditions: lines 178 to 210. *)
Definition process_frame (i : Z) (t : Z) (frame : loc) : M State unit :=
  setattr (set__last_time_stamp t) >>
  setattr (set__frame_buffer (Some frame)) >>
  open_video frame >>
  fan_out t frame >>
  flush_results >>
  show i frame.

Definition stop_msg : string := "Monitor object stopped from external request".
Definition timeout_msg : string := "Monitor object stopped by timeout".

(** The body of the for statement: lines 171 to 210. *)
Definition loop_body (i : Z) (t : Z) (frame : loc) : M State LoopCtl :=
  let* force_stop := getattr _force_stop in
  let* max_duration := getattr _max_duration in
  if force_stop then
    logging_info stop_msg >> ret Break
  else if match max_duration with Some d => bool_decide (t > d) | None => false end then
    logging_info timeout_msg >> ret Break
  else
    process_frame i t frame >> ret Continue.

(** What precedes the loop: lines 162 to 166. *)
Definition run_setup : M State unit :=
  (let* dr := getattr _draw_results in
   when dr (let* name := getattr__window_name in
            cv2_namedWindow name CV_WINDOW_AUTOSIZE)) >>
  (let* result_file := getattr _result_file in
   match result_file with
   | Some f =>
       let* md := getattr _metadata in
       let* rw := ResultWriter__init__ f md in
       modify (set_result_writer (Some rw))
   | None => ret tt
   end).

(** The for statement: lines 169 to 210. *)
Definition run_loop : M State unit :=
  let* camera := getattr _camera in
  for_camera loop_body 0 camera.

(** The try block: lines 162 to 210. *)
Definition run_try : M State unit :=
  run_setup >>
  setattr (set__is_running true) >>
  run_loop.

(** The two except clauses: lines 213 to 221. *)
Definition run_except (e : Exn) : M State unit :=
  if isinstance_PSVException e then
    logging_error ("A PysoloVideo exception '" +:+ exn_msg e +:+
                   "' was detected by Monitor object") >>
    setattr (set__exception (Some e))
  else
    logging_error ("An undefined exception '" +:+ exn_msg e +:+
                   "' was detected by Monitor object") >>
    setattr (set__exception (Some e)).

(** Lines 225 to 236: the windows, the video writer, the last log line. *)
Definition teardown : M State unit :=
  try_pass (cv2_waitKey 1 >> cv2_destroyAllWindows >> cv2_waitKey 1) >>
  (let* w := gets vw in
   match w with
   | Some w => VideoWriter_release w
   | None => ret tt
   end) >>
  logging_info "Monitor closing".

(** The finally clause: lines 223 to 236. *)
Definition run_finally : M State unit :=
  setattr (set__is_running false) >>
  teardown.

Definition run : M State unit :=
  modify (set_vw None) >>
  modify (set_result_writer None) >>
  try_finally (try_except run_try run_except) run_finally.

End Monitor.

(** ** A concrete tracking unit

    A unit that replays a script: every call consumes one entry, which says
    whether a data row is produced and which position the unit then holds. *)

Definition Script := list (option (DataRow * option Position)).

Record Replay := mkReplay { script : Script; held : option Position }.

Definition replay_call (r : Replay) (t : Z) (a : ndarray) : Replay * option DataRow :=
  match script r with
  | [] => (r, None)
  | None :: rest => (mkReplay rest (held r), None)
  | Some (row, p) :: rest => (mkReplay rest p, Some row)
  end.

#[global] Instance Replay_API : TrackingUnitAPI (Z -> Script) string Replay := {
  tracker_new := fun tc r _ => mkReplay (tc (idx r)) None;
  tracker_call := replay_call;
  tracker_get_last_position := fun r _ => held r }.

(** An environment in which nothing raises and nobody calls [stop()]. *)
Definition calm : Env := mkEnv (fun _ => None) (fun _ => false) 4242 [].

Definition world0 (e : Env) : @State string Replay :=
  mkState e object_new None None [] [] [].

(** ** Relations between the state before and after a computation *)

Section Relations.
Context {Interactor Tracker : Type}.
Abbreviation State := (@State Interactor Tracker).

(** Whatever [m] does and however it ends, the states before and after it
    are related by [R]. *)
Definition always {A} (R : State -> State -> Prop) (m : M State A) : Prop :=
  forall s, R s (snd (m s)).

(** The observation [f] of the state is left as it was. *)
Definition keeps {B} (f : State -> B) : State -> State -> Prop :=
  fun s s' => f s' = f s.

(** The trace is extended by items that satisfy [phi]. *)
Definition emits (phi : Item -> Prop) : State -> State -> Prop :=
  fun s s' => exists d, trace s' = d ++ trace s /\ Forall phi d.

End Relations.

(** ** Concrete scenes *)

Definition roi1 : ROI := mkROI 1 [(0, 0); (0, 5); (5, 5)] (2, 2).
Definition roi2 : ROI := mkROI 2 [(10, 0); (10, 5); (15, 5)] (12, 2).
Definition pos1 : Position := mkPosition 1 2 3 4 5 false true.
Definition pos2 : Position := mkPosition 6 7 8 9 0 true false.
Definition blank : ndarray := mkNdarray (4, 6) [0; 1] [].

(** The unit of ROI 1 yields a row and holds [pos1] at the first frame and
    yields nothing at the second; the unit of ROI 2 never yields. *)
Definition scripts : Z -> Script :=
  fun i => if i =? 1 then [Some ([7], Some pos1); None] else [None; None].

(** Monitor(camera, scripts, rois=[roi1, roi2], max_duration=5), with two
    frames in the camera. *)
Definition built (e : Env) : @State string Replay :=
  snd (Monitor_new [(10, blank); (20, blank)] scripts (Some [roi1; roi2]) None
         None false 1 None (Some 5) None (world0 e)).

(** ** Vocabulary of the statements *)

Section Vocabulary.
Context {Interactor Tracker : Type}.
Abbreviation State := (@State Interactor Tracker).

(** No call into a collaborator raises. *)
Definition no_faults (s : State) : Prop := forall n, fault (env s) n = None.

(** Everything but the trace and the stop flag. *)
Definition core (s : State) :=
  (env s, vw s, result_writer s, arrays s, dicts s, set__force_stop false (self s)).

(** The call [c] was made, whether it returned or raised. *)
Definition made (c : Call) (it : Item) : Prop :=
  it = Called c \/ exists e, it = Raised c e.

(** The calls that [__init__] makes before it builds tracking units. *)
Definition setup_call (c : Call) : Prop :=
  c = GetPid \/ c = BuildROIs \/ c = CameraRestart.

Definition setup_item (it : Item) : Prop := exists c, made c it /\ setup_call c.

(** What the finally clause of [run] may leave in the trace; the controlling
    thread may call [stop()] meanwhile. *)
Definition shutdown_item (it : Item) : Prop :=
  made (WaitKey 1) it \/ made DestroyAllWindows it \/ made ReleaseVideo it \/
  it = Logged INFO "Monitor closing" \/ exists r, it = Client_stop r.

(** The running flag and the stored fatal error. *)
Definition running (s : State) : bool := _is_running (self s).
Definition stored (s : State) : option Exn := _exception (self s).

(** What the tracking of a frame reads besides the units' own state. *)
Definition tracked (s : State) :=
  (arrays s, dicts s, _unit_trackers (self s), _last_positions (self s)).

(** The dictionary behind [_last_positions]. *)
Definition table (s : State) : option (gmap Z Position) :=
  dicts s !! _last_positions (self s).

(** A client makes the requests of [rqs] one after the other. *)
Fixpoint serve (rqs : list Request) (s : State) : list (Res Value) * State :=
  match rqs with
  | [] => ([], s)
  | rq :: rqs' =>
      let (r, s1) := request rq s in
      let (rs, s2) := serve rqs' s1 in
      (r :: rs, s2)
  end.

End Vocabulary.

(** ** What the renderer draws *)

Section Overlay.
Context {Interactor Tracker : Type}.
Abbreviation State := (@State Interactor Tracker).

(** Everything but the trace, the stop flag and the frames. *)
Definition rest (s : State) :=
  (env s, vw s, result_writer s, dicts s, set__force_stop false (self s)).

(** The frame [a] with the drawing primitives [ops] applied after those it
    already carries. *)
Definition imprint (ops : list DrawOp) (a : ndarray) : ndarray :=
  mkNdarray (shape a) (pixels a) (drawn a ++ ops).

Definition label (r : ROI) : DrawOp :=
  putText (pretty (idx r)) (offset r) FONT_HERSHEY_COMPLEX_SMALL (3 # 4)%Q (255, 255, 0).

Definition outline (r : ROI) (pos : Position) : DrawOp :=
  drawContours [polygon r] (-1)
    (if has_interacted pos then (0, 255, 0) else (255, 0, 255)) 1 CV_AA.

Definition mark (pos : Position) : DrawOp :=
  ellipse ((pos_x pos, pos_y pos), (pos_w pos, pos_h pos), pos_phi pos)
    (if is_inferred pos then (255, 0, 0) else (0, 255, 255)) 1 CV_AA.

(** The primitives drawn for one ROI, given the table of last positions. *)
Definition overlay_of (tbl : gmap Z Position) (r : ROI) : list DrawOp :=
  label r :: match tbl !! idx r with
             | None => []
             | Some pos => [outline r pos; mark pos]
             end.

(** The annotated frame as a function of the frame, the ROIs and the table. *)
Definition annotate (a : ndarray) (rois : list ROI) (tbl : gmap Z Position) : ndarray :=
  imprint (concat (overlay_of tbl <$> rois)) a.

End Overlay.

(** [built calm] after [run()]: both frames were processed, ROI 1 has a last
    position, ROI 2 has none. *)
Definition ran : @State string Replay := snd (run (built calm)).

(** A drawing primitive that is not the outline of [r]. *)
Definition not_outline_of (r : ROI) (op : DrawOp) : Prop :=
  match op with
  | drawContours c _ _ _ _ => c <> [polygon r]
  | _ => True
  end.

(** Monitor(camera, scripts, rois=[roi1, roi2], video_out="out.avi",
    max_duration=5). *)
Definition recording (e : Env) : @State string Replay :=
  snd (Monitor_new [(10, blank); (20, blank)] scripts (Some [roi1; roi2]) None
         None false 1 (Some "out.avi") (Some 5) None (world0 e)).



(** [stop()] is called at moment 8: with [recording], while the unit of
    ROI 2 tracks the first frame. *)
Definition interrupted : Env :=
  mkEnv (fun _ => None) (fun n => (n =? 8)%nat) 4242 [].

(** ** What a frame does to the table of last positions *)

Section Aggregation.
Context {TrackerClass Interactor Tracker : Type}.
Context `{API : TrackingUnitAPI TrackerClass Interactor Tracker}.

(** The data row that the unit [u] yields when called on [(t, a)], if any,
    and the unit after the call. *)
Definition yields (u : TrackingUnit Interactor Tracker) (t : Z) (a : ndarray)
  : option DataRow := snd (tracker_call (tracker u) t a).

Definition advanced (u : TrackingUnit Interactor Tracker) (t : Z) (a : ndarray)
  : TrackingUnit Interactor Tracker :=
  mkTrackingUnit (roi u) (interactor u) (fst (tracker_call (tracker u) t a)).

(** The absolute position the monitor gets from [u] for this frame: the one
    the unit holds after the call, asked for only if a row was yielded. *)
Definition sighting (u : TrackingUnit Interactor Tracker) (t : Z) (a : ndarray)
  : option Position :=
  match yields u t a with
  | Some _ => tracker_get_last_position (tracker (advanced u t a)) true
  | None => None
  end.

Definition upsert (t : Z) (a : ndarray) (tbl : gmap Z Position)
    (u : TrackingUnit Interactor Tracker) : gmap Z Position :=
  match sighting u t a with
  | Some p => <[idx (roi u) := p]> tbl
  | None => tbl
  end.

(** The table after the units of [us] have tracked the frame, in order. *)
Definition aggregate (t : Z) (a : ndarray) (us : list (TrackingUnit Interactor Tracker))
    (tbl : gmap Z Position) : gmap Z Position :=
  foldl (upsert t a) tbl us.

End Aggregation.

(** [built calm] with a first frame in the store, at address 0. *)
Definition framed : @State string Replay := snd (ndarray_new blank (built calm)).

(** ** The stop protocol

    What the trace of a run may look like once [stop()] has been called with
    success.  The trace is read from its oldest item to its newest. *)

(** A frame is acquired from the camera. *)
Definition is_acquisition (it : Item) : bool :=
  match it with
  | Called (CameraNext (Some _)) => true
  | _ => false
  end.

(** The items of the finally clause, as a test. *)
Definition is_shutdown (it : Item) : bool :=
  match it with
  | Called (WaitKey d) | Raised (WaitKey d) _ => bool_decide (d = 1)
  | Called DestroyAllWindows | Raised DestroyAllWindows _ => true
  | Called ReleaseVideo | Raised ReleaseVideo _ => true
  | Logged INFO msg => String.eqb msg "Monitor closing"
  | Client_stop _ => true
  | _ => false
  end.

Inductive Mode :=
| Free       (* no call of stop() has succeeded *)
| Pending    (* stop() has succeeded; the frame in flight may be finished *)
| Acquired   (* one more frame has been acquired since *)
| Down       (* the loop has logged the stop request and is left *)
| Broken.    (* something else happened *)

Definition step (m : Mode) (it : Item) : Mode :=
  match m with
  | Free => match it with
            | Client_stop (Ok _) => Pending
            | _ => Free
            end
  | Pending => if is_acquisition it then Acquired else Pending
  | Acquired => match it with
                | Logged INFO msg =>
                    if String.eqb msg "Monitor object stopped from external request"
                    then Down else Broken
                | _ => Broken
                end
  | Down => if is_shutdown it then Down else Broken
  | Broken => Broken
  end.

(** The mode after the items of [d], newest first, starting in mode [m]. *)
Definition mode_after (m : Mode) (d : list Item) : Mode :=
  foldr (fun it m => step m it) m d.

Definition settled (m : Mode) : Prop := m = Free \/ m = Pending \/ m = Down.
Definition in_flight (m : Mode) : Prop := m = Free \/ m = Pending.

Section Protocol.
Context {Interactor Tracker : Type}.
Abbreviation State := (@State Interactor Tracker).

(** In mode [Pending] the stop flag is set and no error is stored. *)
Definition coherent (m : Mode) (s : State) : Prop :=
  m = Pending -> _force_stop (self s) = true /\ stored s = None.

(** What the code of a frame in flight does: it acquires no frame, and it
    keeps the mode among [Free] and [Pending], coherent with the state. *)
Definition flying : State -> State -> Prop :=
  fun s s' =>
    exists d, trace s' = d ++ trace s /\
              forall m, in_flight m -> coherent m s ->
                        in_flight (mode_after m d) /\ coherent (mode_after m d) s'.

End Protocol.

(** ** Vocabulary of the properties of the whole class

    Kinds of calls, observations of the state, and relations between the
    state before and after a computation. *)

(** The calls that concern the video file. *)
Definition video_call (c : Call) : bool :=
  match c with
  | Fourcc _ | NewVideoWriter _ _ _ | WriteVideo _ | ReleaseVideo => true
  | _ => false
  end.

(** The renderer and the window. *)
Definition render_call (c : Call) : bool :=
  match c with
  | NamedWindow _ _ | CopyFrame _ _ | Draw _ _ | Imshow _ _ => true
  | _ => false
  end.

(** The calls that concern the result file. *)
Definition result_call (c : Call) : bool :=
  match c with
  | NewResultWriter _ | WriteRow _ _ _ | Flush => true
  | _ => false
  end.

(** The call an item of the trace is about, if it is about one. *)
Definition call_of (it : Item) : option Call :=
  match it with
  | Called c | Raised c _ => Some c
  | _ => None
  end.

(** No call of the kind [p] is behind the item. *)
Definition avoids (p : Call -> bool) (it : Item) : Prop :=
  match call_of it with Some c => p c = false | None => True end.

Section Under.
Context {Interactor Tracker : Type}.
Abbreviation State := (@State Interactor Tracker).

(** [R] for the computations that start where [P] holds, and [P] still holds
    after them. *)
Definition under (P : State -> Prop) (R : State -> State -> Prop)
  : State -> State -> Prop :=
  fun s s' => P s -> P s' /\ R s s'.

(** No video file is asked for and none is open. *)
Definition no_video (s : State) : Prop := _video_out (self s) = None /\ vw s = None.

(** Nothing is to be displayed either. *)
Definition no_display (s : State) : Prop := _draw_results (self s) = false /\ no_video s.

(** No result file is asked for and no writer is open. *)
Definition no_results (s : State) : Prop :=
  _result_file (self s) = None /\ result_writer s = None.

End Under.

Section Observations.
Context {Interactor Tracker : Type}.
Abbreviation State := (@State Interactor Tracker).

(** What the constructor sets and [run] only reads. *)
Definition configuration (s : State) :=
  (_camera (self s), _result_file (self s), _metadata (self s), _draw_results (self s),
   _window_name (self s), draw_every_n (self s), _max_duration (self s),
   _video_out (self s), _last_positions (self s)).

(** The ROIs and the interactors of the tracking units, in the order of the
    list. *)
Definition assignment (s : State) : list ROI * list (option Interactor) :=
  (roi <$> _unit_trackers (self s), interactor <$> _unit_trackers (self s)).

(** The store of frames is extended: what was in it is still there, as it was. *)
Definition grows : State -> State -> Prop :=
  fun s s' => arrays s `prefix_of` arrays s'.

(** The frame being processed. *)
Definition in_progress (s : State) := (_last_time_stamp (self s), _frame_buffer (self s)).

(** The item is a call of a tracking unit on a frame stamped [t <= d], or it is
    no such call. *)
Definition tracked_within (d : Z) (it : Item) : Prop :=
  match call_of it with
  | Some (Track _ t _) => t <= d
  | _ => True
  end.

(** With a duration [d]: the last time stamp stays within [d], and so does
    every frame handed to a tracking unit. *)
Definition in_time (d : Z) : State -> State -> Prop :=
  fun s s' =>
    _max_duration (self s) = Some d -> _last_time_stamp (self s) <= d ->
    _max_duration (self s') = Some d /\ _last_time_stamp (self s') <= d /\
    emits (tracked_within d) s s'.

End Observations.

(** What is done with a frame that passed the two stop tests. *)
Definition frame_work (c : Call) : bool :=
  match c with
  | Track _ _ _ | GetLastPosition _ _ | WriteRow _ _ _ | Flush | CopyFrame _ _
  | Draw _ _ | Imshow _ _ | Fourcc _ | NewVideoWriter _ _ _ | WriteVideo _ => true
  | _ => false
  end.

Section Stopped.
Context {Interactor Tracker : Type}.
Abbreviation State := (@State Interactor Tracker).

(** The stop flag is set. *)
Definition stopped (s : State) : Prop := _force_stop (self s) = true.

(** What the processing of a frame may change in the object and in the
    dictionaries. *)
Definition frame_state (s : State) :=
  (_last_time_stamp (self s), _frame_buffer (self s), dicts s, _unit_trackers (self s)).

(** The identities of the ROIs of the tracking units. *)
Definition identities (s : State) : list Z := idx ∘ roi <$> _unit_trackers (self s).

(** All units have their identity in [K]. *)
Definition units_in (K : list Z) (s : State) : Prop := identities s ⊆ K.

(** The table of last positions is the same dictionary, it has lost no key,
    and its entries under keys outside of [K] are what they were. *)
Definition keys_in (K : list Z) : State -> State -> Prop :=
  fun s s' =>
    _last_positions (self s') = _last_positions (self s) /\
    length (dicts s') = length (dicts s) /\
    forall tbl, table s = Some tbl ->
      exists tbl', table s' = Some tbl' /\
        forall k, (is_Some (tbl !! k) -> is_Some (tbl' !! k)) /\
                  (k ∉ K -> tbl' !! k = tbl !! k).

End Stopped.

(** What the test of line 203 reads. *)
Definition cadence {Interactor Tracker} (s : @State Interactor Tracker) :=
  (_draw_results (self s), draw_every_n (self s), _window_name (self s)).

(** A video writer was made. *)
Definition is_opening (it : Item) : bool :=
  match it with
  | Called (NewVideoWriter _ _ _) => true
  | _ => false
  end.

(** [vw.release()] was called. *)
Definition is_release (it : Item) : bool :=
  match call_of it with
  | Some ReleaseVideo => true
  | _ => false
  end.

(** The number of items of [d] that pass the test [p]. *)
Fixpoint tally (p : Item -> bool) (d : list Item) : nat :=
  match d with
  | [] => 0
  | it :: d' => ((if p it then 1 else 0) + tally p d')%nat
  end.

Section Opening.
Context {Interactor Tracker : Type}.
Abbreviation State := (@State Interactor Tracker).

(** In the try block the video writer is never released; either none is made
    and the variable [vw] is what it was, or [vw] was [None], one writer
    is made, and [vw] holds it. *)
Definition opens_once : State -> State -> Prop :=
  fun s s' =>
    exists d, trace s' = d ++ trace s /\ tally is_release d = 0%nat /\
      ((vw s' = vw s /\ tally is_opening d = 0%nat) \/
       (vw s = None /\ is_Some (vw s') /\ tally is_opening d = 1%nat)).

End Opening.

(** The unit called and the time stamp of the frame, if the item is the call
    of a tracking unit that returned. *)
Definition tracking_of (it : Item) : option (nat * Z) :=
  match it with
  | Called (Track j t _) => Some (j, t)
  | _ => None
  end.

(** The time stamp of the frame, if the item is the acquisition of a frame. *)
Definition acquisition_of (it : Item) : option Z :=
  match it with
  | Called (CameraNext (Some (t, _))) => Some t
  | _ => None
  end.

(** The item is neither. *)
Definition silent (it : Item) : Prop := tracking_of it = None /\ acquisition_of it = None.

(** The frames of the camera that come before the first one stamped later
    than the duration, all of them if there is no such frame. *)
Fixpoint in_duration (max_duration : option Z) (camera : Camera) : Camera :=
  match camera with
  | [] => []
  | (t, a) :: rest =>
      if match max_duration with Some d => bool_decide (t > d) | None => false end
      then []
      else (t, a) :: in_duration max_duration rest
  end.

(** The calls of [n] tracking units on a frame stamped [t], in order. *)
Definition round (n : nat) (t : Z) : list (nat * Z) := (fun j => (j, t)) <$> seq 0 n.

Section Quiet.
Context {Interactor Tracker : Type}.
Abbreviation State := (@State Interactor Tracker).

(** Nobody calls [stop()]. *)
Definition undisturbed (s : State) : Prop := forall n, stop_at (env s) n = false.

(** With a window asked for, the window has a name and [draw_every_n] is
    not 0: what [__init__] leaves when [draw_every_n] is not 0. *)
Definition displayable (s : State) : Prop :=
  _draw_results (self s) = true ->
  is_Some (_window_name (self s)) /\ draw_every_n (self s) <> 0.

End Quiet.

Section Essentials.
Context {Interactor Tracker : Type}.
Abbreviation State := (@State Interactor Tracker).

(** The surroundings, the configuration and the stored error. *)
Definition essentials (s : State) := (env s, configuration s, stored s).

End Essentials.

(** The calls that a construction which succeeds makes, in order: the
    process id for a window, the ROI builder when no ROIs are given, the
    restart of the camera, one tracking unit per ROI. *)
Definition construction_calls (draw_results : bool) (rois : option (list ROI))
    (default_rois : list ROI) (bound : bool) : list Call :=
  (if draw_results then [GetPid] else []) ++
  match rois with
  | None => BuildROIs :: CameraRestart
            :: ((fun r => NewTrackingUnit (idx r) bound) <$> default_rois)
  | Some rois => CameraRestart :: ((fun r => NewTrackingUnit (idx r) bound) <$> rois)
  end.

(** The state with [d] put before its trace. *)
Definition logged {Interactor Tracker} (d : list Item) (s : @State Interactor Tracker)
  : @State Interactor Tracker :=
  mkState (env s) (self s) (vw s) (result_writer s) (arrays s) (dicts s) (d ++ trace s).

(** ** More concrete scenes *)

(** Monitor(camera, scripts, rois=[roi1, roi2], max_duration=5), with three
    frames in the camera, the second one stamped after the five seconds. *)
Definition overrun (e : Env) : @State string Replay :=
  snd (Monitor_new [(10, blank); (6000, blank); (20, blank)] scripts (Some [roi1; roi2])
         None None false 1 None (Some 5) None (world0 e)).

(** Monitor(camera, scripts, rois=[roi1, roi2], result_file="out.db",
    draw_results=True, draw_every_n=2, max_duration=5). *)
Definition showing (e : Env) : @State string Replay :=
  snd (Monitor_new [(10, blank); (20, blank)] scripts (Some [roi1; roi2]) None
         (Some "out.db") true 2 None (Some 5) None (world0 e)).

(** The same with [draw_every_n=0]. *)
Definition jammed (e : Env) : @State string Replay :=
  snd (Monitor_new [(10, blank); (20, blank)] scripts (Some [roi1; roi2]) None
         (Some "out.db") true 0 None (Some 5) None (world0 e)).

(** Each of them with a first frame in the store, at address 0. *)
Definition shown : @State string Replay := snd (ndarray_new blank (showing calm)).
Definition stuck : @State string Replay := snd (ndarray_new blank (jammed calm)).
Definition filming : @State string Replay := snd (ndarray_new blank (recording calm)).

(** [shown] once what precedes the loop of [run] has made the result writer. *)
Definition writing : @State string Replay := snd (run_setup shown).

(** [built calm] after a call of [stop()]. *)
Definition halted : @State string Replay := snd (stop (built calm)).

(** The tracking unit of ROI 1, as [__init__] makes it. *)
Definition unit1 : TrackingUnit string Replay :=
  mkTrackingUnit roi1 None (mkReplay (scripts 1) None).

(** * Properties *)

Section Combinators.
Context {Interactor Tracker : Type}.
Abbreviation State := (@State Interactor Tracker).
Context {R : State -> State -> Prop} `{!PreOrder R}.

Lemma always_ret {A} (a : A) : always R (ret a).
Proof. intros s. reflexivity. Qed.

Lemma always_raise {A} (e : Exn) : always R (raise (A := A) e).
Proof. intros s. reflexivity. Qed.

Lemma always_gets {A} (f : State -> A) : always R (gets f).
Proof. intros s. reflexivity. Qed.

Lemma always_getattr {A} (f : Monitor -> A) : always R (getattr f).
Proof. intros s. reflexivity. Qed.

Lemma always_modify (g : State -> State) :
  (forall s, R s (g s)) -> always R (modify g).
Proof. intros H s. apply H. Qed.

Lemma always_bind {A B} (m : M State A) (k : A -> M State B) :
  always R m -> (forall a, always R (k a)) -> always R (bind m k).
Proof.
  intros Hm Hk s. unfold bind. specialize (Hm s).
  destruct (m s) as [[a|e] s1]; simpl in *; [|exact Hm].
  etransitivity; [exact Hm | apply Hk].
Qed.

Lemma always_when (b : bool) (m : M State unit) :
  always R m -> always R (when b m).
Proof. intros Hm. destruct b; [exact Hm | apply always_ret]. Qed.

Lemma always_try_except {A} (m : M State A) (h : Exn -> M State A) :
  always R m -> (forall e, always R (h e)) -> always R (try_except m h).
Proof.
  intros Hm Hh s. unfold try_except. specialize (Hm s).
  destruct (m s) as [[a|e] s1]; simpl in *; [exact Hm|].
  etransitivity; [exact Hm | apply Hh].
Qed.

Lemma always_try_pass (m : M State unit) : always R m -> always R (try_pass m).
Proof. intros Hm. apply always_try_except; [exact Hm | intros; apply always_ret]. Qed.

Lemma always_try_finally {A} (m : M State A) (f : M State unit) :
  always R m -> always R f -> always R (try_finally m f).
Proof.
  intros Hm Hf s. unfold try_finally. specialize (Hm s).
  destruct (m s) as [r s1]; simpl in *. specialize (Hf s1).
  destruct (f s1) as [[[]|e] s2]; simpl in *; etransitivity; eauto.
Qed.

Lemma always_try_KeyError {A} (m : M State A) : always R m -> always R (try_KeyError m).
Proof.
  intros Hm s. unfold try_KeyError. specialize (Hm s).
  destruct (m s) as [[a|e] s1]; simpl in *; [exact Hm|].
  destruct (isinstance_KeyError e); exact Hm.
Qed.

Lemma always_for_enumerate {A} (body : nat -> A -> M State unit) (l : list A) :
  (forall j a, always R (body j a)) -> forall j, always R (for_enumerate body j l).
Proof.
  intros Hb. induction l as [|a l IH]; intros j; simpl.
  - apply always_ret.
  - apply always_bind; [apply Hb | intros _; apply IH].
Qed.

Lemma always_for_each {A} (body : A -> M State unit) (l : list A) :
  (forall a, always R (body a)) -> always R (for_each body l).
Proof. intros Hb. apply always_for_enumerate. intros _ a. apply Hb. Qed.

Lemma always_comprehension {A B} (f : A -> M State B) (l : list A) :
  (forall a, always R (f a)) -> always R (comprehension f l).
Proof.
  intros Hf. induction l as [|a l IH]; simpl.
  - apply always_ret.
  - apply always_bind; [apply Hf | intros b].
    apply always_bind; [exact IH | intros bs; apply always_ret].
Qed.

Lemma bind_ret {A B} (a : A) (k : A -> M State B) (s : State) :
  bind (ret a) k s = k a s.
Proof. reflexivity. Qed.

Lemma bind_raise {A B} (e : Exn) (k : A -> M State B) (s : State) :
  bind (raise e) k s = (Raise e, s).
Proof. reflexivity. Qed.

Lemma bind_gets {A B} (f : State -> A) (k : A -> M State B) (s : State) :
  bind (gets f) k s = k (f s) s.
Proof. reflexivity. Qed.

Lemma bind_getattr {A B} (f : Monitor -> A) (k : A -> M State B) (s : State) :
  bind (getattr f) k s = k (f (self s)) s.
Proof. reflexivity. Qed.

Lemma bind_modify {B} (g : State -> State) (k : unit -> M State B) (s : State) :
  bind (modify g) k s = k tt (g s).
Proof. reflexivity. Qed.

Lemma bind_setattr {B} (g : Monitor -> Monitor) (k : unit -> M State B) (s : State) :
  bind (setattr g) k s = k tt (upd_self g s).
Proof. reflexivity. Qed.

Lemma bind_bind {A B C} (m : M State A) (k : A -> M State B) (k' : B -> M State C)
    (s : State) :
  bind (bind m k) k' s = bind m (fun a => bind (k a) k') s.
Proof. unfold bind. destruct (m s) as [[a|e] s1]; reflexivity. Qed.

Lemma bind_eq {A B} (m : M State A) (k : A -> M State B) (s : State) r s1 :
  m s = (r, s1) ->
  bind m k s = match r with Ok a => k a s1 | Raise e => (Raise e, s1) end.
Proof. intros H. unfold bind. rewrite H. reflexivity. Qed.

End Combinators.

#[global] Instance keeps_preorder {Interactor Tracker B}
  (f : @State Interactor Tracker -> B) : PreOrder (keeps f).
Proof.
  split.
  - intros s. reflexivity.
  - intros s1 s2 s3 H12 H23. unfold keeps in *. congruence.
Qed.

#[global] Instance emits_preorder {Interactor Tracker} (phi : Item -> Prop) :
  PreOrder (@emits Interactor Tracker phi).
Proof.
  split.
  - intros s. exists []. split; [reflexivity | constructor].
  - intros s1 s2 s3 (d1 & H1 & F1) (d2 & H2 & F2). exists (d2 ++ d1).
    split; [rewrite H2, H1; apply app_assoc | apply Forall_app; auto].
Qed.

Section Loop.
Context {TrackerClass Interactor Tracker : Type}.
Context `{API : TrackingUnitAPI TrackerClass Interactor Tracker}.
Abbreviation State := (@State Interactor Tracker).
Context {R : State -> State -> Prop} `{!PreOrder R}.

Lemma always_ext (c : Call) :
  always R interleave -> always R (call c) -> always R (ext c).
Proof. intros Hi Hc. apply always_bind; [exact Hi | intros _; exact Hc]. Qed.

Lemma always_for_camera (body : Z -> Z -> loc -> M State LoopCtl) :
  always R interleave -> (forall c, always R (call c)) ->
  (forall a, always R (ndarray_new a)) ->
  (forall i t frame, always R (body i t frame)) ->
  forall items i, always R (for_camera body i items).
Proof.
  intros Hi Hc Hn Hb. induction items as [|[t a] rest IH]; intros i; simpl.
  - apply always_ext; auto.
  - apply always_bind.
    + unfold camera_yield. apply always_bind; [apply always_gets | intros l].
      apply always_bind; [apply always_ext; auto | intros _; apply Hn].
    + intros frame. apply always_bind; [apply Hb | intros [|]].
      * apply IH.
      * apply always_ret.
Qed.

End Loop.

(** Decomposition of [always R m] along the structure of [m]; what is left
    are the assignments, for the relation at hand. *)
Ltac head_of t := match t with ?f _ => head_of f | _ => t end.

Ltac always_step :=
  lazymatch goal with
  | |- always _ (bind _ _) => apply always_bind; [|intros]
  | |- always _ (ret _) => apply always_ret
  | |- always _ (raise _) => apply always_raise
  | |- always _ (gets _) => apply always_gets
  | |- always _ (getattr _) => apply always_getattr
  | |- always _ (when _ _) => apply always_when
  | |- always _ (try_except _ _) => apply always_try_except; [|intros]
  | |- always _ (try_pass _) => apply always_try_pass
  | |- always _ (try_finally _ _) => apply always_try_finally
  | |- always _ (try_KeyError _) => apply always_try_KeyError
  | |- always _ (for_enumerate _ _ _) => apply always_for_enumerate; intros
  | |- always _ (for_each _ _) => apply always_for_each; intros
  | |- always _ (comprehension _ _) => apply always_comprehension; intros
  | |- always _ (for_camera _ _ _) => apply always_for_camera; intros
  | |- always _ (ext _) => apply always_ext
  | |- always _ interleave => try solve [auto]
  | |- always _ (call _) => try solve [auto]
  | |- always _ (modify _) => apply always_modify; intros
  | |- always _ (setattr _) => apply always_modify; intros
  | |- always _ (logging_info _) => apply always_modify; intros
  | |- always _ (logging_error _) => apply always_modify; intros
  | |- always _ (match ?x with _ => _ end) => destruct x
  | |- always _ (let (_, _) := ?x in _) => destruct x
  | |- always _ ?m => let h := head_of m in unfold h
  end.

Ltac always_tac := repeat always_step.

(** One step of a computation whose first statement is a read, an
    assignment, a return or a raise. *)
Ltac mstep :=
  repeat first
    [ rewrite bind_bind | rewrite bind_ret | rewrite bind_raise | rewrite bind_gets
    | rewrite bind_getattr | rewrite bind_modify | rewrite bind_setattr ].

Section Frames.
Context {TrackerClass Interactor Tracker : Type}.
Context `{API : TrackingUnitAPI TrackerClass Interactor Tracker}.
Abbreviation State := (@State Interactor Tracker).

(** An observation that looks neither at the trace nor at the stop flag is
    not changed by a call into a collaborator. *)
Lemma keeps_interleave {B} (f : State -> B) :
  (forall it s, f (record it s) = f s) ->
  (forall s, f (upd_self (set__force_stop true) s) = f s) ->
  always (keeps f) interleave.
Proof.
  intros Hr Hf s. unfold keeps, interleave.
  destruct (stop_at _ _); [|reflexivity].
  unfold stop, getattr, gets, bind, setattr, modify, raise.
  destruct (_exception (self s)); simpl; rewrite Hr; [reflexivity | apply Hf].
Qed.

Lemma keeps_call {B} (f : State -> B) (c : Call) :
  (forall it s, f (record it s) = f s) -> always (keeps f) (call c).
Proof.
  intros Hr s. unfold keeps, call. destruct (fault _ _); simpl; apply Hr.
Qed.

Lemma keeps_ext {B} (f : State -> B) (c : Call) :
  (forall it s, f (record it s) = f s) ->
  (forall s, f (upd_self (set__force_stop true) s) = f s) ->
  always (keeps f) (ext c).
Proof.
  intros Hr Hf. apply always_ext; [apply keeps_interleave | apply keeps_call]; auto.
Qed.

Lemma emits_record (phi : Item -> Prop) (it : Item) (s : State) :
  phi it -> emits phi s (record it s).
Proof. intros H. exists [it]. split; [reflexivity | repeat constructor; exact H]. Qed.

Lemma emits_same (phi : Item -> Prop) (s s' : State) :
  trace s' = trace s -> emits phi s s'.
Proof. intros H. exists []. split; [exact H | constructor]. Qed.

Lemma emits_call (phi : Item -> Prop) (c : Call) :
  phi (Called c) -> (forall e, phi (Raised c e)) -> always (@emits Interactor Tracker phi) (call c).
Proof.
  intros Hc Hr s. unfold call. destruct (fault _ _); simpl; apply emits_record; auto.
Qed.

Lemma emits_interleave (phi : Item -> Prop) :
  (forall r, phi (Client_stop r)) -> always (@emits Interactor Tracker phi) interleave.
Proof.
  intros Hp s. unfold interleave. destruct (stop_at _ _); [|reflexivity].
  unfold stop, getattr, gets, bind, setattr, modify, raise.
  destruct (_exception (self s)); simpl.
  - apply emits_record, Hp.
  - etransitivity; [|apply emits_record, Hp]. apply emits_same. reflexivity.
Qed.

End Frames.

(** ** Construction *)

Section Construction.
Context {TrackerClass Interactor Tracker : Type}.
Context `{API : TrackingUnitAPI TrackerClass Interactor Tracker}.
Abbreviation State := (@State Interactor Tracker).

(** C3. With [max_duration] absent, which is also the default of the
    parameter, construction never succeeds: line 73 multiplies it by 1000
    before anything tests it for [None].  [__init__] raises a [TypeError]
    (or what [os.getpid()] raised just before, when it failed) and no tracking
    unit is made, although the loop is written for an optional duration. *)
Theorem C3_init_raises_without_max_duration
    (camera : Camera) (tracker_class : TrackerClass) (rois : option (list ROI))
    (interactors : option (list Interactor)) (result_file : option string)
    (draw_results : bool) (draw_every_n : Z) (video_out : option string)
    (metadata : option string) (s : State) :
  let out := Monitor_new camera tracker_class rois interactors result_file
               draw_results draw_every_n video_out None metadata s in
  fst out =
    Raise (match (if draw_results then fault (env s) (length (trace s)) else None) with
           | Some e => e
           | None => mkExn TypeError
                       "unsupported operand type(s) for *: 'NoneType' and 'int'"
           end) /\
  _unit_trackers (self (snd out)) = [].
Proof.
  unfold Monitor_new, __init__, init_attributes, bind, setattr, getattr, gets, modify,
    when, call, mul, raise, ret.
  destruct draw_results; simpl.
  - destruct (fault (env s) (length (trace s))) as [e|]; simpl; split; reflexivity.
  - split; reflexivity.
Qed.

(** The call with every optional parameter left at its default. *)
Example init_with_defaults :
  fst (Monitor_new [(10, blank)] scripts None None None false 1 None None None
         (world0 calm))
  = Raise (mkExn TypeError "unsupported operand type(s) for *: 'NoneType' and 'int'").
Proof. reflexivity. Qed.

Lemma call_no_fault (c : Call) (s : State) :
  fault (env s) (length (trace s)) = None -> call c s = (Ok tt, record (Called c) s).
Proof. intros H. unfold call. rewrite H. reflexivity. Qed.

Lemma no_faults_record (it : Item) (s : State) : no_faults s -> no_faults (record it s).
Proof. intros H n. apply H. Qed.

(** Under [no_faults] the list comprehensions of [__init__] build one unit
    per element, in order. *)
Lemma comprehension_units {A} (f : A -> ROI) (g : A -> option Interactor)
    (tracker_class : TrackerClass) (l : list A) (s : State) :
  no_faults s ->
  exists s', comprehension (fun a => TrackingUnit__init__ tracker_class (f a) (g a)) l s
             = (Ok (map (fun a => mkTrackingUnit (f a) (g a)
                                    (tracker_new tracker_class (f a) (g a))) l), s') /\
             no_faults s' /\ self s' = self s.
Proof.
  revert s. induction l as [|a l IH]; intros s Hs; simpl.
  - exists s. auto.
  - unfold bind at 1. unfold TrackingUnit__init__ at 1. unfold bind at 1.
    rewrite call_no_fault by apply Hs. unfold ret at 1.
    destruct (IH (record (Called (NewTrackingUnit (idx (f a)) (bool_decide (is_Some (g a))))) s))
      as (s' & Hc & Hs' & Hself); [apply no_faults_record, Hs|].
    unfold bind. rewrite Hc. exists s'. auto.
Qed.

Lemma setup_item_call (c : Call) :
  setup_call c -> always (@emits Interactor Tracker setup_item) (call c).
Proof.
  intros Hc. apply emits_call.
  - exists c. split; [left; reflexivity | exact Hc].
  - intros e. exists c. split; [right; eauto | exact Hc].
Qed.

Section Prefix.
Variables (camera : Camera) (result_file : option string) (draw_results : bool)
  (draw_every_n : Z) (video_out : option string) (max_duration : option Z)
  (metadata : option string) (rois : option (list ROI)).

Let attributes : M State unit :=
  init_attributes camera result_file draw_results draw_every_n video_out max_duration
    metadata.

Lemma init_attributes_emits : always (emits setup_item) attributes.
Proof.
  subst attributes. always_tac;
    try (apply emits_same; reflexivity);
    apply setup_item_call; left; reflexivity.
Qed.

Lemma init_rois_emits : always (@emits Interactor Tracker setup_item) (init_rois rois).
Proof.
  always_tac; try (apply emits_same; reflexivity);
    apply setup_item_call; [right; left | right; right]; reflexivity.
Qed.

Lemma init_attributes_env : always (keeps env) attributes.
Proof.
  subst attributes. always_tac; try reflexivity; apply keeps_call; reflexivity.
Qed.

Lemma init_rois_env : always (keeps (env : State -> Env)) (init_rois rois).
Proof. always_tac; try reflexivity; apply keeps_call; reflexivity. Qed.

Lemma init_attributes_units :
  always (keeps (fun s : State => _unit_trackers (self s))) attributes.
Proof.
  subst attributes. always_tac; try reflexivity; apply keeps_call; reflexivity.
Qed.

Lemma init_rois_units :
  always (keeps (fun s : State => _unit_trackers (self s))) (init_rois rois).
Proof. always_tac; try reflexivity; apply keeps_call; reflexivity. Qed.

Lemma init_rois_value (s : State) (l : list ROI) (s' : State) :
  init_rois rois s = (Ok l, s') -> l = default (default_rois (env s)) rois.
Proof.
  unfold init_rois, bind, call, gets, ret. destruct rois as [l0|]; simpl.
  - destruct (fault _ _); intros [=]; congruence.
  - destruct (fault (env s) _); simpl; [intros [=]|].
    destruct (fault (env s) _); intros [=]; congruence.
Qed.

Lemma init_rois_no_faults (s : State) :
  no_faults s -> exists s', init_rois rois s = (Ok (default (default_rois (env s)) rois), s').
Proof.
  intros Hs. unfold init_rois, bind, gets, ret. destruct rois as [l0|]; simpl.
  - rewrite call_no_fault by apply Hs. eauto.
  - rewrite call_no_fault by apply Hs. simpl.
    rewrite call_no_fault by apply Hs. eauto.
Qed.

Lemma init_attributes_no_faults (d : Z) (s : State) :
  max_duration = Some d -> no_faults s ->
  exists s', attributes s = (Ok tt, s').
Proof.
  intros -> Hs. subst attributes.
  unfold init_attributes, bind, setattr, getattr, gets, modify, when, mul, dict_new, ret.
  destruct draw_results; simpl; [|eauto].
  rewrite call_no_fault by apply Hs. simpl. eauto.
Qed.

End Prefix.

Lemma no_faults_keeps (s s' : State) : env s' = env s -> no_faults s -> no_faults s'.
Proof. intros He Hs n. rewrite He. apply Hs. Qed.

(** C4. A list of interactors whose length differs from the number of ROIs
    makes construction raise, with no tracking unit made and no call other
    than [os.getpid], the ROI builder and [camera.restart] (so no frame is
    read); it is the [ValueError] of line 94 when nothing else went wrong
    before.  With no interactors, or as many as ROIs, and construction
    getting through its earlier lines, there is exactly one tracking unit per
    ROI, in the order of the ROIs, bound to the interactor at the same
    position, or to none. *)
Theorem C4_one_unit_per_roi_or_error
    (camera : Camera) (tracker_class : TrackerClass) (rois : option (list ROI))
    (interactors : option (list Interactor)) (result_file : option string)
    (draw_results : bool) (draw_every_n : Z) (video_out : option string)
    (max_duration : option Z) (metadata : option string) (s : State) :
  let rois' := default (default_rois (env s)) rois in
  let out := Monitor_new camera tracker_class rois interactors result_file
               draw_results draw_every_n video_out max_duration metadata s in
  let units := _unit_trackers (self (snd out)) in
  (forall inters, interactors = Some inters -> length inters <> length rois' ->
     (exists e, fst out = Raise e) /\ units = [] /\ emits setup_item s (snd out) /\
     (no_faults s -> is_Some max_duration ->
      fst out = Raise (mkExn ValueError "You should have one interactor per ROI"))) /\
  (no_faults s -> is_Some max_duration ->
   (forall inters, interactors = Some inters -> length inters = length rois') ->
     fst out = Ok tt /\
     length units = length rois' /\
     roi <$> units = rois' /\
     interactor <$> units = match interactors with
                            | None => replicate (length rois') None
                            | Some inters => Some <$> inters
                            end /\
     Forall (fun u => tracker u = tracker_new tracker_class (roi u) (interactor u)) units).
Proof.
  intros rois' out units. subst out units.
  unfold Monitor_new, __init__.
  set (s0 := upd_self (fun _ => object_new) s).
  assert (Hstart : forall (k : unit -> M State unit),
             bind (setattr (fun _ => object_new)) k s = k tt s0) by reflexivity.
  rewrite !Hstart. clear Hstart.
  assert (E0 : emits setup_item s s0) by (apply emits_same; reflexivity).
  pose proof (init_attributes_emits camera result_file draw_results draw_every_n video_out
                max_duration metadata s0) as Ee.
  pose proof (init_attributes_env camera result_file draw_results draw_every_n video_out
                max_duration metadata s0) as Ev.
  pose proof (init_attributes_units camera result_file draw_results draw_every_n video_out
                max_duration metadata s0) as Eu.
  unfold keeps in Ev, Eu.
  destruct (init_attributes camera result_file draw_results draw_every_n video_out
              max_duration metadata s0) as [r1 s1] eqn:E1.
  rewrite !(bind_eq _ _ _ _ _ E1). simpl in Ee, Ev, Eu.
  pose proof (init_rois_emits rois s1) as Re.
  pose proof (init_rois_env rois s1) as Rv.
  pose proof (init_rois_units rois s1) as Ru.
  unfold keeps in Rv, Ru.
  destruct (init_rois rois s1) as [r2 s2] eqn:E2. simpl in Re, Rv, Ru.
  assert (E01 : emits setup_item s s1) by (etransitivity; [exact E0 | exact Ee]).
  assert (E02 : emits setup_item s s2) by (etransitivity; [exact E01 | exact Re]).
  split.
  - intros inters -> Hlen.
    destruct r1 as [[]|e].
    2:{ simpl. split; [eauto|]. split; [exact Eu|]. split; [exact E01|].
        intros Hs [d ->].
        destruct (init_attributes_no_faults camera result_file draw_results draw_every_n
                    video_out (Some d) metadata d s0 eq_refl Hs) as [s' Hs'].
        congruence. }
    rewrite !(bind_eq _ _ _ _ _ E2).
    destruct r2 as [l|e].
    2:{ simpl. split; [eauto|]. split; [congruence|]. split; [exact E02|].
        intros Hs _.
        destruct (init_rois_no_faults rois s1) as [s' Hs'].
        { apply (no_faults_keeps s0); [exact Ev | exact Hs]. }
        congruence. }
    apply init_rois_value in E2 as El. rewrite Ev in El. change (env s0) with (env s) in El.
    fold rois' in El. subst l.
    unfold init_units. apply Nat.eqb_neq in Hlen. rewrite Hlen. unfold raise. simpl.
    split; [eauto|]. split; [congruence|]. split; [exact E02 | reflexivity].
  - intros Hs [d ->] Hlen.
    destruct (init_attributes_no_faults camera result_file draw_results draw_every_n
                video_out (Some d) metadata d s0 eq_refl Hs) as [s1' E1'].
    assert (r1 = Ok tt) as -> by congruence.
    rewrite !(bind_eq _ _ _ _ _ E2).
    assert (Hs1 : no_faults s1) by (apply (no_faults_keeps s0); [exact Ev | exact Hs]).
    destruct (init_rois_no_faults rois s1 Hs1) as [s2' E2'].
    rewrite Ev in E2'. change (env s0) with (env s) in E2'. fold rois' in E2'.
    assert (r2 = Ok rois') as -> by congruence.
    assert (Hs2 : no_faults s2).
    { apply (no_faults_keeps s1); [exact Rv | exact Hs1]. }
    unfold init_units. destruct interactors as [inters|].
    + specialize (Hlen inters eq_refl). rewrite Hlen, Nat.eqb_refl.
      destruct (comprehension_units fst (fun ri => Some (snd ri)) tracker_class
                  (zip rois' inters) s2 Hs2) as (s3 & E3 & _ & _).
      rewrite !(bind_eq _ _ _ _ _ E3). simpl.
      split; [reflexivity|]. rewrite length_map, length_zip, Hlen, Nat.min_id.
      split; [reflexivity|]. rewrite <- !list_fmap_compose.
      split; [apply fst_zip; lia|].
      split.
      * change (interactor ∘ _) with (Some ∘ (snd : ROI * Interactor -> Interactor)).
        rewrite list_fmap_compose. f_equal. apply snd_zip. lia.
      * apply Forall_fmap, Forall_forall. intros x _. reflexivity.
    + destruct (comprehension_units id (fun _ => None) tracker_class rois' s2 Hs2)
        as (s3 & E3 & _ & _).
      unfold id in E3. rewrite !(bind_eq _ _ _ _ _ E3). simpl.
      split; [reflexivity|]. rewrite length_map.
      split; [reflexivity|]. rewrite <- !list_fmap_compose.
      split; [apply list_fmap_id|].
      split.
      * clear. induction rois' as [|r l IH]; simpl; [reflexivity | f_equal; exact IH].
      * apply Forall_fmap, Forall_forall. intros x _. reflexivity.
Qed.

End Construction.





(** ** The accessors *)

Section Accessors.
Context {Interactor Tracker : Type}.
Abbreviation State := (@State Interactor Tracker).



(** C10. With no stored error and no frame recorded yet, [last_drawn_frame]
    raises: it hands [None] to the renderer, whose first step is
    [frame.copy()].  Nothing is drawn and the state is as before. *)
Theorem C10_last_drawn_frame_before_first_frame (s : State) :
  _exception (self s) = None ->
  _frame_buffer (self s) = None ->
  last_drawn_frame s
  = (Raise (mkExn AttributeError "'NoneType' object has no attribute 'copy'"), s).
Proof.
  intros He Hf.
  unfold last_drawn_frame, reraise, _draw_on_frame, ndarray_copy, bind, getattr, gets,
    raise, ret.
  rewrite He, Hf. reflexivity.
Qed.

(** C9, as the code has it.  [last_positions] hands out the address of the
    dictionary the monitor itself uses, not a copy of it: an assignment made
    through the returned value is an assignment to the monitor's table. *)
Theorem C9_last_positions_is_shared (s : State) (tbl : gmap Z Position)
    (k : Z) (v : Position) :
  _exception (self s) = None ->
  table s = Some tbl ->
  exists d s',
    last_positions s = (Ok d, s) /\
    d = _last_positions (self s) /\
    dict_setitem d k v s = (Ok tt, s') /\
    self s' = self s /\
    table s' = Some (<[k := v]> tbl).
Proof.
  intros He Ht. unfold table in Ht.
  exists (_last_positions (self s)).
  eexists. split.
  { unfold last_positions, reraise, bind, getattr, gets, ret. rewrite He. reflexivity. }
  split; [reflexivity|].
  unfold dict_setitem, dict_get, bind, gets, modify, ret. rewrite Ht. simpl.
  split; [reflexivity|]. split; [reflexivity|].
  unfold table. simpl. apply list_lookup_insert_eq.
  apply lookup_lt_Some in Ht. exact Ht.
Qed.

End Accessors.

(** ** The renderer *)

Section Renderer.
Context {Interactor Tracker : Type}.
Abbreviation State := (@State Interactor Tracker).

Lemma ext_rest (c : Call) : always (keeps (rest : State -> _)) (ext c).
Proof. apply keeps_ext; reflexivity. Qed.

Lemma ext_arrays (c : Call) : always (keeps (arrays : State -> _)) (ext c).
Proof. apply keeps_ext; reflexivity. Qed.

Lemma ext_no_fault (c : Call) (s : State) : no_faults s -> fst (ext c s) = Ok tt.
Proof.
  intros Hs. unfold ext, bind, interleave, call.
  destruct (stop_at _ _).
  - destruct (stop s) as [r s1] eqn:E.
    assert (He : env s1 = env s).
    { revert E. unfold stop, bind, getattr, gets, setattr, modify, raise.
      destruct (_exception (self s)); intros [= <- <-]; reflexivity. }
    simpl. rewrite He, Hs. reflexivity.
  - rewrite Hs. reflexivity.
Qed.

Lemma rest_no_faults (s s' : State) : rest s' = rest s -> no_faults s -> no_faults s'.
Proof.
  intros H. apply no_faults_keeps.
  exact (f_equal (fun x => fst (fst (fst (fst x)))) H).
Qed.

Lemma rest_table (s s' : State) :
  rest s' = rest s ->
  table s' = table s /\
  _last_positions (self s') = _last_positions (self s) /\
  _unit_trackers (self s') = _unit_trackers (self s) /\
  dicts s' = dicts s.
Proof.
  unfold table. intros H.
  assert (Hs : set__force_stop false (self s') = set__force_stop false (self s))
    by exact (f_equal snd H).
  assert (Hd : dicts s' = dicts s) by exact (f_equal (fun x => snd (fst x)) H).
  assert (Hp : _last_positions (self s') = _last_positions (self s)).
  { change (_last_positions (set__force_stop false (self s'))
            = _last_positions (set__force_stop false (self s))). rewrite Hs. reflexivity. }
  assert (Hu : _unit_trackers (self s') = _unit_trackers (self s)).
  { change (_unit_trackers (set__force_stop false (self s'))
            = _unit_trackers (set__force_stop false (self s))). rewrite Hs. reflexivity. }
  rewrite Hp, Hd. auto.
Qed.

Lemma imprint_nil (a : ndarray) : imprint [] a = a.
Proof. destruct a. unfold imprint. simpl. rewrite app_nil_r. reflexivity. Qed.

Lemma draw_imprint (op : DrawOp) (ops : list DrawOp) (a : ndarray) :
  draw op (imprint ops a) = imprint (ops ++ [op]) a.
Proof. unfold draw, imprint. simpl. rewrite app_assoc. reflexivity. Qed.

Lemma imprint_imprint (ops1 ops2 : list DrawOp) (a : ndarray) :
  imprint ops2 (imprint ops1 a) = imprint (ops1 ++ ops2) a.
Proof. unfold imprint. simpl. rewrite app_assoc. reflexivity. Qed.

(** One drawing primitive applied to the newest frame of the store. *)
Lemma cv2_draw_spec (xs : list ndarray) (b : ndarray) (op : DrawOp)
    (s : State) r (s' : State) :
  arrays s = xs ++ [b] ->
  cv2_draw (length xs) op s = (r, s') ->
  rest s' = rest s /\
  ((r = Ok tt /\ arrays s' = xs ++ [draw op b]) \/
   ((exists e, r = Raise e) /\ ~ no_faults s /\ arrays s' = xs ++ [b])).
Proof.
  intros Ha. unfold cv2_draw.
  pose proof (ext_rest (Draw (length xs) op) s) as Hr.
  pose proof (ext_arrays (Draw (length xs) op) s) as Hx.
  pose proof (ext_no_fault (Draw (length xs) op) s) as Hn.
  unfold keeps in Hr, Hx.
  destruct (ext (Draw (length xs) op) s) as [r1 s1] eqn:E1. simpl in Hr, Hx, Hn.
  rewrite (bind_eq _ _ _ _ _ E1).
  destruct r1 as [[]|e].
  - unfold ndarray_update, ndarray_get, bind, gets, modify, ret.
    rewrite Hx, Ha. rewrite lookup_app_r by lia.
    rewrite Nat.sub_diag. simpl. intros [= <- <-]. split.
    + rewrite <- Hr. reflexivity.
    + left. split; [reflexivity|]. simpl. rewrite Hx, Ha.
      rewrite insert_app_r_alt by lia. rewrite Nat.sub_diag. reflexivity.
  - intros [= <- <-]. split; [exact Hr|]. right. split; [eauto|].
    split; [|congruence]. intros Hs. specialize (Hn Hs). discriminate.
Qed.

Lemma lookup_table (s : State) (tbl : gmap Z Position) (k : Z) :
  table s = Some tbl ->
  try_KeyError (dict_getitem (_last_positions (self s)) k) s = (Ok (tbl !! k), s).
Proof.
  unfold table. intros H.
  unfold try_KeyError, dict_getitem, dict_get, bind, gets, ret, raise.
  rewrite H. destruct (tbl !! k); reflexivity.
Qed.

Lemma lookup_no_table (s : State) (k : Z) :
  table s = None ->
  try_KeyError (dict_getitem (_last_positions (self s)) k) s = (Raise dangling, s).
Proof.
  unfold table. intros H.
  unfold try_KeyError, dict_getitem, dict_get, bind, gets, ret, raise.
  rewrite H. reflexivity.
Qed.

(** What is drawn for one unit. *)
Lemma draw_unit_spec (xs : list ndarray) (b0 : ndarray) (ops : list DrawOp)
    (u : TrackingUnit Interactor Tracker) (s : State) r (s' : State) :
  arrays s = xs ++ [imprint ops b0] ->
  draw_unit (_last_positions (self s)) (length xs) u s = (r, s') ->
  rest s' = rest s /\
  ((r = Ok tt /\
    arrays s' = xs ++ [imprint (ops ++ overlay_of (default ∅ (table s)) (roi u)) b0]) \/
   ((exists e, r = Raise e) /\ (~ no_faults s \/ table s = None) /\
    exists ops', arrays s' = xs ++ [imprint ops' b0])).
Proof.
  intros Ha. unfold draw_unit, cv2_putText, cv2_drawContours, cv2_ellipse.
  fold (label (roi u)).
  destruct (cv2_draw (length xs) (label (roi u)) s) as [r1 s1] eqn:E1.
  rewrite (bind_eq _ _ _ _ _ E1).
  destruct (cv2_draw_spec _ _ _ _ _ _ Ha E1) as [R1 [[-> A1]|([e ->] & N1 & A1)]].
  2:{ intros [= <- <-]. split; [exact R1|]. right. split; eauto. }
  rewrite draw_imprint in A1.
  destruct (rest_table _ _ R1) as (T1 & P1 & _ & _).
  pose proof (rest_no_faults _ _ R1) as F1.
  rewrite <- P1.
  destruct (table s) as [tbl|] eqn:Ht.
  2:{ rewrite (bind_eq _ _ _ _ _ (lookup_no_table s1 (idx (roi u)) T1)).
      intros [= <- <-]. split; [exact R1|]. right. split; eauto. }
  rewrite (bind_eq _ _ _ _ _ (lookup_table s1 tbl (idx (roi u)) T1)).
  unfold overlay_of. simpl. destruct (tbl !! idx (roi u)) as [pos|].
  2:{ mstep. intros [= <- <-]. split; [exact R1|]. left. split; [reflexivity | exact A1]. }
  fold (outline (roi u) pos). fold (mark pos).
  destruct (cv2_draw (length xs) (outline (roi u) pos) s1) as [r2 s2] eqn:E2.
  rewrite (bind_eq _ _ _ _ _ E2).
  destruct (cv2_draw_spec _ _ _ _ _ _ A1 E2) as [R2 [[-> A2]|([e ->] & N2 & A2)]].
  2:{ intros [= <- <-]. split; [congruence|]. right. split; [eauto|].
      split; [left; intros Hs; apply N2, F1, Hs | eauto]. }
  rewrite draw_imprint in A2.
  pose proof (rest_no_faults _ _ R2) as F2.
  intros E3.
  destruct (cv2_draw_spec _ _ _ _ _ _ A2 E3) as [R3 [[-> A3]|([e ->] & N3 & A3)]].
  - rewrite draw_imprint in A3. split; [congruence|]. left. split; [reflexivity|].
    rewrite A3. rewrite <- !app_assoc. reflexivity.
  - split; [congruence|]. right. split; [eauto|].
    split; [left; intros Hs; apply N3, F2, F1, Hs | eauto].
Qed.

(** What is drawn for the units of a list, one after the other. *)
Lemma draw_units_spec (xs : list ndarray) (b0 : ndarray)
    (us : list (TrackingUnit Interactor Tracker)) :
  forall (ops : list DrawOp) (j : nat) (s : State) r (s' : State),
  arrays s = xs ++ [imprint ops b0] ->
  for_enumerate (fun _ => draw_unit (_last_positions (self s)) (length xs)) j us s
  = (r, s') ->
  rest s' = rest s /\
  ((r = Ok tt /\
    arrays s' = xs ++ [imprint (ops ++ concat (overlay_of (default ∅ (table s))
                                                <$> (roi <$> us))) b0]) \/
   ((exists e, r = Raise e) /\ (~ no_faults s \/ table s = None) /\
    exists ops', arrays s' = xs ++ [imprint ops' b0])).
Proof.
  induction us as [|u us IH]; intros ops j s r s' Ha; simpl.
  - unfold ret. intros [= <- <-]. split; [reflexivity|]. left.
    rewrite app_nil_r. auto.
  - destruct (draw_unit (_last_positions (self s)) (length xs) u s) as [r1 s1] eqn:E1.
    rewrite (bind_eq _ _ _ _ _ E1).
    destruct (draw_unit_spec _ _ _ _ _ _ _ Ha E1) as [R1 [(-> & A1)|([e ->] & N1 & A1)]].
    2:{ intros [= <- <-]. split; [exact R1|]. right. split; eauto. }
    destruct (rest_table _ _ R1) as (T1 & P1 & _ & _).
    pose proof (rest_no_faults _ _ R1) as F1.
    rewrite <- P1. intros E2.
    destruct (IH _ _ _ _ _ A1 E2) as [R2 [[-> A2]|([e ->] & N2 & A2)]].
    + split; [congruence|]. left. split; [reflexivity|].
      rewrite A2, T1, <- app_assoc. reflexivity.
    + split; [congruence|]. right. split; [eauto|]. split; [|exact A2].
      rewrite T1 in N2. destruct N2 as [N2|N2]; [left | right; exact N2].
      intros Hs. apply N2, F1, Hs.
Qed.

(** The renderer: every frame that was in the store is still there,
    untouched; the dictionaries are untouched; when the renderer returns, what
    it returns is a new frame, the copy of the input annotated for the ROIs of
    the units in their order; and it does return when it is given a frame, the
    table exists and no collaborator raises. *)
Lemma draw_on_frame_spec (frame : option loc) (s : State) r (s' : State) :
  _draw_on_frame frame s = (r, s') ->
  rest s' = rest s /\
  arrays s `prefix_of` arrays s' /\
  (forall l', r = Ok l' ->
    exists l a,
      frame = Some l /\ arrays s !! l = Some a /\
      l' = length (arrays s) /\
      arrays s' = arrays s ++
                  [annotate a (roi <$> _unit_trackers (self s)) (default ∅ (table s))]) /\
  (forall l, frame = Some l -> is_Some (arrays s !! l) -> is_Some (table s) ->
             no_faults s -> r = Ok (length (arrays s))).
Proof.
  unfold _draw_on_frame, ndarray_copy.
  destruct frame as [l|].
  2:{ mstep. intros [= <- <-]. split; [reflexivity|].
      split; [reflexivity|]. split; discriminate. }
  unfold ndarray_get. mstep.
  destruct (arrays s !! l) as [a|] eqn:El.
  2:{ mstep. intros [= <- <-]. split; [reflexivity|].
      split; [reflexivity|]. split; [discriminate|].
      intros l0 [= <-] [a Ha]. congruence. }
  mstep.
  pose proof (ext_rest (CopyFrame l (length (arrays s))) s) as Hr.
  pose proof (ext_arrays (CopyFrame l (length (arrays s))) s) as Hx.
  pose proof (ext_no_fault (CopyFrame l (length (arrays s))) s) as Hn.
  unfold keeps in Hr, Hx.
  destruct (ext (CopyFrame l (length (arrays s))) s) as [r1 s1] eqn:E1.
  simpl in Hr, Hx, Hn. rewrite (bind_eq _ _ _ _ _ E1).
  destruct r1 as [[]|e].
  2:{ intros [= <- <-]. split; [exact Hr|]. rewrite Hx.
      split; [reflexivity|]. split; [discriminate|].
      intros l0 _ _ _ Hs. specialize (Hn Hs). discriminate. }
  unfold ndarray_new. mstep. rewrite Hx.
  set (s2 := set_arrays (arrays s ++ [a]) s1).
  assert (R2 : rest s2 = rest s) by (rewrite <- Hr; reflexivity).
  assert (A2 : arrays s2 = arrays s ++ [imprint [] a]).
  { subst s2. simpl. rewrite imprint_nil. reflexivity. }
  destruct (rest_table _ _ R2) as (T2 & P2 & U2 & _).
  pose proof (rest_no_faults _ _ R2) as F2.
  unfold for_each.
  destruct (for_enumerate (fun _ => draw_unit (_last_positions (self s2))
                                      (length (arrays s))) 0
              (_unit_trackers (self s2)) s2) as [r3 s3] eqn:E3.
  rewrite (bind_eq _ _ _ _ _ E3).
  destruct (draw_units_spec _ _ _ _ _ _ _ _ A2 E3) as [R3 [[-> A3]|([e ->] & N3 & A3)]].
  - mstep. intros [= <- <-]. split; [congruence|].
    split; [rewrite A3; apply prefix_app_r; reflexivity|].
    split; [|reflexivity].
    intros l' [= <-]. exists l, a. rewrite U2, T2 in A3. auto.
  - intros [= <- <-]. split; [congruence|]. destruct A3 as [ops' A3].
    split; [rewrite A3; apply prefix_app_r; reflexivity|].
    split; [discriminate|].
    intros l0 _ _ [tbl Ht] Hs. rewrite T2, Ht in N3.
    destruct N3 as [N3|N3]; [tauto | discriminate].
Qed.

(** C7. The renderer draws on a copy: every frame of the store, the input
    among them, has the content it had, and so have the dictionaries; the
    frame it returns is a new one whose content is [annotate] of the input
    frame, the ROIs and the table, so that two invocations on equal inputs,
    in whatever states, return equal frames; and it returns when no
    collaborator raises. *)
Theorem C7_renderer_is_pure (s : State) (l : loc) (a : ndarray) (tbl : gmap Z Position) :
  arrays s !! l = Some a ->
  table s = Some tbl ->
  let out := _draw_on_frame (Some l) s in
  (forall k b, arrays s !! k = Some b -> arrays (snd out) !! k = Some b) /\
  dicts (snd out) = dicts s /\
  (forall l', fst out = Ok l' ->
     arrays s !! l' = None /\
     arrays (snd out) !! l'
     = Some (annotate a (roi <$> _unit_trackers (self s)) tbl)) /\
  (no_faults s -> exists l', fst out = Ok l') /\
  (forall (s2 : State) (l2 l1' l2' : loc),
     arrays s2 !! l2 = Some a -> table s2 = Some tbl ->
     roi <$> _unit_trackers (self s2) = roi <$> _unit_trackers (self s) ->
     fst out = Ok l1' -> fst (_draw_on_frame (Some l2) s2) = Ok l2' ->
     arrays (snd (_draw_on_frame (Some l2) s2)) !! l2' = arrays (snd out) !! l1').
Proof.
  intros Ha Ht out.
  assert (Hres : forall (s0 : State) l0 l',
             arrays s0 !! l0 = Some a -> table s0 = Some tbl ->
             fst (_draw_on_frame (Some l0) s0) = Ok l' ->
             arrays s0 !! l' = None /\
             arrays (snd (_draw_on_frame (Some l0) s0)) !! l'
             = Some (annotate a (roi <$> _unit_trackers (self s0)) tbl)).
  { intros s0 l0 l' Ha0 Ht0.
    destruct (_draw_on_frame (Some l0) s0) as [r s'] eqn:E. simpl. intros ->.
    destruct (draw_on_frame_spec _ _ _ _ E) as (_ & _ & H & _).
    destruct (H l' eq_refl) as (l1 & a1 & [= <-] & Ha1 & -> & ->).
    rewrite Ht0. simpl. assert (a1 = a) as -> by congruence.
    split; [apply lookup_ge_None; lia|].
    rewrite lookup_app_r by lia. rewrite Nat.sub_diag. reflexivity. }
  subst out.
  destruct (_draw_on_frame (Some l) s) as [r s'] eqn:E. simpl.
  destruct (draw_on_frame_spec _ _ _ _ E) as (Hr & Hp & Hok & Hret).
  split; [|split; [|split; [|split]]].
  - intros k b Hk. eapply prefix_lookup_Some; eassumption.
  - apply rest_table in Hr. tauto.
  - intros l' ->. specialize (Hres s l l' Ha Ht). rewrite E in Hres. simpl in Hres. auto.
  - intros Hs. exists (length (arrays s)). apply (Hret l); eauto.
  - intros s2 l2 l1' l2' Ha2 Ht2 Hu -> E2.
    destruct (Hres s2 l2 l2' Ha2 Ht2 E2) as [_ ->].
    specialize (Hres s l l1' Ha Ht). rewrite E in Hres. simpl in Hres.
    destruct (Hres eq_refl) as [_ ->]. rewrite Hu. reflexivity.
Qed.

(** C5, as the code has it.  For a ROI with no known position the renderer
    draws the identity label and nothing else, neither outline nor ellipse
    (the [KeyError] handler goes on to the next unit before the outline is
    drawn); for a ROI with a position it draws label, outline and ellipse.
    The absence of a position is not an error: the renderer returns when no
    collaborator raises. *)
Theorem C5_only_the_label_without_position (s : State) (l : loc) (a : ndarray)
    (tbl : gmap Z Position) :
  arrays s !! l = Some a ->
  table s = Some tbl ->
  no_faults s ->
  exists l' s' a' opss,
    _draw_on_frame (Some l) s = (Ok l', s') /\
    arrays s' !! l' = Some a' /\
    drawn a' = drawn a ++ concat opss /\
    Forall2 (fun u ops =>
               (tbl !! idx (roi u) = None -> ops = [label (roi u)]) /\
               (forall pos, tbl !! idx (roi u) = Some pos ->
                            ops = [label (roi u); outline (roi u) pos; mark pos]))
            (_unit_trackers (self s)) opss.
Proof.
  intros Ha Ht Hs.
  destruct (_draw_on_frame (Some l) s) as [r s'] eqn:E.
  destruct (draw_on_frame_spec _ _ _ _ E) as (_ & _ & Hok & Hret).
  rewrite (Hret l eq_refl) in * by eauto.
  destruct (Hok _ eq_refl) as (l1 & a1 & [= <-] & Ha1 & _ & Hx).
  assert (a1 = a) as -> by congruence. rewrite Ht in Hx. simpl in Hx.
  exists (length (arrays s)), s', (annotate a (roi <$> _unit_trackers (self s)) tbl),
    (overlay_of tbl <$> (roi <$> _unit_trackers (self s))).
  split; [reflexivity|]. split.
  { rewrite Hx, lookup_app_r by lia. rewrite Nat.sub_diag. reflexivity. }
  split; [reflexivity|].
  rewrite <- list_fmap_compose. apply Forall2_fmap_r, Forall_Forall2_diag, Forall_forall.
  intros u _. unfold overlay_of, compose. split.
  - intros ->. reflexivity.
  - intros pos ->. reflexivity.
Qed.

End Renderer.

(** ** The run *)

(** [always (keeps f) m] for an observation [f] that looks neither at the
    trace nor at the stop flag, where [m] does not assign what [f] reads. *)
Ltac keeps_tac f :=
  let Hi := fresh "Hi" in
  let Hc := fresh "Hc" in
  assert (Hi := keeps_interleave f (fun _ _ => eq_refl) (fun _ => eq_refl));
  assert (Hc := fun c => keeps_call f c (fun _ _ => eq_refl));
  always_tac; try reflexivity.

Section Run.
Context {TrackerClass Interactor Tracker : Type}.
Context `{API : TrackingUnitAPI TrackerClass Interactor Tracker}.
Abbreviation State := (@State Interactor Tracker).




Lemma teardown_stored : always (keeps (stored : State -> _)) teardown.
Proof. keeps_tac (@stored Interactor Tracker). Qed.


Lemma teardown_vw : always (keeps (vw : State -> _)) teardown.
Proof. keeps_tac (vw : State -> _). Qed.


Lemma try_finally_snd {A} (m : M State A) (f : M State unit) (s : State) :
  snd (try_finally m f s) = snd (f (snd (m s))).
Proof.
  unfold try_finally. destruct (m s) as [r s1]. simpl.
  destruct (f s1) as [[[]|e] s2]; reflexivity.
Qed.

Lemma try_pass_ok (m : M State unit) (s : State) : fst (try_pass m s) = Ok tt.
Proof.
  unfold try_pass, try_except, ret. destruct (m s) as [[[]|e] s1]; reflexivity.
Qed.

Lemma shutdown_item_call (c : Call) :
  c = WaitKey 1 \/ c = DestroyAllWindows \/ c = ReleaseVideo ->
  always (@emits Interactor Tracker shutdown_item) (call c).
Proof.
  intros Hc. apply emits_call.
  - unfold shutdown_item, made. destruct Hc as [-> | [-> | ->]]; auto.
  - intros e. unfold shutdown_item, made. destruct Hc as [-> | [-> | ->]]; eauto 6.
Qed.

Lemma shutdown_item_interleave :
  always (@emits Interactor Tracker shutdown_item) interleave.
Proof. apply emits_interleave. intros r. unfold shutdown_item. eauto 6. Qed.

Lemma teardown_emits : always (@emits Interactor Tracker shutdown_item) teardown.
Proof.
  pose proof shutdown_item_interleave as Hi.
  always_tac; try (apply shutdown_item_call; auto).
  apply emits_record. unfold shutdown_item. auto.
Qed.





End Run.

(** ** Tracking one frame *)

Section Tracking.
Context {TrackerClass Interactor Tracker : Type}.
Context `{API : TrackingUnitAPI TrackerClass Interactor Tracker}.
Abbreviation State := (@State Interactor Tracker).
Abbreviation Unit := (TrackingUnit Interactor Tracker).

Lemma ext_core (c : Call) : always (keeps (core : State -> _)) (ext c).
Proof. apply keeps_ext; reflexivity. Qed.

Lemma core_fields (s s' : State) :
  core s' = core s ->
  arrays s' = arrays s /\ dicts s' = dicts s /\ result_writer s' = result_writer s /\
  _unit_trackers (self s') = _unit_trackers (self s) /\
  _last_positions (self s') = _last_positions (self s) /\
  table s' = table s.
Proof.
  intros H.
  assert (Hs : set__force_stop false (self s') = set__force_stop false (self s))
    by exact (f_equal snd H).
  assert (Ha : arrays s' = arrays s) by exact (f_equal (fun x => snd (fst (fst x))) H).
  assert (Hd : dicts s' = dicts s) by exact (f_equal (fun x => snd (fst x)) H).
  assert (Hr : result_writer s' = result_writer s)
    by exact (f_equal (fun x => snd (fst (fst (fst x)))) H).
  assert (Hp : _last_positions (self s') = _last_positions (self s)).
  { change (_last_positions (set__force_stop false (self s'))
            = _last_positions (set__force_stop false (self s))). rewrite Hs. reflexivity. }
  assert (Hu : _unit_trackers (self s') = _unit_trackers (self s)).
  { change (_unit_trackers (set__force_stop false (self s'))
            = _unit_trackers (set__force_stop false (self s))). rewrite Hs. reflexivity. }
  unfold table. rewrite Hp, Hd. tauto.
Qed.

(** An external call as a step: the result, and a state that differs in trace
    and stop flag only. *)
Lemma ext_step (c : Call) (s : State) :
  exists r s1, ext c s = (r, s1) /\ core s1 = core s.
Proof.
  pose proof (ext_core c s) as H. unfold keeps in H.
  destruct (ext c s) as [r s1]. eauto.
Qed.

(** The call of unit [j] on the frame. *)
Lemma TrackingUnit_call_spec (j : nat) (t : Z) (frame : loc) (u : Unit) (a : ndarray)
    (s : State) r (s' : State) :
  _unit_trackers (self s) !! j = Some u ->
  arrays s !! frame = Some a ->
  TrackingUnit__call__ j t frame s = (r, s') ->
  arrays s' = arrays s /\ dicts s' = dicts s /\ result_writer s' = result_writer s /\
  _last_positions (self s') = _last_positions (self s) /\
  ((exists e, r = Raise e) \/
   (r = Ok (yields u t a) /\
    _unit_trackers (self s') = <[j := advanced u t a]> (_unit_trackers (self s)))).
Proof.
  intros Hu Ha. unfold TrackingUnit__call__.
  destruct (ext_step (Track j t frame) s) as (r1 & s1 & E1 & C1).
  destruct (core_fields _ _ C1) as (A1 & D1 & W1 & U1 & P1 & _).
  rewrite (bind_eq _ _ _ _ _ E1). destruct r1 as [[]|e].
  2:{ intros [= <- <-]. repeat (split; [assumption|]). left. eauto. }
  unfold ndarray_get. mstep. rewrite A1, Ha. mstep. rewrite U1, Hu. mstep.
  intros [= <- <-]. simpl. repeat (split; [assumption|]). right. split; reflexivity.
Qed.

Lemma get_last_position_spec (j : nat) (absolute : bool) (u : Unit)
    (s : State) r (s' : State) :
  _unit_trackers (self s) !! j = Some u ->
  TrackingUnit_get_last_position j absolute s = (r, s') ->
  core s' = core s /\
  ((exists e, r = Raise e) \/ r = Ok (tracker_get_last_position (tracker u) absolute)).
Proof.
  intros Hu. unfold TrackingUnit_get_last_position.
  destruct (ext_step (GetLastPosition j absolute) s) as (r1 & s1 & E1 & C1).
  destruct (core_fields _ _ C1) as (_ & _ & _ & U1 & _ & _).
  rewrite (bind_eq _ _ _ _ _ E1). destruct r1 as [[]|e].
  2:{ intros [= <- <-]. split; [assumption|]. left. eauto. }
  mstep. rewrite U1, Hu. mstep. intros [= <- <-]. split; [assumption|]. right. reflexivity.
Qed.

Lemma upsert_no_row (t : Z) (a : ndarray) (tbl : gmap Z Position) (u : Unit) :
  yields u t a = None -> upsert t a tbl u = tbl.
Proof. intros H. unfold upsert, sighting. rewrite H. reflexivity. Qed.

(** The tracking of unit [j]: lines 188 to 198. *)
Lemma track_one_spec (j : nat) (t : Z) (frame : loc) (u : Unit) (a : ndarray)
    (tbl : gmap Z Position) (s : State) r (s' : State) :
  _unit_trackers (self s) !! j = Some u ->
  arrays s !! frame = Some a ->
  table s = Some tbl ->
  track_one t frame j u s = (r, s') ->
  arrays s' = arrays s /\ result_writer s' = result_writer s /\
  _last_positions (self s') = _last_positions (self s) /\
  (yields u t a = None -> dicts s' = dicts s) /\
  (r = Ok tt ->
   _unit_trackers (self s') = <[j := advanced u t a]> (_unit_trackers (self s)) /\
   table s' = Some (upsert t a tbl u)).
Proof.
  intros Hu Ha Ht. unfold track_one.
  destruct (TrackingUnit__call__ j t frame s) as [r1 s1] eqn:E1.
  destruct (TrackingUnit_call_spec _ _ _ _ _ _ _ _ Hu Ha E1)
    as (A1 & D1 & W1 & P1 & [[e ->]|[-> U1]]);
    rewrite (bind_eq _ _ _ _ _ E1).
  { intros [= <- <-]. repeat (split; [assumption|]). split; [auto | discriminate]. }
  assert (T1 : table s1 = Some tbl) by (unfold table in *; rewrite P1, D1; exact Ht).
  destruct (yields u t a) as [row|] eqn:Hy.
  2:{ mstep. intros [= <- <-]. repeat (split; [assumption|]). split; [auto|].
      intros _. split; [exact U1|]. rewrite upsert_no_row by exact Hy. exact T1. }
  assert (Hj : _unit_trackers (self s1) !! j = Some (advanced u t a)).
  { rewrite U1. apply list_lookup_insert_eq. eapply lookup_lt_Some. exact Hu. }
  destruct (TrackingUnit_get_last_position j true s1) as [r2 s2] eqn:E2.
  destruct (get_last_position_spec _ _ _ _ _ _ Hj E2) as (C2 & R2).
  destruct (core_fields _ _ C2) as (A2 & D2 & W2 & U2 & P2 & T2).
  cbv beta iota. rewrite (bind_eq _ _ _ _ _ E2).
  destruct R2 as [[e ->] | ->].
  { intros [= <- <-]. split; [congruence|]. split; [congruence|]. split; [congruence|].
    split; discriminate. }
  assert (Hup : upsert t a tbl u
                = match tracker_get_last_position (tracker (advanced u t a)) true with
                  | Some p => <[idx (roi u) := p]> tbl
                  | None => tbl
                  end).
  { unfold upsert, sighting. rewrite Hy. reflexivity. }
  rewrite Hup. clear Hup.
  set (final := (let* rw := gets result_writer in
                 match rw with
                 | Some rw => ResultWriter_write rw t (roi u) row
                 | None => ret tt
                 end) : M State unit).
  assert (Hfinal : forall (s3 : State) r4 s4, final s3 = (r4, s4) -> core s4 = core s3).
  { intros s3 r4 s4. unfold final. mstep. destruct (result_writer s3).
    - unfold ResultWriter_write.
      destruct (ext_step (WriteRow t (idx (roi u)) row) s3) as (r5 & s5 & E5 & C5).
      rewrite E5. intros [= <- <-]. exact C5.
    - unfold ret. intros [= <- <-]. reflexivity. }
  destruct (tracker_get_last_position (tracker (advanced u t a)) true) as [p|].
  - unfold dict_setitem, dict_get. mstep.
    rewrite <- T2 in T1. unfold table in T1. rewrite T1. mstep.
    set (s3 := set_dicts _ s2). intros E4. apply Hfinal in E4.
    destruct (core_fields _ _ E4) as (A4 & D4 & W4 & U4 & P4 & T4).
    split; [rewrite A4; simpl; congruence|].
    split; [rewrite W4; simpl; congruence|].
    split; [rewrite P4; simpl; congruence|].
    split; [discriminate|]. intros _.
    split; [rewrite U4; simpl; congruence|].
    rewrite T4. unfold table, s3. simpl.
    apply list_lookup_insert_eq. eapply lookup_lt_Some. exact T1.
  - mstep. intros E4. apply Hfinal in E4.
    destruct (core_fields _ _ E4) as (A4 & D4 & W4 & U4 & P4 & T4).
    split; [congruence|]. split; [congruence|]. split; [congruence|].
    split; [discriminate|]. intros _. split; [congruence|]. congruence.
Qed.

(** The units of [us], which sit in the list from position [j] on, track the
    frame one after the other. *)
Lemma for_units_spec (t : Z) (frame : loc) (a : ndarray) (us : list Unit) :
  forall (j : nat) (tbl : gmap Z Position) (s : State) r (s' : State),
  (forall k u, us !! k = Some u -> _unit_trackers (self s) !! (j + k)%nat = Some u) ->
  arrays s !! frame = Some a ->
  table s = Some tbl ->
  for_enumerate (track_one t frame) j us s = (r, s') ->
  arrays s' = arrays s /\ result_writer s' = result_writer s /\
  _last_positions (self s') = _last_positions (self s) /\
  (r = Ok tt -> table s' = Some (aggregate t a us tbl)).
Proof.
  induction us as [|u us IH]; intros j tbl s r s' Hus Ha Ht; simpl.
  - unfold ret. intros [= <- <-]. auto.
  - destruct (track_one t frame j u s) as [r1 s1] eqn:E1.
    assert (Hu : _unit_trackers (self s) !! j = Some u).
    { specialize (Hus 0%nat u eq_refl). rewrite Nat.add_0_r in Hus. exact Hus. }
    destruct (track_one_spec _ _ _ _ _ _ _ _ _ Hu Ha Ht E1) as (A1 & W1 & P1 & _ & O1).
    rewrite (bind_eq _ _ _ _ _ E1). destruct r1 as [[]|e].
    2:{ intros [= <- <-]. repeat (split; [assumption|]). discriminate. }
    destruct (O1 eq_refl) as [U1 T1]. intros E2.
    assert (Hus1 : forall k u', us !! k = Some u' ->
                                _unit_trackers (self s1) !! (S j + k)%nat = Some u').
    { intros k u' Hk. rewrite U1, list_lookup_insert_ne by lia.
      replace (S j + k)%nat with (j + S k)%nat by lia. apply Hus. exact Hk. }
    rewrite <- A1 in Ha.
    destruct (IH _ _ _ _ _ Hus1 Ha T1 E2) as (A2 & W2 & P2 & O2).
    split; [congruence|]. split; [congruence|]. split; [congruence|]. exact O2.
Qed.

Lemma fan_out_spec (t : Z) (frame : loc) (a : ndarray) (tbl : gmap Z Position)
    (s : State) r (s' : State) :
  arrays s !! frame = Some a ->
  table s = Some tbl ->
  fan_out t frame s = (r, s') ->
  arrays s' = arrays s /\ result_writer s' = result_writer s /\
  _last_positions (self s') = _last_positions (self s) /\
  (r = Ok tt -> table s' = Some (aggregate t a (_unit_trackers (self s)) tbl)).
Proof.
  intros Ha Ht. unfold fan_out. mstep. apply for_units_spec; auto.
Qed.

(** A key that is the identity of none of the units is not touched. *)
Lemma aggregate_other (t : Z) (a : ndarray) (us : list Unit) :
  forall (tbl : gmap Z Position) (k : Z),
  k ∉ (idx ∘ roi <$> us) -> aggregate t a us tbl !! k = tbl !! k.
Proof.
  induction us as [|u us IH]; intros tbl k Hk; simpl; [reflexivity|].
  rewrite fmap_cons, not_elem_of_cons in Hk. destruct Hk as [Hne Hk].
  unfold aggregate in *. rewrite IH by exact Hk.
  unfold upsert. destruct (sighting u t a); [|reflexivity].
  apply lookup_insert_ne. exact (not_eq_sym Hne).
Qed.

(** With distinct ROI identities, the entry of each unit after the frame is
    its sighting, or what it was when there is no sighting. *)
Lemma aggregate_lookup (t : Z) (a : ndarray) (us : list Unit) :
  forall (tbl : gmap Z Position) (u : Unit),
  NoDup (idx ∘ roi <$> us) -> u ∈ us ->
  aggregate t a us tbl !! idx (roi u)
  = match sighting u t a with
    | Some p => Some p
    | None => tbl !! idx (roi u)
    end.
Proof.
  induction us as [|u0 us IH]; intros tbl u Hnd Hin; [inversion Hin|].
  rewrite fmap_cons in Hnd. apply NoDup_cons in Hnd as [Hnot Hnd].
  simpl. fold (aggregate t a us (upsert t a tbl u0)).
  apply elem_of_cons in Hin as [->|Hin].
  - rewrite aggregate_other by exact Hnot.
    unfold upsert. destruct (sighting u0 t a); [apply lookup_insert_eq | reflexivity].
  - rewrite IH by assumption. destruct (sighting u t a); [reflexivity|].
    unfold upsert. destruct (sighting u0 t a); [|reflexivity].
    apply lookup_insert_ne. intros Heq. apply Hnot.
    change ((idx ∘ roi) u0) with (idx (roi u0)). rewrite Heq.
    apply (list_elem_of_fmap_2 (idx ∘ roi)). exact Hin.
Qed.

Lemma open_video_tracked (frame : loc) :
  always (keeps (tracked : State -> _)) (open_video frame).
Proof. keeps_tac (tracked : State -> _). Qed.

Lemma flush_results_table : always (keeps (table : State -> _)) flush_results.
Proof. keeps_tac (table : State -> _). Qed.

Lemma show_table (i : Z) (frame : loc) : always (keeps (table : State -> _)) (show i frame).
Proof. keeps_tac (table : State -> _). Qed.

(** The table after a frame that was processed to the end. *)
Lemma process_frame_table (i t : Z) (frame : loc) (a : ndarray) (tbl : gmap Z Position)
    (s s' : State) :
  arrays s !! frame = Some a ->
  table s = Some tbl ->
  process_frame i t frame s = (Ok tt, s') ->
  table s' = Some (aggregate t a (_unit_trackers (self s)) tbl).
Proof.
  intros Ha Ht. unfold process_frame. rewrite !bind_setattr.
  set (s0 := upd_self _ (upd_self _ s)).
  pose proof (open_video_tracked frame s0) as K1. unfold keeps in K1.
  destruct (open_video frame s0) as [r1 s1] eqn:E1. simpl in K1.
  rewrite (bind_eq _ _ _ _ _ E1). destruct r1 as [[]|e]; [|discriminate].
  assert (A1 : arrays s1 = arrays s) by exact (f_equal (fun x => fst (fst (fst x))) K1).
  assert (D1 : dicts s1 = dicts s) by exact (f_equal (fun x => snd (fst (fst x))) K1).
  assert (U1 : _unit_trackers (self s1) = _unit_trackers (self s))
    by exact (f_equal (fun x => snd (fst x)) K1).
  assert (P1 : _last_positions (self s1) = _last_positions (self s))
    by exact (f_equal snd K1).
  assert (T1 : table s1 = Some tbl) by (unfold table in *; rewrite P1, D1; exact Ht).
  rewrite <- A1 in Ha.
  destruct (fan_out t frame s1) as [r2 s2] eqn:E2.
  destruct (fan_out_spec _ _ _ _ _ _ _ Ha T1 E2) as (_ & _ & _ & O2).
  rewrite (bind_eq _ _ _ _ _ E2). destruct r2 as [[]|e]; [|discriminate].
  specialize (O2 eq_refl). rewrite U1 in O2.
  pose proof (flush_results_table s2) as K3. unfold keeps in K3.
  destruct (flush_results s2) as [r3 s3] eqn:E3. simpl in K3.
  rewrite (bind_eq _ _ _ _ _ E3). destruct r3 as [[]|e]; [|discriminate].
  intros E4. pose proof (show_table i frame s3) as K4. unfold keeps in K4.
  rewrite E4 in K4. simpl in K4. congruence.
Qed.

(** C2.  One unit: when it yields no data row the table is what it was,
    whatever else happens; when its tracking returns and it yielded a row and
    holds an absolute position, the entry of its ROI is that position.  One
    frame, with ROI identities all distinct and the frame processed to the
    end: for every unit of the list, the entry of its ROI is the position it
    yielded, and is what it was before the frame if it yielded no row. *)
Theorem C2_last_positions_follow_the_units
    (t : Z) (frame : loc) (a : ndarray) (tbl : gmap Z Position) (s : State) :
  arrays s !! frame = Some a ->
  table s = Some tbl ->
  (forall j u r s',
     _unit_trackers (self s) !! j = Some u ->
     track_one t frame j u s = (r, s') ->
     (yields u t a = None -> table s' = Some tbl) /\
     (r = Ok tt -> forall row p,
        yields u t a = Some row ->
        tracker_get_last_position (tracker (advanced u t a)) true = Some p ->
        exists tbl', table s' = Some tbl' /\ tbl' !! idx (roi u) = Some p)) /\
  (forall i s',
     NoDup (idx ∘ roi <$> _unit_trackers (self s)) ->
     process_frame i t frame s = (Ok tt, s') ->
     exists tbl', table s' = Some tbl' /\
       forall u, u ∈ _unit_trackers (self s) ->
         (forall row p,
            yields u t a = Some row ->
            tracker_get_last_position (tracker (advanced u t a)) true = Some p ->
            tbl' !! idx (roi u) = Some p) /\
         (yields u t a = None -> tbl' !! idx (roi u) = tbl !! idx (roi u))).
Proof.
  intros Ha Ht. split.
  - intros j u r s' Hu E.
    destruct (track_one_spec _ _ _ _ _ _ _ _ _ Hu Ha Ht E) as (_ & _ & P & N & O).
    split.
    + intros Hy. unfold table in *. rewrite P, (N Hy). exact Ht.
    + intros -> row p Hy Hp. destruct (O eq_refl) as [_ T].
      eexists. split; [exact T|].
      unfold upsert, sighting. rewrite Hy, Hp. apply lookup_insert_eq.
  - intros i s' Hnd E.
    exists (aggregate t a (_unit_trackers (self s)) tbl).
    split; [eapply process_frame_table; eassumption|].
    intros u Hin. rewrite (aggregate_lookup _ _ _ _ _ Hnd Hin). unfold sighting. split.
    + intros row p Hy Hp. rewrite Hy, Hp. reflexivity.
    + intros Hy. rewrite Hy. reflexivity.
Qed.

End Tracking.

(** ** The stop request *)

Section Modes.

Lemma mode_after_app (m : Mode) (d2 d1 : list Item) :
  mode_after m (d2 ++ d1) = mode_after (mode_after m d1) d2.
Proof. unfold mode_after. apply foldr_app. Qed.

Lemma mode_after_Broken (d : list Item) : mode_after Broken d = Broken.
Proof. induction d as [|it d IH]; simpl; [reflexivity | rewrite IH; reflexivity]. Qed.

Lemma is_shutdown_not_acquisition (it : Item) :
  is_shutdown it = true -> is_acquisition it = false.
Proof. destruct it as [[]| | |]; simpl; try discriminate; reflexivity. Qed.

Lemma shutdown_item_is_shutdown (it : Item) : shutdown_item it -> is_shutdown it = true.
Proof.
  unfold shutdown_item, made.
  intros [[->|[e ->]]|[[->|[e ->]]|[[->|[e ->]]|[->|[r ->]]]]]; reflexivity.
Qed.

(** Shutdown items leave every settled mode settled, and [Down] as it is. *)
Lemma mode_after_shutdown (d : list Item) (m : Mode) :
  Forall (fun it => is_shutdown it = true) d -> settled m ->
  settled (mode_after m d) /\ (mode_after m d = Down <-> m = Down).
Proof.
  intros Hd Hm. induction Hd as [|it d Hit Hd IH]; simpl.
  - tauto.
  - destruct IH as (IH1 & IH2).
    pose proof (is_shutdown_not_acquisition it Hit) as Hacq.
    destruct IH1 as [E|[E|E]]; rewrite E in *; simpl.
    + assert (H : step Free it = Free \/ step Free it = Pending)
        by (destruct it as [| | |[]]; simpl; auto).
      simpl in H. destruct H as [H|H]; rewrite H.
      * split; [left; reflexivity|]. rewrite <- IH2. split; discriminate.
      * split; [right; left; reflexivity|]. rewrite <- IH2. split; discriminate.
    + rewrite Hacq. split; [right; left; reflexivity|]. rewrite <- IH2. split; discriminate.
    + rewrite Hit. split; [right; right; reflexivity|]. tauto.
Qed.

(** After a successful stop: either no frame was acquired since, or exactly
    one, followed at once by the log line of the stop and then by the
    shutdown only. *)
Lemma pending_shape (later : list Item) :
  match mode_after Pending later with
  | Free => False
  | Pending => Forall (fun it => is_acquisition it = false) later
  | Acquired =>
      exists t frame inflight,
        later = Called (CameraNext (Some (t, frame))) :: inflight /\
        Forall (fun it => is_acquisition it = false) inflight
  | Down =>
      exists down t frame inflight,
        later = down ++ Logged INFO stop_msg
                     :: Called (CameraNext (Some (t, frame))) :: inflight /\
        Forall (fun it => is_shutdown it = true) down /\
        Forall (fun it => is_acquisition it = false) inflight
  | Broken => True
  end.
Proof.
  induction later as [|it later IH]; simpl; [constructor|].
  destruct (mode_after Pending later) eqn:E; simpl; try exact I; try contradiction.
  - destruct (is_acquisition it) eqn:Ha.
    + destruct it as [[| | | | | |[[t frame]|]| | | | | | | | | | | | |]| | |];
        try discriminate. eauto.
    + constructor; assumption.
  - destruct IH as (t & frame & inflight & -> & Hin).
    destruct it as [| |[] msg|]; try exact I.
    destruct (String.eqb msg _) eqn:Hm; [|exact I].
    apply String.eqb_eq in Hm. subst msg.
    exists [], t, frame, inflight. split; [reflexivity|]. split; [constructor | exact Hin].
  - destruct IH as (down & t & frame & inflight & -> & Hd & Hin).
    destruct (is_shutdown it) eqn:Hs; [|exact I].
    exists (it :: down), t, frame, inflight.
    split; [reflexivity|]. split; [constructor; assumption | exact Hin].
Qed.

Lemma down_shape (later : list Item) :
  match mode_after Down later with
  | Down => Forall (fun it => is_shutdown it = true) later
  | Broken => True
  | _ => False
  end.
Proof.
  induction later as [|it later IH]; simpl; [constructor|].
  destruct (mode_after Down later); simpl; try exact I; try contradiction.
  destruct (is_shutdown it) eqn:Hs; [constructor; assumption | exact I].
Qed.

Lemma not_settled_Broken : ~ settled Broken.
Proof. intros [H|[H|H]]; discriminate. Qed.

Lemma not_settled_Acquired : ~ settled Acquired.
Proof. intros [H|[H|H]]; discriminate. Qed.

(** What follows a successful [stop()] in a trace that ends settled. *)
Lemma split_shape (d later earlier : list Item) :
  d = later ++ Client_stop (Ok tt) :: earlier ->
  settled (mode_after Free d) ->
  Forall (fun it => is_acquisition it = false) later \/
  (exists down t frame inflight,
     later = down ++ Logged INFO stop_msg
                  :: Called (CameraNext (Some (t, frame))) :: inflight /\
     Forall (fun it => is_shutdown it = true) down /\
     Forall (fun it => is_acquisition it = false) inflight /\
     mode_after Free d = Down).
Proof.
  intros -> Hs. rewrite mode_after_app in Hs |- *. simpl in Hs |- *.
  destruct (mode_after Free earlier); simpl in Hs |- *.
  - pose proof (pending_shape later) as Hp.
    destruct (mode_after Pending later); try contradiction.
    + left. exact Hp.
    + destruct (not_settled_Acquired Hs).
    + right. destruct Hp as (down & t & frame & inflight & H1 & H2 & H3).
      exists down, t, frame, inflight. auto.
    + destruct (not_settled_Broken Hs).
  - pose proof (pending_shape later) as Hp.
    destruct (mode_after Pending later); try contradiction.
    + left. exact Hp.
    + destruct (not_settled_Acquired Hs).
    + right. destruct Hp as (down & t & frame & inflight & H1 & H2 & H3).
      exists down, t, frame, inflight. auto.
    + destruct (not_settled_Broken Hs).
  - rewrite mode_after_Broken in Hs. destruct (not_settled_Broken Hs).
  - pose proof (down_shape later) as Hp.
    destruct (mode_after Down later); try contradiction.
    + left. eapply Forall_impl; [exact Hp|]. apply is_shutdown_not_acquisition.
    + destruct (not_settled_Broken Hs).
  - rewrite mode_after_Broken in Hs. destruct (not_settled_Broken Hs).
Qed.

End Modes.

#[global] Instance flying_preorder {Interactor Tracker} :
  PreOrder (@flying Interactor Tracker).
Proof.
  split.
  - intros s. exists []. split; [reflexivity|]. intros m Hm Hc. simpl. auto.
  - intros s1 s2 s3 (d1 & H1 & F1) (d2 & H2 & F2). exists (d2 ++ d1).
    split; [rewrite H2, H1; apply app_assoc|].
    intros m Hm Hc. rewrite mode_after_app.
    destruct (F1 m Hm Hc) as [Hm1 Hc1]. apply F2; assumption.
Qed.

Section Flying.
Context {TrackerClass Interactor Tracker : Type}.
Context `{API : TrackingUnitAPI TrackerClass Interactor Tracker}.
Abbreviation State := (@State Interactor Tracker).

Lemma flying_quiet (s s' : State) :
  trace s' = trace s -> _force_stop (self s') = _force_stop (self s) ->
  stored s' = stored s -> flying s s'.
Proof.
  intros Ht Hf Hs. exists []. split; [exact Ht|]. intros m Hm Hc. simpl.
  split; [exact Hm|]. intros ->. rewrite Hf, Hs. apply Hc. reflexivity.
Qed.

Lemma flying_record (it : Item) (s : State) :
  (forall m, in_flight m -> step m it = m) -> flying s (record it s).
Proof.
  intros Hit. exists [it]. split; [reflexivity|]. intros m Hm Hc. simpl.
  rewrite (Hit m Hm). split; [exact Hm|]. intros ->. apply Hc. reflexivity.
Qed.

Lemma flying_interleave : always (@flying Interactor Tracker) interleave.
Proof.
  intros s. unfold interleave. destruct (stop_at _ _); [|reflexivity].
  unfold stop, getattr, gets, bind, setattr, modify, raise.
  destruct (_exception (self s)) as [e|] eqn:He; simpl.
  - apply flying_record. intros m [->| ->]; reflexivity.
  - exists [Client_stop (Ok tt)]. split; [reflexivity|]. intros m Hm Hc. simpl.
    assert (step m (Client_stop (Ok tt)) = Pending) as ->
      by (destruct Hm as [->| ->]; reflexivity).
    split; [right; reflexivity|]. intros _. split; [reflexivity | exact He].
Qed.

Lemma flying_call (c : Call) :
  is_acquisition (Called c) = false -> always (@flying Interactor Tracker) (call c).
Proof.
  intros Hc s. unfold call. destruct (fault _ _) as [e|]; simpl.
  - apply flying_record. intros m [->| ->]; reflexivity.
  - apply flying_record. intros m [->| ->]; [destruct c; reflexivity|].
    simpl in *. rewrite Hc. reflexivity.
Qed.

Lemma flying_logged (l : Level) (msg : string) (s : State) :
  flying s (record (Logged l msg) s).
Proof. apply flying_record. intros m [->| ->]; reflexivity. Qed.

(** [always flying m] for code that contains neither an acquisition nor an
    assignment to the stop flag or the stored error. *)
Ltac flying_tac :=
  pose proof flying_interleave;
  always_tac;
  first [ apply flying_call; reflexivity
        | apply flying_logged
        | apply flying_quiet; reflexivity ].

Lemma process_frame_flying (i t : Z) (frame : loc) :
  always flying (process_frame i t frame).
Proof. flying_tac. Qed.

Lemma run_setup_flying : always (@flying Interactor Tracker) run_setup.
Proof. flying_tac. Qed.

Lemma for_camera_stored (i : Z) (items : Camera) :
  always (keeps (stored : State -> _)) (for_camera loop_body i items).
Proof. keeps_tac (@stored Interactor Tracker). Qed.

(** The camera yields a frame, or raises. *)
Lemma camera_yield_spec (t : Z) (a : ndarray) (s : State) r (s' : State) :
  camera_yield t a s = (r, s') ->
  exists (s0 : State) it,
    flying s s0 /\ trace s' = it :: trace s0 /\
    _force_stop (self s') = _force_stop (self s0) /\ stored s' = stored s0 /\
    ((exists e c, r = Raise e /\ it = Raised c e) \/
     (exists frame, r = Ok frame /\ it = Called (CameraNext (Some (t, frame))))).
Proof.
  unfold camera_yield, ext. mstep.
  pose proof (flying_interleave s) as Hi.
  destruct (interleave s) as [r0 s0] eqn:E0. simpl in Hi.
  assert (r0 = Ok tt) as ->.
  { revert E0. unfold interleave. destruct (stop_at _ _); [|congruence].
    destruct (stop s). congruence. }
  rewrite (bind_eq _ _ _ _ _ E0). cbv beta iota.
  unfold call at 1. unfold bind at 1.
  destruct (fault _ _) as [e|].
  - intros [= <- <-]. exists s0, (Raised (CameraNext (Some (t, length (arrays s)))) e).
    split; [exact Hi|]. repeat (split; [reflexivity|]). left. eauto.
  - unfold ndarray_new. mstep. intros [= <- <-].
    exists s0, (Called (CameraNext (Some (t, length (arrays s))))).
    split; [exact Hi|]. repeat (split; [reflexivity|]). right.
    exists (length (arrays s)). split; [|reflexivity]. f_equal.
    pose proof (keeps_interleave (arrays : State -> _) (fun _ _ => eq_refl)
                  (fun _ => eq_refl) s) as Ha.
    unfold keeps in Ha. rewrite E0 in Ha. simpl in Ha. rewrite Ha. reflexivity.
Qed.

(** The loop and the stop protocol. *)
Lemma for_camera_protocol (items : Camera) :
  forall (i : Z) (s : State) r (s' : State),
  for_camera loop_body i items s = (r, s') ->
  exists d, trace s' = d ++ trace s /\
    forall m, in_flight m -> coherent m s ->
      settled (mode_after m d) /\
      (mode_after m d = Down -> r = Ok tt /\ stored s' = None).
Proof.
  induction items as [|[t a] rest IH]; intros i s r s'; simpl.
  - intros E. pose proof (always_ext (R := flying) (CameraNext None) flying_interleave
                            (flying_call (CameraNext None) eq_refl) s) as (d & Hd & Hm).
    rewrite E in Hd, Hm. simpl in Hd, Hm. exists d. split; [exact Hd|].
    intros m Hin Hco. destruct (Hm m Hin Hco) as [[E1|E1] _]; rewrite E1.
    + split; [left; reflexivity | discriminate].
    + split; [right; left; reflexivity | discriminate].
  - destruct (camera_yield t a s) as [r1 s1] eqn:E1.
    destruct (camera_yield_spec _ _ _ _ _ E1)
      as (s0 & it & (d0 & Hd0 & Hm0) & Ht1 & Hf1 & Hs1 & Hr1).
    rewrite (bind_eq _ _ _ _ _ E1).
    destruct Hr1 as [(e & c & -> & ->)|(frame & -> & ->)].
    { intros [= <- <-]. exists (Raised c e :: d0). split; [rewrite Ht1, Hd0; reflexivity|].
      intros m Hin Hco. simpl. destruct (Hm0 m Hin Hco) as [[E0|E0] _]; rewrite E0; simpl.
      - split; [left; reflexivity | discriminate].
      - split; [right; left; reflexivity | discriminate]. }
    unfold loop_body. mstep.
    destruct (_force_stop (self s1)) eqn:Hflag.
    { unfold logging_info. mstep. intros [= <- <-].
      exists (Logged INFO stop_msg :: Called (CameraNext (Some (t, frame))) :: d0).
      split; [simpl; rewrite Ht1, Hd0; reflexivity|].
      intros m Hin Hco. simpl.
      destruct (Hm0 m Hin Hco) as [[E0|E0] Hc0]; rewrite E0 in *; simpl.
      - split; [left; reflexivity | discriminate].
      - split; [right; right; reflexivity|]. intros _. split; [reflexivity|].
        unfold stored in *. simpl. rewrite Hs1. apply Hc0. reflexivity. }
    assert (Hfree : forall m, in_flight m -> coherent m s ->
                              mode_after m (Called (CameraNext (Some (t, frame))) :: d0) = Free).
    { intros m Hin Hco. simpl. destruct (Hm0 m Hin Hco) as [[E0|E0] Hc0]; rewrite E0 in *.
      - reflexivity.
      - destruct (Hc0 eq_refl) as [Hc _]. congruence. }
    destruct (match _max_duration (self s1) with
              | Some d => bool_decide (t > d)
              | None => false
              end).
    { unfold logging_info. mstep. intros [= <- <-].
      exists (Logged INFO timeout_msg :: Called (CameraNext (Some (t, frame))) :: d0).
      split; [simpl; rewrite Ht1, Hd0; reflexivity|].
      intros m Hin Hco. change (mode_after m (Logged INFO timeout_msg :: ?l))
        with (step (mode_after m l) (Logged INFO timeout_msg)).
      rewrite (Hfree m Hin Hco). simpl. split; [left; reflexivity | discriminate]. }
    pose proof (process_frame_flying i t frame s1) as (d2 & Hd2 & Hm2).
    destruct (process_frame i t frame s1) as [r2 s2] eqn:E2. simpl in Hd2, Hm2.
    rewrite bind_bind, (bind_eq _ _ _ _ _ E2).
    assert (Hmode2 : forall m, in_flight m -> coherent m s ->
              mode_after m (d2 ++ Called (CameraNext (Some (t, frame))) :: d0)
              = mode_after Free d2).
    { intros m Hin Hco. rewrite mode_after_app, (Hfree m Hin Hco). reflexivity. }
    assert (Hco1 : coherent Free s1) by (intros [=]).
    destruct (Hm2 Free (or_introl eq_refl) Hco1) as [Hin2 Hco2].
    destruct r2 as [[]|e].
    2:{ intros [= <- <-].
        exists (d2 ++ Called (CameraNext (Some (t, frame))) :: d0).
        split; [rewrite Hd2, Ht1, Hd0, <- app_assoc; reflexivity|].
        intros m Hin Hco. rewrite (Hmode2 m Hin Hco).
        destruct Hin2 as [E|E]; rewrite E.
        - split; [left; reflexivity | discriminate].
        - split; [right; left; reflexivity | discriminate]. }
    mstep. intros E3. destruct (IH _ _ _ _ E3) as (d3 & Hd3 & Hm3).
    exists (d3 ++ d2 ++ Called (CameraNext (Some (t, frame))) :: d0).
    split; [rewrite Hd3, Hd2, Ht1, Hd0, <- !app_assoc; reflexivity|].
    intros m Hin Hco. rewrite mode_after_app, (Hmode2 m Hin Hco).
    apply Hm3; assumption.
Qed.

(** The whole run and the stop protocol. *)
Lemma run_protocol (s : State) :
  exists d, trace (snd (run s)) = d ++ trace s /\
            settled (mode_after Free d) /\
            (mode_after Free d = Down -> stored (snd (run s)) = None).
Proof.
  unfold run. rewrite !bind_modify, try_finally_snd.
  set (s0 := set_result_writer None (set_vw None s)).
  (* the try block *)
  assert (Htry : exists d, trace (snd (run_try s0)) = d ++ trace s /\
            settled (mode_after Free d) /\
            (mode_after Free d = Down ->
             fst (run_try s0) = Ok tt /\ stored (snd (run_try s0)) = None)).
  { unfold run_try.
    pose proof (run_setup_flying s0) as (d1 & Hd1 & Hm1).
    destruct (run_setup s0) as [r1 s1] eqn:E1. simpl in Hd1, Hm1.
    rewrite (bind_eq _ _ _ _ _ E1).
    assert (Hc0 : coherent Free s0) by (intros [=]).
    destruct (Hm1 Free (or_introl eq_refl) Hc0) as [Hin1 Hco1].
    destruct r1 as [[]|e].
    2:{ exists d1. split; [exact Hd1|]. simpl.
        destruct Hin1 as [E|E]; rewrite E.
        - split; [left; reflexivity | discriminate].
        - split; [right; left; reflexivity | discriminate]. }
    rewrite bind_setattr. unfold run_loop. rewrite bind_getattr.
    set (s1' := upd_self (set__is_running true) s1).
    destruct (for_camera loop_body 0 (_camera (self s1')) s1') as [r2 s2] eqn:E2.
    destruct (for_camera_protocol _ _ _ _ _ E2) as (d2 & Hd2 & Hm2).
    exists (d2 ++ d1). split; [simpl; rewrite Hd2; simpl; rewrite Hd1, app_assoc; reflexivity|].
    rewrite mode_after_app. apply Hm2; [exact Hin1|].
    intros Hp. apply Hco1 in Hp. exact Hp. }
  destruct Htry as (dt & Hdt & Hst & Hdown).
  (* the except clauses *)
  assert (Hexc : exists d, trace (snd (try_except run_try run_except s0)) = d ++ trace s /\
            settled (mode_after Free d) /\
            (mode_after Free d = Down ->
             stored (snd (try_except run_try run_except s0)) = None)).
  { unfold try_except. destruct (run_try s0) as [rt st] eqn:Et. simpl in Hdt, Hdown.
    destruct rt as [[]|e].
    - exists dt. split; [exact Hdt|]. split; [exact Hst|]. intros H. apply Hdown, H.
    - assert (Hin : in_flight (mode_after Free dt)).
      { destruct Hst as [H|[H|H]]; [left; exact H | right; exact H|].
        destruct (Hdown H) as [[=] _]. }
      unfold run_except, logging_error.
      assert (Hstep : forall msg, mode_after Free (Logged ERROR msg :: dt)
                                  = mode_after Free dt).
      { intros msg. simpl. destruct Hin as [E|E]; rewrite E; reflexivity. }
      destruct (isinstance_PSVException e); rewrite bind_modify; unfold setattr, modify;
        simpl; eexists (Logged ERROR _ :: dt);
        (split; [rewrite Hdt; reflexivity|]); rewrite Hstep;
        (split; [exact Hst|]); intros H; destruct (Hdown H) as [[=] _]. }
  destruct Hexc as (de & Hde & Hse & Hdowne).
  set (s2 := snd (try_except run_try run_except s0)) in *.
  (* the finally clause *)
  unfold run_finally. rewrite bind_setattr.
  set (s3 := upd_self (set__is_running false) s2).
  destruct (teardown_emits s3) as (df & Hdf & Fdf).
  pose proof (teardown_stored s3) as Hsf. unfold keeps in Hsf.
  assert (Fdf' : Forall (fun it => is_shutdown it = true) df).
  { eapply Forall_impl; [exact Fdf|]. apply shutdown_item_is_shutdown. }
  destruct (mode_after_shutdown df _ Fdf' Hse) as [Hsd Hiff].
  exists (df ++ de). split; [rewrite Hdf; simpl; rewrite Hde, app_assoc; reflexivity|].
  rewrite mode_after_app. split; [exact Hsd|].
  intros H. rewrite Hsf. apply Hdowne, Hiff, H.
Qed.

(** C6. Take any successful call of [stop()] during a run.  In what the run
    does afterwards, either no further frame is acquired (the frame in flight
    is finished, or raises, or the camera is exhausted), or exactly one is:
    then the very next thing is the log line of the stop request, all that
    follows is the shutdown, no tracking is done on that frame, and no error
    is stored. *)
Theorem C6_stop_is_seen_at_the_next_frame (s : State) :
  exists d, trace (snd (run s)) = d ++ trace s /\
    forall later earlier,
      d = later ++ Client_stop (Ok tt) :: earlier ->
      Forall (fun it => is_acquisition it = false) later \/
      (exists down t frame inflight,
         later = down ++ Logged INFO stop_msg
                      :: Called (CameraNext (Some (t, frame))) :: inflight /\
         Forall (fun it => is_shutdown it = true) down /\
         Forall (fun it => is_acquisition it = false) inflight /\
         stored (snd (run s)) = None).
Proof.
  destruct (run_protocol s) as (d & Hd & Hs & Hdown).
  exists d. split; [exact Hd|]. intros later earlier Hsplit.
  destruct (split_shape d later earlier Hsplit Hs)
    as [H|(down & t & frame & inflight & H1 & H2 & H3 & H4)].
  - left. exact H.
  - right. exists down, t, frame, inflight. auto.
Qed.

End Flying.

(** ** What [run] does not do when it is not asked to *)

#[global] Instance under_preorder {Interactor Tracker}
  (P : @State Interactor Tracker -> Prop) (R : relation (@State Interactor Tracker)) :
  PreOrder R -> PreOrder (under P R).
Proof.
  intros HR. split.
  - intros s HP. split; [exact HP | reflexivity].
  - intros s1 s2 s3 H12 H23 HP. destruct (H12 HP) as [HP2 R12].
    destruct (H23 HP2) as [HP3 R23]. split; [exact HP3 | etransitivity; eassumption].
Qed.

Section Camera.
Context {TrackerClass Interactor Tracker : Type}.
Context `{API : TrackingUnitAPI TrackerClass Interactor Tracker}.
Abbreviation State := (@State Interactor Tracker).
Context {R : State -> State -> Prop} `{!PreOrder R}.

(** The loop over the camera calls nothing but the camera's iterator besides
    what its body calls. *)
Lemma always_camera (body : Z -> Z -> loc -> M State LoopCtl) :
  always R interleave -> (forall item, always R (call (CameraNext item))) ->
  (forall a, always R (ndarray_new a)) ->
  (forall i t frame, always R (body i t frame)) ->
  forall items i, always R (for_camera body i items).
Proof.
  intros Hi Hc Hn Hb. induction items as [|[t a] rest IH]; intros i; simpl.
  - apply always_ext; auto.
  - apply always_bind.
    + unfold camera_yield. apply always_bind; [apply always_gets | intros l].
      apply always_bind; [apply always_ext; auto | intros _; apply Hn].
    + intros frame. apply always_bind; [apply Hb | intros [|]].
      * apply IH.
      * apply always_ret.
Qed.

End Camera.

(** Like [always_tac], with the facts of the context used first. *)
Ltac always_by :=
  repeat first
    [ solve [ match goal with H : _ |- _ => apply H end ]
    | lazymatch goal with
      | |- always _ (for_camera _ _ _) => apply always_camera; intros
      end
    | always_step ].

Section UnderFrames.
Context {TrackerClass Interactor Tracker : Type}.
Context `{API : TrackingUnitAPI TrackerClass Interactor Tracker}.
Abbreviation State := (@State Interactor Tracker).
Context (P : State -> Prop) (R : State -> State -> Prop) `{!PreOrder R}.
Hypothesis P_record : forall it s, P s -> P (record it s).
Hypothesis P_stop : forall s, P s -> P (upd_self (set__force_stop true) s).

Lemma under_interleave : always R interleave -> always (under P R) interleave.
Proof.
  intros H s HP. split; [|apply H]. unfold interleave. destruct (stop_at _ _); [|exact HP].
  unfold stop, getattr, gets, bind, setattr, modify, raise.
  destruct (_exception (self s)); simpl; auto.
Qed.

Lemma under_call (c : Call) : always R (call c) -> always (under P R) (call c).
Proof.
  intros H s HP. split; [|apply H]. unfold call. destruct (fault _ _); simpl; auto.
Qed.

Lemma under_step (s s' : State) : (P s -> P s') -> R s s' -> under P R s s'.
Proof. intros HP HR H. split; [apply HP, H | exact HR]. Qed.

(** What holds of the three parts of [run] holds of [run], which starts with
    no video writer and no result writer. *)
Lemma run_under (s : State) :
  P (set_result_writer None (set_vw None s)) ->
  R s (set_result_writer None (set_vw None s)) ->
  always (under P R) run_try ->
  (forall e, always (under P R) (run_except e)) ->
  always (under P R) run_finally ->
  P (snd (run s)) /\ R s (snd (run s)).
Proof.
  intros H0 R0 Ht He Hf.
  assert (Hall : always (under P R)
                   (try_finally (try_except run_try run_except) run_finally)).
  { apply always_try_finally; [apply always_try_except|]; assumption. }
  unfold run. rewrite !bind_modify.
  destruct (Hall _ H0) as [HP HR]. split; [exact HP|].
  etransitivity; [exact R0 | exact HR].
Qed.

End UnderFrames.

(** The leaves of a decomposition for [under P (emits phi)], where [P] reads
    neither the trace nor the stop flag and [phi] is a test of the call
    behind an item. *)
Ltac under_emits_leaves :=
  first
    [ apply under_interleave;
      [intros ? ? HP; exact HP | intros ? HP; exact HP | apply emits_interleave; intros; exact I]
    | apply under_call;
      [intros ? ? HP; exact HP | apply emits_call; [reflexivity | intros; reflexivity]]
    | apply under_step; [intros HP; exact HP | apply emits_same; reflexivity]
    | apply under_step; [intros HP; exact HP | apply emits_record; exact I] ].

(** The outcome of the teardown: it raises what [vw.release()] raises, and
    nothing else; when it returns, the closing line is the last thing logged. *)
Section Teardown.
Context {TrackerClass Interactor Tracker : Type}.
Context `{API : TrackingUnitAPI TrackerClass Interactor Tracker}.
Abbreviation State := (@State Interactor Tracker).

Lemma interleave_ok (s : State) : fst (interleave s) = Ok tt.
Proof.
  unfold interleave. destruct (stop_at _ _); [|reflexivity].
  destruct (stop s). reflexivity.
Qed.

(** A call into a collaborator, by its outcome. *)
Lemma ext_inv (c : Call) (s : State) r (s' : State) :
  ext c s = (r, s') ->
  core s' = core s /\
  exists pre, Forall (fun x => exists r, x = Client_stop r) pre /\
    trace s' = match r with Ok _ => Called c | Raise e => Raised c e end
               :: pre ++ trace s.
Proof.
  intros E. split.
  { pose proof (keeps_ext (core : State -> _) c (fun _ _ => eq_refl) (fun _ => eq_refl) s)
      as H. unfold keeps in H. rewrite E in H. exact H. }
  revert E. unfold ext, bind, interleave.
  destruct (stop_at _ _).
  - destruct (stop s) as [r0 s1] eqn:E0.
    assert (Ht : trace s1 = trace s).
    { revert E0. unfold stop, bind, getattr, gets, setattr, modify, raise.
      destruct (_exception (self s)); intros [= <- <-]; reflexivity. }
    unfold call. destruct (fault _ _) as [e|]; simpl; intros [= <- <-];
      exists [Client_stop r0]; (split; [repeat constructor; eauto|]);
      simpl; rewrite Ht; reflexivity.
  - unfold call. destruct (fault _ _) as [e|]; simpl; intros [= <- <-];
      exists []; (split; [constructor | reflexivity]).
Qed.



End Teardown.

Section Video.
Context {TrackerClass Interactor Tracker : Type}.
Context `{API : TrackingUnitAPI TrackerClass Interactor Tracker}.
Abbreviation State := (@State Interactor Tracker).

Let R : State -> State -> Prop := under no_video (emits (avoids video_call)).










End Video.

Section Display.
Context {TrackerClass Interactor Tracker : Type}.
Context `{API : TrackingUnitAPI TrackerClass Interactor Tracker}.
Abbreviation State := (@State Interactor Tracker).

Let R : State -> State -> Prop := under no_display (emits (avoids render_call)).

Lemma no_display_window :
  always R (let* dr := getattr _draw_results in
            when dr (let* name := getattr__window_name in
                     cv2_namedWindow name CV_WINDOW_AUTOSIZE)).
Proof.
  intros s HP. pose proof HP as [Hd _]. rewrite bind_getattr, Hd.
  split; [exact HP | reflexivity].
Qed.

Lemma no_display_open (frame : loc) : always R (open_video frame).
Proof.
  intros s HP. pose proof HP as (_ & Ho & _). unfold open_video.
  rewrite !bind_getattr, bind_gets, Ho. split; [exact HP | reflexivity].
Qed.

Lemma no_display_show (i : Z) (frame : loc) : always R (show i frame).
Proof.
  intros s HP. pose proof HP as (Hd & _ & Hw). unfold show, draw_due.
  rewrite bind_bind, bind_getattr, Hd, bind_ret, bind_gets, Hw.
  split; [exact HP | reflexivity].
Qed.

Lemma no_display_release :
  always R (let* w := gets vw in
            match w with
            | Some w => VideoWriter_release w
            | None => ret tt
            end).
Proof.
  intros s HP. pose proof HP as (_ & _ & Hw). rewrite bind_gets, Hw.
  split; [exact HP | reflexivity].
Qed.

Lemma no_display_try : always R run_try.
Proof.
  pose proof no_display_window.
  pose proof no_display_open. pose proof no_display_show.
  always_by; under_emits_leaves.
Qed.

Lemma no_display_finally : always R run_finally.
Proof.
  pose proof no_display_release.
  always_by; under_emits_leaves.
Qed.

Lemma no_display_except (e : Exn) : always R (run_except e).
Proof. always_by; under_emits_leaves. Qed.

(** X3. With neither a window nor a video output asked for, [run] never calls
    the renderer: no frame is copied, nothing is drawn, no window is named or
    shown.  (The finally clause still calls [cv2.waitKey] and
    [cv2.destroyAllWindows].) *)
Theorem nothing_is_rendered_unasked (s : State) :
  _draw_results (self s) = false ->
  _video_out (self s) = None ->
  exists d, trace (snd (run s)) = d ++ trace s /\ Forall (avoids render_call) d.
Proof.
  intros Hd Hv. apply (run_under no_display (emits (avoids render_call))).
  - split; [exact Hd|]. split; [exact Hv | reflexivity].
  - apply emits_same. reflexivity.
  - apply no_display_try.
  - apply no_display_except.
  - apply no_display_finally.
Qed.

End Display.

Section Results.
Context {TrackerClass Interactor Tracker : Type}.
Context `{API : TrackingUnitAPI TrackerClass Interactor Tracker}.
Abbreviation State := (@State Interactor Tracker).

Let R : State -> State -> Prop := under no_results (emits (avoids result_call)).

Lemma no_results_writer :
  always R (let* result_file := getattr _result_file in
            match result_file with
            | Some f =>
                let* md := getattr _metadata in
                let* rw := ResultWriter__init__ f md in
                modify (set_result_writer (Some rw))
            | None => ret tt
            end).
Proof.
  intros s HP. pose proof HP as [Hf _]. rewrite bind_getattr, Hf.
  split; [exact HP | reflexivity].
Qed.

Lemma no_results_write (t : Z) (r : ROI) (data_row : DataRow) :
  always R (let* rw := gets result_writer in
            match rw with
            | Some rw => ResultWriter_write rw t r data_row
            | None => ret tt
            end).
Proof.
  intros s HP. pose proof HP as [_ Hw]. rewrite bind_gets, Hw.
  split; [exact HP | reflexivity].
Qed.

Lemma no_results_flush : always R flush_results.
Proof.
  intros s HP. pose proof HP as [_ Hw]. unfold flush_results. rewrite bind_gets, Hw.
  split; [exact HP | reflexivity].
Qed.

Lemma no_results_try : always R run_try.
Proof.
  pose proof no_results_writer.
  pose proof no_results_write. pose proof no_results_flush.
  always_by; under_emits_leaves.
Qed.

Lemma no_results_finally : always R run_finally.
Proof. always_by; under_emits_leaves. Qed.

Lemma no_results_except (e : Exn) : always R (run_except e).
Proof. always_by; under_emits_leaves. Qed.

(** X4. Without a result file, [run] makes no result writer and writes and
    flushes nothing. *)
Theorem nothing_is_written_unasked (s : State) :
  _result_file (self s) = None ->
  exists d, trace (snd (run s)) = d ++ trace s /\ Forall (avoids result_call) d.
Proof.
  intros Hf. apply (run_under no_results (emits (avoids result_call))).
  - split; [exact Hf | reflexivity].
  - apply emits_same. reflexivity.
  - apply no_results_try.
  - apply no_results_except.
  - apply no_results_finally.
Qed.

End Results.

(** ** What [run] leaves as it is *)

#[global] Instance grows_preorder {Interactor Tracker} : PreOrder (@grows Interactor Tracker).
Proof.
  split.
  - intros s. unfold grows. reflexivity.
  - intros s1 s2 s3. unfold grows. intros H12 H23. etransitivity; eassumption.
Qed.

#[global] Instance in_time_preorder {Interactor Tracker} (d : Z) :
  PreOrder (@in_time Interactor Tracker d).
Proof.
  split.
  - intros s Hm Ht. split; [exact Hm|]. split; [exact Ht | reflexivity].
  - intros s1 s2 s3 H12 H23 Hm Ht.
    destruct (H12 Hm Ht) as (Hm2 & Ht2 & E12).
    destruct (H23 Hm2 Ht2) as (Hm3 & Ht3 & E23).
    split; [exact Hm3|]. split; [exact Ht3 | etransitivity; eassumption].
Qed.

(** [always (keeps f) m], with the facts of the context used first. *)
Ltac keeps_by f :=
  let Hi := fresh "Hi" in
  let Hc := fresh "Hc" in
  assert (Hi := keeps_interleave f (fun _ _ => eq_refl) (fun _ => eq_refl));
  assert (Hc := fun c => keeps_call f c (fun _ _ => eq_refl));
  always_by; try reflexivity.

Section RunFrames.
Context {TrackerClass Interactor Tracker : Type}.
Context `{API : TrackingUnitAPI TrackerClass Interactor Tracker}.
Abbreviation State := (@State Interactor Tracker).

Lemma run_configuration : always (keeps (configuration : State -> _)) run.
Proof. keeps_tac (configuration : State -> _). Qed.

(** X5. [run] assigns none of the attributes that hold the configuration: the
    camera, the result file, the metadata, [draw_results], the window name,
    [draw_every_n], the duration, the video output, and the dictionary that
    [_last_positions] names.  So [result_files] returns after a run what it
    returned before, unless the run stored an error, which it raises. *)
Theorem run_keeps_the_configuration (s : State) :
  configuration (snd (run s)) = configuration s /\
  fst (result_files (snd (run s)))
  = match stored (snd (run s)) with
    | Some e => Raise e
    | None => Ok [_result_file (self s)]
    end.
Proof.
  pose proof (run_configuration s) as H. unfold keeps in H. split; [exact H|].
  assert (Hf : _result_file (self (snd (run s))) = _result_file (self s)).
  { exact (f_equal (fun x => snd (fst (fst (fst (fst (fst (fst (fst x)))))))) H). }
  unfold result_files, reraise, stored. rewrite bind_bind, bind_getattr.
  destruct (_exception (self (snd (run s)))); [reflexivity|].
  rewrite bind_ret, bind_getattr, Hf. reflexivity.
Qed.


Lemma call_assignment (j : nat) (t : Z) (frame : loc) :
  always (keeps (assignment : State -> _)) (TrackingUnit__call__ j t frame).
Proof.
  intros s. unfold keeps, TrackingUnit__call__.
  pose proof (keeps_ext (assignment : State -> _) (Track j t frame)
                (fun _ _ => eq_refl) (fun _ => eq_refl) s) as H1.
  unfold keeps in H1.
  destruct (ext (Track j t frame) s) as [r1 s1] eqn:E1. simpl in H1.
  rewrite (bind_eq _ _ _ _ _ E1). destruct r1 as [[]|e]; [|exact H1].
  unfold ndarray_get. mstep. destruct (arrays s1 !! frame); mstep; [|exact H1].
  destruct (_unit_trackers (self s1) !! j) as [u|] eqn:Hj; mstep; [|exact H1].
  simpl. rewrite <- H1. unfold assignment. simpl.
  rewrite !list_fmap_insert. simpl.
  rewrite !list_insert_id by (rewrite list_lookup_fmap, Hj; reflexivity).
  reflexivity.
Qed.

Lemma run_assignment : always (keeps (assignment : State -> _)) run.
Proof. pose proof call_assignment. keeps_by (assignment : State -> _). Qed.

(** X7. [run] leaves the tracking units where they are: the same ROIs and the
    same interactors, in the same order. *)
Theorem run_keeps_the_units_in_place (s : State) :
  roi <$> _unit_trackers (self (snd (run s))) = roi <$> _unit_trackers (self s) /\
  interactor <$> _unit_trackers (self (snd (run s)))
  = interactor <$> _unit_trackers (self s).
Proof.
  pose proof (run_assignment s) as H. unfold keeps, assignment in H.
  split; [exact (f_equal fst H) | exact (f_equal snd H)].
Qed.

Lemma keeps_grows {A} (m : M State A) :
  always (keeps (arrays : State -> _)) m -> always (@grows Interactor Tracker) m.
Proof. intros H s. unfold grows. rewrite (H s). reflexivity. Qed.

Lemma draw_on_frame_grows (frame : option loc) : always (@grows Interactor Tracker) (_draw_on_frame frame).
Proof.
  intros s. destruct (_draw_on_frame frame s) as [r s'] eqn:E.
  destruct (draw_on_frame_spec _ _ _ _ E) as (_ & H & _). exact H.
Qed.

Lemma ndarray_new_grows (a : ndarray) : always (@grows Interactor Tracker) (ndarray_new a).
Proof. intros s. unfold grows. simpl. apply prefix_app_r. reflexivity. Qed.

Lemma run_grows : always (@grows Interactor Tracker) run.
Proof.
  assert (Hi : always (@grows Interactor Tracker) interleave).
  { apply keeps_grows, keeps_interleave; reflexivity. }
  assert (Hc : forall c, always (@grows Interactor Tracker) (call c)).
  { intros c. apply keeps_grows, keeps_call. reflexivity. }
  pose proof draw_on_frame_grows. pose proof ndarray_new_grows.
  always_by; unfold grows; reflexivity.
Qed.

Lemma request_grows (rq : Request) : always (@grows Interactor Tracker) (request rq).
Proof.
  pose proof draw_on_frame_grows.
  destruct rq; always_by; unfold grows; reflexivity.
Qed.

(** X8. Neither [run] nor any request of a client changes a frame that is in the
    store, or removes one: frames are only added. *)
Theorem frames_are_never_overwritten (s : State) :
  arrays s `prefix_of` arrays (snd (run s)) /\
  forall rq, arrays s `prefix_of` arrays (snd (request rq s)).
Proof. split; [apply run_grows | intros rq; apply request_grows]. Qed.

Lemma rest_of_frame (i t : Z) (frame : loc) :
  always (keeps (fun s : State => (in_progress s, stored s)))
    (open_video frame >> fan_out t frame >> flush_results >> show i frame).
Proof. keeps_tac (fun s : State => (in_progress s, stored s)). Qed.

Lemma process_frame_in_progress (i t : Z) (frame : loc) (s : State) :
  in_progress (snd (process_frame i t frame s)) = (t, Some frame) /\
  stored (snd (process_frame i t frame s)) = stored s.
Proof.
  unfold process_frame. rewrite !bind_setattr.
  pose proof (rest_of_frame i t frame
                (upd_self (set__frame_buffer (Some frame))
                   (upd_self (set__last_time_stamp t) s))) as H.
  unfold keeps in H.
  split; [exact (f_equal fst H) | exact (f_equal snd H)].
Qed.











End RunFrames.

(** ** The stop flag, and the keys of the table *)

#[global] Instance keys_in_preorder {Interactor Tracker} (K : list Z) :
  PreOrder (@keys_in Interactor Tracker K).
Proof.
  split.
  - intros s. split; [reflexivity|]. split; [reflexivity|]. intros tbl Ht. exists tbl. auto.
  - intros s1 s2 s3 (P12 & L12 & H12) (P23 & L23 & H23).
    split; [congruence|]. split; [congruence|]. intros tbl Ht.
    destruct (H12 tbl Ht) as (tbl2 & Ht2 & K2).
    destruct (H23 tbl2 Ht2) as (tbl3 & Ht3 & K3).
    exists tbl3. split; [exact Ht3|]. intros k.
    destruct (K2 k) as [A2 B2]. destruct (K3 k) as [A3 B3]. split.
    + auto.
    + intros Hk. rewrite B3, B2 by exact Hk. reflexivity.
Qed.

Section StoppedRun.
Context {TrackerClass Interactor Tracker : Type}.
Context `{API : TrackingUnitAPI TrackerClass Interactor Tracker}.
Abbreviation State := (@State Interactor Tracker).

Let R1 : State -> State -> Prop := under stopped (emits (avoids frame_work)).
Let R2 : State -> State -> Prop := under stopped (keeps frame_state).

Lemma stopped_body_emits (i t : Z) (frame : loc) : always R1 (loop_body i t frame).
Proof.
  intros s HP. unfold loop_body. rewrite !bind_getattr, HP.
  unfold logging_info. rewrite bind_modify. split; [exact HP|].
  apply emits_record. exact I.
Qed.

Lemma stopped_body_keeps (i t : Z) (frame : loc) : always R2 (loop_body i t frame).
Proof.
  intros s HP. unfold loop_body. rewrite !bind_getattr, HP.
  unfold logging_info. rewrite bind_modify. split; [exact HP | reflexivity].
Qed.

Ltac stopped_keeps_leaves :=
  first
    [ apply under_interleave;
      [intros ? ? HP; exact HP | intros ? HP; reflexivity
      | apply keeps_interleave; reflexivity]
    | apply under_call; [intros ? ? HP; exact HP | apply keeps_call; reflexivity]
    | apply under_step; [intros HP; exact HP | reflexivity] ].

Ltac stopped_emits_leaves :=
  first
    [ apply under_interleave;
      [intros ? ? HP; exact HP | intros ? HP; reflexivity
      | apply emits_interleave; intros; exact I]
    | under_emits_leaves ].

Lemma stopped_try_emits : always R1 run_try.
Proof. pose proof stopped_body_emits. always_by; stopped_emits_leaves. Qed.

Lemma stopped_try_keeps : always R2 run_try.
Proof. pose proof stopped_body_keeps. always_by; stopped_keeps_leaves. Qed.

Lemma stopped_finally_emits : always R1 run_finally.
Proof. always_by; stopped_emits_leaves. Qed.

Lemma stopped_finally_keeps : always R2 run_finally.
Proof. always_by; stopped_keeps_leaves. Qed.

Lemma stopped_except_emits (e : Exn) : always R1 (run_except e).
Proof. always_by; stopped_emits_leaves. Qed.

Lemma stopped_except_keeps (e : Exn) : always R2 (run_except e).
Proof. always_by; stopped_keeps_leaves. Qed.

(** X11. [run] never clears the stop flag.  On a monitor whose flag is set, be it
    that [stop()] was called before [run()] or during an earlier one, [run]
    processes no frame: no tracking unit is called, nothing is written, drawn
    or encoded, and the time stamp, the frame buffer, the dictionaries and the
    tracking units are what they were. *)
Theorem a_stopped_monitor_processes_no_frame (s : State) :
  _force_stop (self s) = true ->
  _force_stop (self (snd (run s))) = true /\
  _last_time_stamp (self (snd (run s))) = _last_time_stamp (self s) /\
  _frame_buffer (self (snd (run s))) = _frame_buffer (self s) /\
  dicts (snd (run s)) = dicts s /\
  _unit_trackers (self (snd (run s))) = _unit_trackers (self s) /\
  exists d, trace (snd (run s)) = d ++ trace s /\ Forall (avoids frame_work) d.
Proof.
  intros Hs.
  destruct (run_under stopped (emits (avoids frame_work)) s) as [H1 He].
  { exact Hs. } { apply emits_same. reflexivity. }
  { apply stopped_try_emits. } { apply stopped_except_emits. }
  { apply stopped_finally_emits. }
  destruct (run_under stopped (keeps frame_state) s) as [_ Hk].
  { exact Hs. } { reflexivity. }
  { apply stopped_try_keeps. } { apply stopped_except_keeps. }
  { apply stopped_finally_keeps. }
  unfold keeps, frame_state in Hk.
  split; [exact H1|].
  split; [exact (f_equal (fun x => fst (fst (fst x))) Hk)|].
  split; [exact (f_equal (fun x => snd (fst (fst x))) Hk)|].
  split; [exact (f_equal (fun x => snd (fst x)) Hk)|].
  split; [exact (f_equal snd Hk) | exact He].
Qed.

End StoppedRun.

Section Keys.
Context {TrackerClass Interactor Tracker : Type}.
Context `{API : TrackingUnitAPI TrackerClass Interactor Tracker}.
Abbreviation State := (@State Interactor Tracker).
Variable K : list Z.

Lemma always_for_enumerate_Forall {A} {R : State -> State -> Prop} `{!PreOrder R}
    (Q : A -> Prop) (body : nat -> A -> M State unit) (l : list A) :
  (forall j a, Q a -> always R (body j a)) -> Forall Q l ->
  forall j, always R (for_enumerate body j l).
Proof.
  intros Hb Hl. induction Hl as [|a l Ha Hl IH]; intros j; simpl.
  - apply always_ret.
  - apply always_bind; [apply Hb, Ha | intros _; apply IH].
Qed.

Lemma keys_quiet (s s' : State) :
  _last_positions (self s') = _last_positions (self s) -> dicts s' = dicts s ->
  keys_in K s s'.
Proof.
  intros Hp Hd. split; [exact Hp|]. split; [rewrite Hd; reflexivity|].
  intros tbl Ht. exists tbl. unfold table in *. rewrite Hp, Hd. auto.
Qed.

Lemma keys_of_keeps {A} (m : M State A) :
  always (keeps (fun s : State => (_last_positions (self s), dicts s))) m ->
  always (@keys_in Interactor Tracker K) m.
Proof.
  intros H s. specialize (H s). unfold keeps in H.
  apply keys_quiet; [exact (f_equal fst H) | exact (f_equal snd H)].
Qed.

Lemma setitem_keys (k : Z) (v : Position) :
  k ∈ K ->
  always (@keys_in Interactor Tracker K) (let* d := getattr _last_positions in dict_setitem d k v).
Proof.
  intros Hk s. rewrite bind_getattr. unfold dict_setitem, dict_get.
  rewrite bind_bind, bind_gets.
  destruct (dicts s !! _last_positions (self s)) as [tbl|] eqn:Ht.
  2:{ rewrite bind_raise. reflexivity. }
  rewrite bind_ret. simpl. split; [reflexivity|].
  split; [apply length_insert|].
  intros tbl0 Ht0. unfold table in Ht0. rewrite Ht in Ht0. injection Ht0 as <-.
  exists (<[k := v]> tbl). split.
  { unfold table. simpl. apply list_lookup_insert_eq. eapply lookup_lt_Some. exact Ht. }
  intros k'. split.
  - intros Hs. destruct (decide (k' = k)) as [->|Hne].
    + rewrite lookup_insert_eq. eauto.
    + rewrite lookup_insert_ne by congruence. exact Hs.
  - intros Hk'. apply lookup_insert_ne. intros ->. contradiction.
Qed.

Lemma track_one_keys (t : Z) (frame : loc) (j : nat) (u : TrackingUnit Interactor Tracker) :
  idx (roi u) ∈ K -> always (@keys_in Interactor Tracker K) (track_one t frame j u).
Proof.
  intros Hu.
  assert (Hi : always (@keys_in Interactor Tracker K) interleave).
  { apply keys_of_keeps, keeps_interleave; reflexivity. }
  assert (Hc : forall c, always (@keys_in Interactor Tracker K) (call c)).
  { intros c. apply keys_of_keeps, keeps_call. reflexivity. }
  pose proof (fun v => setitem_keys (idx (roi u)) v Hu).
  always_by; apply keys_quiet; reflexivity.
Qed.

Lemma fan_out_identities (t : Z) (frame : loc) :
  always (keeps (identities : State -> _)) (fan_out t frame).
Proof.
  assert (H : always (keeps (assignment : State -> _)) (fan_out t frame)).
  { pose proof call_assignment. keeps_by (assignment : State -> _). }
  intros s. specialize (H s). unfold keeps, identities, assignment in *.
  rewrite !list_fmap_compose. f_equal. exact (f_equal fst H).
Qed.

Lemma fan_out_keys (t : Z) (frame : loc) :
  always (under (units_in K) (@keys_in Interactor Tracker K)) (fan_out t frame).
Proof.
  intros s HP. split.
  - unfold units_in. rewrite (fan_out_identities t frame s). exact HP.
  - unfold fan_out. rewrite bind_getattr.
    apply (always_for_enumerate_Forall (fun u => idx (roi u) ∈ K)).
    + intros j u Hu. apply track_one_keys, Hu.
    + apply Forall_forall. intros u Hin. apply HP.
      unfold identities. apply (list_elem_of_fmap_2 (idx ∘ roi)). exact Hin.
Qed.

Ltac keys_leaves :=
  first
    [ apply under_interleave;
      [intros ? ? HP; exact HP | intros ? HP; exact HP
      | apply keys_of_keeps, keeps_interleave; reflexivity]
    | apply under_call;
      [intros ? ? HP; exact HP | apply keys_of_keeps, keeps_call; reflexivity]
    | apply under_step; [intros HP; exact HP | apply keys_quiet; reflexivity] ].

Lemma run_try_keys : always (under (units_in K) (@keys_in Interactor Tracker K)) run_try.
Proof. pose proof fan_out_keys. always_by; keys_leaves. Qed.

Lemma run_except_keys (e : Exn) : always (under (units_in K) (@keys_in Interactor Tracker K)) (run_except e).
Proof. always_by; keys_leaves. Qed.

Lemma run_finally_keys : always (under (units_in K) (@keys_in Interactor Tracker K)) run_finally.
Proof. always_by; keys_leaves. Qed.

End Keys.

Section KeysOfRun.
Context {TrackerClass Interactor Tracker : Type}.
Context `{API : TrackingUnitAPI TrackerClass Interactor Tracker}.
Abbreviation State := (@State Interactor Tracker).

(** X12. [run] removes no entry from the table of last positions, and the only
    keys under which it stores are the identities of the ROIs of its tracking
    units: every other entry is what it was. *)
Theorem the_table_takes_only_the_units_keys (s : State) (tbl : gmap Z Position) :
  table s = Some tbl ->
  exists tbl', table (snd (run s)) = Some tbl' /\
    forall k, (is_Some (tbl !! k) -> is_Some (tbl' !! k)) /\
              (k ∉ idx ∘ roi <$> _unit_trackers (self s) -> tbl' !! k = tbl !! k).
Proof.
  intros Ht.
  destruct (run_under (units_in (identities s)) (keys_in (identities s)) s)
    as [_ (_ & _ & H)].
  - unfold units_in. reflexivity.
  - apply keys_quiet; reflexivity.
  - apply run_try_keys.
  - apply run_except_keys.
  - apply run_finally_keys.
  - exact (H tbl Ht).
Qed.

End KeysOfRun.

(** ** The display of one frame in [draw_every_n] *)

Section Cadence.
Context {TrackerClass Interactor Tracker : Type}.
Context `{API : TrackingUnitAPI TrackerClass Interactor Tracker}.
Abbreviation State := (@State Interactor Tracker).

Lemma draw_due_spec (i : Z) (s : State) :
  draw_due i s
  = (if _draw_results (self s)
     then if draw_every_n (self s) =? 0
          then Raise (mkExn ZeroDivisionError "integer division or modulo by zero")
          else Ok (i mod draw_every_n (self s) =? 0)
     else Ok false, s).
Proof.
  unfold draw_due. rewrite bind_getattr. destruct (_draw_results (self s)); [|reflexivity].
  rewrite bind_getattr. destruct (draw_every_n (self s) =? 0); reflexivity.
Qed.

Lemma rest_cadence (s s' : State) : rest s' = rest s -> cadence s' = cadence s.
Proof.
  intros H.
  assert (Hs : set__force_stop false (self s') = set__force_stop false (self s))
    by exact (f_equal snd H).
  unfold cadence.
  change (_draw_results (self s')) with (_draw_results (set__force_stop false (self s'))).
  change (draw_every_n (self s')) with (draw_every_n (set__force_stop false (self s'))).
  change (_window_name (self s')) with (_window_name (set__force_stop false (self s'))).
  rewrite Hs. reflexivity.
Qed.



Lemma before_show (t : Z) (frame : loc) :
  always (keeps (cadence : State -> _))
    (open_video frame >> fan_out t frame >> flush_results).
Proof. keeps_tac (cadence : State -> _). Qed.

(** X14. With a window asked for and [draw_every_n] equal to 0, the test of line
    203 divides by zero: the display of any frame raises
    [ZeroDivisionError], and no frame is processed to the end. *)
Theorem draw_every_zero_raises (i t : Z) (frame : loc) (s : State) :
  _draw_results (self s) = true ->
  draw_every_n (self s) = 0 ->
  show i frame s
  = (Raise (mkExn ZeroDivisionError "integer division or modulo by zero"), s) /\
  exists e, fst (process_frame i t frame s) = Raise e.
Proof.
  intros Hd Hn.
  assert (Hshow : forall s0 : State,
             _draw_results (self s0) = true -> draw_every_n (self s0) = 0 ->
             show i frame s0
             = (Raise (mkExn ZeroDivisionError "integer division or modulo by zero"), s0)).
  { intros s0 Hd0 Hn0. unfold show.
    assert (E : draw_due i s0
                = (Raise (mkExn ZeroDivisionError "integer division or modulo by zero"), s0)).
    { rewrite draw_due_spec, Hd0, Hn0. reflexivity. }
    rewrite (bind_eq _ _ _ _ _ E). reflexivity. }
  split; [apply Hshow; assumption|].
  unfold process_frame. rewrite !bind_setattr.
  set (s0 := upd_self _ (upd_self _ s)).
  pose proof (before_show t frame s0) as Hk. unfold keeps in Hk.
  assert (Hassoc : (open_video frame >> fan_out t frame >> flush_results >> show i frame) s0
                   = ((open_video frame >> fan_out t frame >> flush_results)
                      >> show i frame) s0).
  { rewrite !bind_bind. unfold bind. destruct (open_video frame s0) as [[[]|e] s1]; [|reflexivity].
    destruct (fan_out t frame s1) as [[[]|e] s2]; reflexivity. }
  rewrite Hassoc.
  destruct ((open_video frame >> fan_out t frame >> flush_results) s0) as [r1 s1] eqn:E1.
  rewrite (bind_eq _ _ _ _ _ E1). simpl in Hk.
  destruct r1 as [[]|e]; [|eauto].
  rewrite Hshow; [eauto| |].
  - exact (eq_trans (f_equal (fun x => fst (fst x)) Hk) Hd).
  - exact (eq_trans (f_equal (fun x => snd (fst x)) Hk) Hn).
Qed.

End Cadence.

(** ** The video writer *)

Lemma tally_app (p : Item -> bool) (d1 d2 : list Item) :
  tally p (d1 ++ d2) = (tally p d1 + tally p d2)%nat.
Proof. induction d1 as [|it d1 IH]; simpl; [reflexivity | rewrite IH; lia]. Qed.

Lemma tally_none (p : Item -> bool) (d : list Item) :
  Forall (fun it => p it = false) d -> tally p d = 0%nat.
Proof. induction 1 as [|it d Hit _ IH]; simpl; [reflexivity | rewrite Hit, IH; reflexivity]. Qed.

#[global] Instance opens_once_preorder {Interactor Tracker} :
  PreOrder (@opens_once Interactor Tracker).
Proof.
  split.
  - intros s. exists []. split; [reflexivity|]. split; [reflexivity|]. left. auto.
  - intros s1 s2 s3 (d1 & H1 & L1 & O1) (d2 & H2 & L2 & O2).
    exists (d2 ++ d1). split; [rewrite H2, H1; apply app_assoc|].
    rewrite !tally_app. split; [lia|].
    destruct O1 as [[V1 T1]|(V1 & S1 & T1)], O2 as [[V2 T2]|(V2 & S2 & T2)].
    + left. split; [congruence | lia].
    + right. split; [congruence|]. split; [exact S2 | lia].
    + right. split; [exact V1|]. split; [rewrite V2; exact S1 | lia].
    + rewrite V2 in S1. destruct S1 as [? [=]].
Qed.

Section VideoWriter.
Context {TrackerClass Interactor Tracker : Type}.
Context `{API : TrackingUnitAPI TrackerClass Interactor Tracker}.
Abbreviation State := (@State Interactor Tracker).

Lemma opens_quiet (s s' : State) :
  vw s' = vw s -> trace s' = trace s -> opens_once s s'.
Proof. intros Hv Ht. exists []. split; [exact Ht|]. split; [reflexivity|]. left. auto. Qed.

Lemma opens_record (it : Item) (s : State) :
  is_opening it = false -> is_release it = false -> opens_once s (record it s).
Proof.
  intros Ho Hr. exists [it]. split; [reflexivity|]. simpl. rewrite Ho, Hr.
  split; [reflexivity|]. left. auto.
Qed.

Lemma opens_interleave : always (@opens_once Interactor Tracker) interleave.
Proof.
  intros s. unfold interleave. destruct (stop_at _ _); [|reflexivity].
  unfold stop, getattr, gets, bind, setattr, modify, raise.
  destruct (_exception (self s)); simpl.
  - apply opens_record; reflexivity.
  - etransitivity; [|apply opens_record; reflexivity]. apply opens_quiet; reflexivity.
Qed.

Lemma opens_call (c : Call) :
  is_opening (Called c) = false -> is_release (Called c) = false ->
  always (@opens_once Interactor Tracker) (call c).
Proof.
  intros Ho Hr s. unfold call. destruct (fault _ _); simpl; apply opens_record;
    assumption || reflexivity.
Qed.

Lemma opens_ext (c : Call) :
  is_opening (Called c) = false -> is_release (Called c) = false ->
  always (@opens_once Interactor Tracker) (ext c).
Proof.
  intros Ho Hr. apply always_ext; [apply opens_interleave | apply opens_call; assumption].
Qed.

Lemma tally_stops (p : Item -> bool) (pre : list Item) :
  (forall r, p (Client_stop r) = false) ->
  Forall (fun x => exists r, x = Client_stop r) pre -> tally p pre = 0%nat.
Proof.
  intros Hp H. apply tally_none. eapply Forall_impl; [exact H|].
  intros x [r ->]. apply Hp.
Qed.

Lemma opens_open_video (frame : loc) : always (@opens_once Interactor Tracker) (open_video frame).
Proof.
  intros s. unfold open_video. rewrite bind_getattr, bind_gets.
  destruct (_video_out (self s)) as [path|]; [|reflexivity].
  destruct (vw s) eqn:Hw; [reflexivity|].
  unfold cv2_CV_FOURCC.
  pose proof (opens_ext (Fourcc "DIVX") eq_refl eq_refl s) as H1.
  pose proof (keeps_ext (vw : State -> _) (Fourcc "DIVX") (fun _ _ => eq_refl)
                (fun _ => eq_refl) s) as V1. unfold keeps in V1.
  destruct (ext (Fourcc "DIVX") s) as [r1 s1] eqn:E1. simpl in H1, V1.
  rewrite (bind_eq _ _ _ _ _ E1). destruct r1 as [[]|e]; [|exact H1].
  unfold ndarray_get. rewrite bind_bind, bind_gets.
  destruct (arrays s1 !! frame) as [a|]; [|rewrite bind_raise; exact H1].
  rewrite bind_ret. unfold cv2_VideoWriter. rewrite !bind_bind.
  set (c := NewVideoWriter path 50 (snd (shape a), fst (shape a))).
  pose proof (keeps_ext (vw : State -> _) c (fun _ _ => eq_refl) (fun _ => eq_refl) s1) as V2.
  unfold keeps in V2.
  destruct (ext c s1) as [r2 s2] eqn:E2. simpl in V2.
  destruct (ext_inv _ _ _ _ E2) as (_ & pre & Hpre & T2).
  rewrite (bind_eq _ _ _ _ _ E2).
  etransitivity; [exact H1|]. destruct r2 as [[]|e].
  - rewrite bind_ret. unfold modify. simpl.
    exists (Called c :: pre). split; [exact T2|]. simpl.
    rewrite (tally_stops is_release pre), (tally_stops is_opening pre) by auto.
    split; [reflexivity|]. right. rewrite V1, Hw. split; [reflexivity|]. split; [eauto | reflexivity].
  - simpl. exists (Raised c e :: pre). split; [exact T2|]. simpl.
    rewrite (tally_stops is_release pre), (tally_stops is_opening pre) by auto.
    split; [reflexivity|]. left. split; [exact V2 | reflexivity].
Qed.

Ltac opens_leaves :=
  first [ apply opens_call; reflexivity
        | apply opens_quiet; reflexivity
        | apply opens_record; reflexivity ].

Lemma opens_try : always (@opens_once Interactor Tracker) run_try.
Proof. pose proof opens_interleave. pose proof opens_open_video. always_by; opens_leaves. Qed.

Lemma opens_except (e : Exn) : always (@opens_once Interactor Tracker) (run_except e).
Proof. always_by; opens_leaves. Qed.

(** The finally clause makes no video writer, and releases the one that [vw]
    holds, if it holds one. *)
Lemma finally_releases (s : State) :
  exists d, trace (snd (run_finally s)) = d ++ trace s /\
    tally is_opening d = 0%nat /\
    tally is_release d = match vw s with Some _ => 1%nat | None => 0%nat end.
Proof.
  unfold run_finally. rewrite bind_setattr.
  set (s0 := upd_self (set__is_running false) s).
  change (trace s) with (trace s0). change (vw s) with (vw s0). clearbody s0.
  unfold teardown.
  set (windows := try_pass (cv2_waitKey 1 >> cv2_destroyAllWindows >> cv2_waitKey 1)
                  : M State unit).
  assert (Hvk : always (keeps (vw : State -> _)) windows).
  { subst windows. keeps_tac (vw : State -> _). }
  assert (Hek : always (@emits Interactor Tracker
                          (fun it => is_opening it = false /\ is_release it = false)) windows).
  { subst windows.
    assert (Hi : always (@emits Interactor Tracker
                           (fun it => is_opening it = false /\ is_release it = false))
                   interleave) by (apply emits_interleave; auto).
    always_by; apply emits_call; auto. }
  pose proof (try_pass_ok (cv2_waitKey 1 >> cv2_destroyAllWindows >> cv2_waitKey 1) s0) as Ho.
  fold windows in Ho. specialize (Hek s0). specialize (Hvk s0). unfold keeps in Hvk.
  destruct (windows s0) as [r1 s1] eqn:E1. simpl in *. subst r1.
  destruct Hek as (d1 & H1 & F1).
  assert (O1 : tally is_opening d1 = 0%nat).
  { apply tally_none. eapply Forall_impl; [exact F1|]. intros x [? ?]. assumption. }
  assert (L1 : tally is_release d1 = 0%nat).
  { apply tally_none. eapply Forall_impl; [exact F1|]. intros x [? ?]. assumption. }
  rewrite (bind_eq _ _ _ _ _ E1). mstep. rewrite Hvk.
  destruct (vw s0) as [w|].
  - unfold VideoWriter_release.
    destruct (ext ReleaseVideo s1) as [r2 s2] eqn:E2.
    destruct (ext_inv _ _ _ _ E2) as (_ & pre & Hpre & T2).
    rewrite (bind_eq _ _ _ _ _ E2). destruct r2 as [[]|e].
    + unfold logging_info, modify. simpl.
      exists (Logged INFO "Monitor closing" :: Called ReleaseVideo :: pre ++ d1).
      rewrite T2, H1. split; [simpl; rewrite <- app_assoc; reflexivity|].
      simpl. rewrite !tally_app, O1, L1.
      rewrite (tally_stops is_release pre), (tally_stops is_opening pre) by auto.
      split; reflexivity.
    + simpl. exists (Raised ReleaseVideo e :: pre ++ d1).
      rewrite T2, H1. split; [simpl; rewrite <- app_assoc; reflexivity|].
      simpl. rewrite !tally_app, O1, L1.
      rewrite (tally_stops is_release pre), (tally_stops is_opening pre) by auto.
      split; reflexivity.
  - rewrite bind_ret. unfold logging_info, modify. simpl.
    exists (Logged INFO "Monitor closing" :: d1). rewrite H1.
    split; [reflexivity|]. simpl. rewrite O1, L1. split; reflexivity.
Qed.

(** X15. In one [run], at most one video writer is made, and [vw.release()] is
    called once if one was made and not at all otherwise. *)
Theorem the_video_writer_is_released_once (s : State) :
  exists d, trace (snd (run s)) = d ++ trace s /\
    (tally is_opening d <= 1)%nat /\
    tally is_release d = tally is_opening d.
Proof.
  unfold run. rewrite !bind_modify, try_finally_snd.
  set (s0 := set_result_writer None (set_vw None s)).
  assert (H : always (@opens_once Interactor Tracker) (try_except run_try run_except)).
  { apply always_try_except; [apply opens_try | apply opens_except]. }
  destruct (H s0) as (d1 & H1 & L1 & O1).
  destruct (finally_releases (snd (try_except run_try run_except s0))) as (d2 & H2 & O2 & L2).
  exists (d2 ++ d1). split; [rewrite H2, H1; apply app_assoc|].
  rewrite !tally_app, O2, L2, L1.
  destruct O1 as [[V1 T1]|(V1 & S1 & T1)].
  - rewrite V1, T1. simpl. lia.
  - rewrite T1. destruct S1 as [w ->]. lia.
Qed.

End VideoWriter.

(** ** What is written for a frame *)

Section Rows.
Context {TrackerClass Interactor Tracker : Type}.
Context `{API : TrackingUnitAPI TrackerClass Interactor Tracker}.
Abbreviation State := (@State Interactor Tracker).
Abbreviation Unit := (TrackingUnit Interactor Tracker).

(** The call that [ext c] left in the trace when it returned. *)
Lemma ext_head (c : Call) (s s' : State) :
  ext c s = (Ok tt, s') -> core s' = core s /\ head (trace s') = Some (Called c).
Proof.
  intros E. destruct (ext_inv _ _ _ _ E) as (C & pre & _ & T).
  split; [exact C | rewrite T; reflexivity].
Qed.

(** X16. What a tracking unit yields goes to the result writer as it is: when the
    unit returned a data row, the tracking of the unit ends with the writing
    of that row, under the time stamp of the frame and the identity of the
    ROI, whether or not the unit has an absolute position; when it returned
    none, the call of the unit is the last thing done: its position is not
    asked for and nothing is written. *)
Theorem a_row_is_written_for_every_yield (j : nat) (t : Z) (frame : loc) (u : Unit)
    (a : ndarray) (rw : ResultWriter) (s s' : State) :
  _unit_trackers (self s) !! j = Some u ->
  arrays s !! frame = Some a ->
  result_writer s = Some rw ->
  track_one t frame j u s = (Ok tt, s') ->
  head (trace s')
  = Some (Called (match yields u t a with
                  | Some row => WriteRow t (idx (roi u)) row
                  | None => Track j t frame
                  end)).
Proof.
  intros Hu Ha Hw. unfold track_one, TrackingUnit__call__. rewrite !bind_bind.
  destruct (ext (Track j t frame) s) as [r1 s1] eqn:E1.
  rewrite (bind_eq _ _ _ _ _ E1). destruct r1 as [[]|e]; [|discriminate].
  destruct (ext_head _ _ _ E1) as (C1 & T1).
  destruct (core_fields _ _ C1) as (A1 & D1 & W1 & U1 & P1 & _).
  unfold ndarray_get. mstep. rewrite A1, Ha. mstep. rewrite U1, Hu. mstep.
  fold (yields u t a). destruct (yields u t a) as [row|].
  2:{ unfold ret. intros [= <-]. exact T1. }
  unfold TrackingUnit_get_last_position. rewrite !bind_bind.
  set (s1' := upd_self _ s1).
  destruct (ext (GetLastPosition j true) s1') as [r2 s2] eqn:E2.
  rewrite (bind_eq _ _ _ _ _ E2). destruct r2 as [[]|e]; [|discriminate].
  destruct (ext_head _ _ _ E2) as (C2 & _).
  destruct (core_fields _ _ C2) as (_ & _ & W2 & U2 & _ & _).
  mstep. rewrite U2. unfold s1' at 1. simpl.
  rewrite list_lookup_insert_eq by (eapply lookup_lt_Some; exact Hu).
  mstep.
  assert (Hfinal : forall s3 : State, result_writer s3 = Some rw ->
            (let* rw := gets result_writer in
             match rw with
             | Some rw => ResultWriter_write rw t (roi u) row
             | None => ret tt
             end) s3 = (Ok tt, s') ->
            head (trace s') = Some (Called (WriteRow t (idx (roi u)) row))).
  { intros s3 H3. rewrite bind_gets, H3. unfold ResultWriter_write. intros E3.
    apply ext_head in E3. tauto. }
  destruct (tracker_get_last_position _ true) as [p|].
  - unfold dict_setitem, dict_get. mstep.
    destruct (dicts s2 !! _last_positions (self s2)); mstep; [|discriminate].
    apply Hfinal. simpl. rewrite W2. unfold s1'. simpl. congruence.
  - apply Hfinal. rewrite W2. unfold s1'. simpl. congruence.
Qed.

End Rows.

Section VideoFrame.
Context {TrackerClass Interactor Tracker : Type}.
Context `{API : TrackingUnitAPI TrackerClass Interactor Tracker}.
Abbreviation State := (@State Interactor Tracker).

Lemma open_video_opens (frame : loc) (path : string) (s s' : State) :
  _video_out (self s) = Some path ->
  open_video frame s = (Ok tt, s') -> is_Some (vw s').
Proof.
  intros Hv. unfold open_video. rewrite bind_getattr, bind_gets, Hv.
  destruct (vw s) as [w|] eqn:Hw.
  { unfold ret. intros [= <-]. rewrite Hw. eauto. }
  unfold cv2_CV_FOURCC.
  destruct (ext (Fourcc "DIVX") s) as [r1 s1] eqn:E1.
  rewrite (bind_eq _ _ _ _ _ E1). destruct r1 as [[]|e]; [|discriminate].
  unfold ndarray_get. rewrite bind_bind, bind_gets.
  destruct (arrays s1 !! frame) as [a|]; [|rewrite bind_raise; discriminate].
  rewrite bind_ret. unfold cv2_VideoWriter. rewrite !bind_bind.
  destruct (ext (NewVideoWriter path 50 (snd (shape a), fst (shape a))) s1)
    as [r2 s2] eqn:E2.
  rewrite (bind_eq _ _ _ _ _ E2). destruct r2 as [[]|e]; [|discriminate].
  rewrite bind_ret. unfold modify. intros [= <-]. simpl. eauto.
Qed.

Lemma fan_out_vw (t : Z) (frame : loc) :
  always (keeps (vw : State -> _)) (fan_out t frame).
Proof. keeps_tac (vw : State -> _). Qed.

Lemma fan_out_assignment (t : Z) (frame : loc) :
  always (keeps (assignment : State -> _)) (fan_out t frame).
Proof. pose proof call_assignment. keeps_by (assignment : State -> _). Qed.

Lemma flush_results_scene :
  always (keeps (fun s : State => (arrays s, table s, vw s, _unit_trackers (self s))))
    flush_results.
Proof. keeps_tac (fun s : State => (arrays s, table s, vw s, _unit_trackers (self s))). Qed.

Lemma display_scene (i : Z) (tmp : loc) :
  always (keeps (fun s : State => (arrays s, vw s)))
    (let* due := draw_due i in
     when due (let* name := getattr__window_name in
               cv2_imshow name tmp >> cv2_waitKey 1)).
Proof. keeps_tac (fun s : State => (arrays s, vw s)). Qed.

(** X17. With a video output, a frame that is processed to the end ends with the
    writing of its annotated copy to the video, whatever [draw_results] and
    [draw_every_n] are: the copy shows the ROIs of all units and the positions
    as they are after the tracking of this very frame, and the frame of the
    camera is left as it was. *)
Theorem the_video_gets_every_frame_annotated (i t : Z) (frame : loc) (a : ndarray)
    (tbl : gmap Z Position) (path : string) (s s' : State) :
  arrays s !! frame = Some a ->
  table s = Some tbl ->
  _video_out (self s) = Some path ->
  process_frame i t frame s = (Ok tt, s') ->
  exists tmp,
    head (trace s') = Some (Called (WriteVideo tmp)) /\
    arrays s' !! tmp
    = Some (annotate a (roi <$> _unit_trackers (self s))
              (aggregate t a (_unit_trackers (self s)) tbl)) /\
    arrays s' !! frame = Some a.
Proof.
  intros Ha Ht Hv. unfold process_frame. rewrite !bind_setattr.
  set (s0 := upd_self _ (upd_self _ s)).
  (* the video writer *)
  pose proof (open_video_tracked frame s0) as K1. unfold keeps in K1.
  destruct (open_video frame s0) as [r1 s1] eqn:E1. simpl in K1.
  rewrite (bind_eq _ _ _ _ _ E1). destruct r1 as [[]|e]; [|discriminate].
  pose proof (open_video_opens frame path s0 s1 Hv E1) as V1.
  assert (A1 : arrays s1 = arrays s) by exact (f_equal (fun x => fst (fst (fst x))) K1).
  assert (D1 : dicts s1 = dicts s) by exact (f_equal (fun x => snd (fst (fst x))) K1).
  assert (U1 : _unit_trackers (self s1) = _unit_trackers (self s))
    by exact (f_equal (fun x => snd (fst x)) K1).
  assert (P1 : _last_positions (self s1) = _last_positions (self s))
    by exact (f_equal snd K1).
  assert (T1 : table s1 = Some tbl) by (unfold table in *; rewrite P1, D1; exact Ht).
  assert (Ha1 : arrays s1 !! frame = Some a) by (rewrite A1; exact Ha).
  (* the tracking units *)
  pose proof (fan_out_vw t frame s1) as V2. pose proof (fan_out_assignment t frame s1) as G2.
  unfold keeps in V2, G2.
  destruct (fan_out t frame s1) as [r2 s2] eqn:E2. simpl in V2, G2.
  destruct (fan_out_spec _ _ _ _ _ _ _ Ha1 T1 E2) as (A2 & _ & _ & O2).
  rewrite (bind_eq _ _ _ _ _ E2). destruct r2 as [[]|e]; [|discriminate].
  specialize (O2 eq_refl). rewrite U1 in O2.
  (* the result writer *)
  pose proof (flush_results_scene s2) as K3. unfold keeps in K3.
  destruct (flush_results s2) as [r3 s3] eqn:E3. simpl in K3.
  rewrite (bind_eq _ _ _ _ _ E3). destruct r3 as [[]|e]; [|discriminate].
  assert (A3 : arrays s3 = arrays s) by (rewrite <- A1, <- A2; exact (f_equal (fun x => fst (fst (fst x))) K3)).
  assert (T3 : table s3 = Some (aggregate t a (_unit_trackers (self s)) tbl))
    by (rewrite <- O2; exact (f_equal (fun x => snd (fst (fst x))) K3)).
  assert (V3 : is_Some (vw s3)).
  { replace (vw s3) with (vw s1); [exact V1|]. rewrite <- V2.
    symmetry. exact (f_equal (fun x => snd (fst x)) K3). }
  assert (G3 : roi <$> _unit_trackers (self s3) = roi <$> _unit_trackers (self s)).
  { rewrite <- U1. replace (_unit_trackers (self s3)) with (_unit_trackers (self s2)).
    - exact (f_equal fst G2).
    - symmetry. exact (f_equal snd K3). }
  (* the renderer *)
  unfold show. rewrite (bind_eq _ _ _ _ _ (draw_due_spec i s3)).
  destruct (if _draw_results (self s3) then _ else _) as [due|e]; [|discriminate].
  rewrite bind_gets. destruct V3 as [w V3]. rewrite V3.
  replace (due || bool_decide (is_Some (Some w))) with true
    by (destruct due; reflexivity).
  destruct (_draw_on_frame (Some frame) s3) as [r4 s4] eqn:E4.
  destruct (draw_on_frame_spec _ _ _ _ E4) as (R4 & _ & Hok & _).
  rewrite (bind_eq _ _ _ _ _ E4). destruct r4 as [tmp|e]; [|discriminate].
  destruct (Hok tmp eq_refl) as (l & a' & [= <-] & Ha' & -> & Hx).
  rewrite A3 in Ha'. assert (a' = a) as -> by congruence.
  rewrite T3, G3 in Hx. simpl in Hx.
  assert (V4 : vw s4 = Some w).
  { rewrite <- V3. exact (f_equal (fun x => snd (fst (fst (fst x)))) R4). }
  pose proof (display_scene i (length (arrays s3)) s4) as K5. unfold keeps in K5.
  destruct ((let* due := draw_due i in
             when due (let* name := getattr__window_name in
                       cv2_imshow name (length (arrays s3)) >> cv2_waitKey 1)) s4)
    as [r5 s5] eqn:E5.
  simpl in K5. rewrite (bind_eq _ _ _ _ _ E5). destruct r5 as [[]|e]; [|discriminate].
  rewrite bind_gets.
  replace (vw s5) with (Some w) by (rewrite <- V4; symmetry; exact (f_equal snd K5)).
  unfold VideoWriter_write. intros E6. destruct (ext_head _ _ _ E6) as (C6 & T6).
  destruct (core_fields _ _ C6) as (A6 & _).
  assert (A5 : arrays s5 = arrays s4) by exact (f_equal fst K5).
  exists (length (arrays s3)). split; [exact T6|].
  rewrite A6, A5, Hx, A3. split.
  - rewrite lookup_app_r by lia. rewrite Nat.sub_diag. reflexivity.
  - apply lookup_app_l_Some. exact Ha.
Qed.

End VideoFrame.

(** ** A run in quiet surroundings *)

Section QuietRun.
Context {TrackerClass Interactor Tracker : Type}.
Context `{API : TrackingUnitAPI TrackerClass Interactor Tracker}.
Abbreviation State := (@State Interactor Tracker).
Abbreviation Unit := (TrackingUnit Interactor Tracker).

(** A call into a collaborator that nothing disturbs. *)
Lemma ext_quiet (c : Call) (s : State) :
  no_faults s -> undisturbed s -> ext c s = (Ok tt, record (Called c) s).
Proof.
  intros Hf Hu. unfold ext, bind, interleave, call. rewrite Hu. rewrite Hf. reflexivity.
Qed.

Lemma track_one_returns (j : nat) (t : Z) (frame : loc) (u : Unit) (a : ndarray)
    (s : State) :
  no_faults s -> undisturbed s ->
  _unit_trackers (self s) !! j = Some u ->
  arrays s !! frame = Some a ->
  is_Some (table s) ->
  fst (track_one t frame j u s) = Ok tt.
Proof.
  intros Hf Hu Hj Ha [tbl Ht]. unfold track_one, TrackingUnit__call__. rewrite !bind_bind.
  rewrite (bind_eq _ _ _ _ _ (ext_quiet _ s Hf Hu)). cbv beta iota.
  unfold ndarray_get. mstep. change (arrays (record _ s)) with (arrays s). rewrite Ha. mstep.
  change (self (record _ s)) with (self s). rewrite Hj. mstep.
  destruct (snd (tracker_call (tracker u) t a)) as [row|]; [|reflexivity].
  unfold TrackingUnit_get_last_position. rewrite !bind_bind.
  set (s1 := upd_self _ (record _ s)).
  rewrite (bind_eq _ _ _ _ _ (ext_quiet _ s1 Hf Hu)). cbv beta iota. mstep.
  change (self (record _ s1)) with (self s1). unfold s1 at 1. simpl.
  rewrite list_lookup_insert_eq by (eapply lookup_lt_Some; exact Hj). mstep.
  assert (Hfinal : forall s3 : State, env s3 = env s ->
            fst ((let* rw := gets result_writer in
                  match rw with
                  | Some rw => ResultWriter_write rw t (roi u) row
                  | None => ret tt
                  end) s3) = Ok tt).
  { intros s3 He. rewrite bind_gets. destruct (result_writer s3); [|reflexivity].
    unfold ResultWriter_write. rewrite ext_quiet; [reflexivity | |].
    - intros n. rewrite He. apply Hf.
    - intros n. rewrite He. apply Hu. }
  destruct (tracker_get_last_position _ true) as [p|].
  - unfold dict_setitem, dict_get. mstep.
    unfold table in Ht. change (dicts (record _ s1)) with (dicts s).
    change (_last_positions (self (record _ s1))) with (_last_positions (self s)).
    rewrite Ht. mstep. apply Hfinal. reflexivity.
  - apply Hfinal. reflexivity.
Qed.

Lemma track_one_env (t : Z) (frame : loc) (j : nat) (u : Unit) :
  always (keeps (env : State -> _)) (track_one t frame j u).
Proof. keeps_tac (env : State -> _). Qed.

Lemma for_units_returns (t : Z) (frame : loc) (a : ndarray) (us : list Unit) :
  forall (j : nat) (s : State),
  no_faults s -> undisturbed s ->
  (forall k u, us !! k = Some u -> _unit_trackers (self s) !! (j + k)%nat = Some u) ->
  arrays s !! frame = Some a ->
  is_Some (table s) ->
  fst (for_enumerate (track_one t frame) j us s) = Ok tt.
Proof.
  induction us as [|u us IH]; intros j s Hf Hu Hus Ha Ht; simpl; [reflexivity|].
  assert (Hj : _unit_trackers (self s) !! j = Some u).
  { specialize (Hus 0%nat u eq_refl). rewrite Nat.add_0_r in Hus. exact Hus. }
  pose proof (track_one_returns j t frame u a s Hf Hu Hj Ha Ht) as Hr.
  pose proof (track_one_env t frame j u s) as He. unfold keeps in He.
  destruct (track_one t frame j u s) as [r1 s1] eqn:E1. simpl in Hr, He. subst r1.
  rewrite (bind_eq _ _ _ _ _ E1). destruct Ht as [tbl Ht].
  destruct (track_one_spec _ _ _ _ _ _ _ _ _ Hj Ha Ht E1) as (A1 & _ & _ & _ & O1).
  destruct (O1 eq_refl) as [U1 T1].
  apply IH.
  - intros n. rewrite He. apply Hf.
  - intros n. rewrite He. apply Hu.
  - intros k u' Hk. rewrite U1, list_lookup_insert_ne by lia.
    replace (S j + k)%nat with (j + S k)%nat by lia. apply Hus. exact Hk.
  - rewrite A1. exact Ha.
  - rewrite T1. eauto.
Qed.

Lemma fan_out_returns (t : Z) (frame : loc) (a : ndarray) (s : State) :
  no_faults s -> undisturbed s ->
  arrays s !! frame = Some a -> is_Some (table s) ->
  fst (fan_out t frame s) = Ok tt.
Proof.
  intros Hf Hu Ha Ht. unfold fan_out. rewrite bind_getattr.
  apply (for_units_returns t frame a); auto.
Qed.

Lemma open_video_returns (frame : loc) (a : ndarray) (s : State) :
  no_faults s -> undisturbed s -> arrays s !! frame = Some a ->
  fst (open_video frame s) = Ok tt.
Proof.
  intros Hf Hu Ha. unfold open_video. rewrite bind_getattr, bind_gets.
  destruct (_video_out (self s)); [|reflexivity]. destruct (vw s); [reflexivity|].
  unfold cv2_CV_FOURCC. rewrite (bind_eq _ _ _ _ _ (ext_quiet _ s Hf Hu)). cbv beta iota.
  unfold ndarray_get. mstep. change (arrays (record _ s)) with (arrays s). rewrite Ha. mstep.
  unfold cv2_VideoWriter. rewrite bind_bind.
  rewrite (bind_eq _ _ _ _ _ (ext_quiet _ (record _ s) Hf Hu)). reflexivity.
Qed.

Lemma flush_results_returns (s : State) :
  no_faults s -> undisturbed s -> fst (flush_results s) = Ok tt.
Proof.
  intros Hf Hu. unfold flush_results. rewrite bind_gets.
  destruct (result_writer s); [|reflexivity].
  unfold ResultWriter_flush. rewrite ext_quiet by assumption. reflexivity.
Qed.

Lemma show_returns (i : Z) (frame : loc) (a : ndarray) (s : State) :
  no_faults s -> undisturbed s ->
  arrays s !! frame = Some a -> is_Some (table s) -> displayable s ->
  fst (show i frame s) = Ok tt.
Proof.
  intros Hf Hu Ha Ht Hd. unfold show.
  assert (Hdue : forall s0 : State, cadence s0 = cadence s ->
            exists due, draw_due i s0 = (Ok due, s0) /\
                        (due = true -> is_Some (_window_name (self s0)))).
  { intros s0 Hc. rewrite draw_due_spec.
    assert (H1 : _draw_results (self s0) = _draw_results (self s))
      by exact (f_equal (fun x => fst (fst x)) Hc).
    assert (H2 : draw_every_n (self s0) = draw_every_n (self s))
      by exact (f_equal (fun x => snd (fst x)) Hc).
    assert (H3 : _window_name (self s0) = _window_name (self s)) by exact (f_equal snd Hc).
    rewrite H1, H2, H3. destruct (_draw_results (self s)) eqn:Hdr.
    - destruct (Hd Hdr) as [Hw Hn]. apply Z.eqb_neq in Hn. rewrite Hn. eauto.
    - exists false. split; [reflexivity | discriminate]. }
  destruct (Hdue s eq_refl) as (due & E0 & _).
  rewrite (bind_eq _ _ _ _ _ E0). cbv beta iota. rewrite bind_gets.
  destruct (due || bool_decide (is_Some (vw s))); [|reflexivity].
  destruct (_draw_on_frame (Some frame) s) as [r1 s1] eqn:E1.
  destruct (draw_on_frame_spec _ _ _ _ E1) as (R1 & _ & _ & Hret).
  rewrite (Hret frame eq_refl) in E1 by eauto. clear Hret.
  rewrite (bind_eq _ _ _ _ _ E1). cbv beta iota.
  assert (Hf1 : no_faults s1) by (eapply rest_no_faults; eassumption).
  assert (He1 : env s1 = env s) by exact (f_equal (fun x => fst (fst (fst (fst x)))) R1).
  assert (Hu1 : undisturbed s1) by (intros n; rewrite He1; apply Hu).
  destruct (Hdue s1 (rest_cadence _ _ R1)) as (due1 & E2 & Hw1).
  rewrite bind_bind, (bind_eq _ _ _ _ _ E2). cbv beta iota.
  assert (Hshow : exists s2 : State,
            when due1 (let* name := getattr__window_name in
                       cv2_imshow name (length (arrays s)) >> cv2_waitKey 1) s1
            = (Ok tt, s2) /\ env s2 = env s1 /\ vw s2 = vw s1).
  { destruct due1; [|exists s1; auto].
    destruct (Hw1 eq_refl) as [name Hname]. unfold when, getattr__window_name.
    rewrite bind_bind, bind_getattr, Hname, bind_ret.
    unfold cv2_imshow, cv2_waitKey.
    rewrite (bind_eq _ _ _ _ _ (ext_quiet _ s1 Hf1 Hu1)). cbv beta iota.
    rewrite (ext_quiet _ (record _ s1) Hf1 Hu1). eexists. split; [reflexivity|]. auto. }
  destruct Hshow as (s2 & E3 & He2 & Hv2).
  rewrite (bind_eq _ _ _ _ _ E3). cbv beta iota. rewrite bind_gets.
  destruct (vw s2); [|reflexivity].
  unfold VideoWriter_write. rewrite ext_quiet; [reflexivity | |].
  - intros n. rewrite He2. apply Hf1.
  - intros n. rewrite He2. apply Hu1.
Qed.

End QuietRun.

Section Projections.

Lemma omap_silent (d : list Item) :
  Forall silent d -> omap tracking_of d = [] /\ omap acquisition_of d = [].
Proof.
  induction 1 as [|it d [H1 H2] _ [IH1 IH2]]; [auto|].
  split; simpl; [rewrite H1; exact IH1 | rewrite H2; exact IH2].
Qed.

Lemma stops_silent (pre : list Item) :
  Forall (fun x => exists r, x = Client_stop r) pre -> Forall silent pre.
Proof. intros H. eapply Forall_impl; [exact H|]. intros x [r ->]. split; reflexivity. Qed.

Lemma omap_cons_None {A B} (f : A -> option B) (x : A) (l : list A) :
  f x = None -> omap f (x :: l) = omap f l.
Proof. intros H. simpl. rewrite H. reflexivity. Qed.

Lemma omap_cons_Some {A B} (f : A -> option B) (x : A) (y : B) (l : list A) :
  f x = Some y -> omap f (x :: l) = y :: omap f l.
Proof. intros H. simpl. rewrite H. reflexivity. Qed.

Lemma default_last (x0 t : Z) (l : list Z) :
  default x0 (last (t :: l)) = default t (last l).
Proof. rewrite last_cons. destruct (last l); reflexivity. Qed.

End Projections.

Section QuietLoop.
Context {TrackerClass Interactor Tracker : Type}.
Context `{API : TrackingUnitAPI TrackerClass Interactor Tracker}.
Abbreviation State := (@State Interactor Tracker).
Abbreviation Unit := (TrackingUnit Interactor Tracker).

Lemma silent_interleave : always (@emits Interactor Tracker silent) interleave.
Proof. apply emits_interleave. intros r. split; reflexivity. Qed.

Lemma silent_call (c : Call) :
  silent (Called c) -> always (@emits Interactor Tracker silent) (call c).
Proof. intros Hc. apply emits_call; [exact Hc | intros e; split; reflexivity]. Qed.

Ltac silent_leaves :=
  first [ apply silent_call; split; reflexivity
        | apply emits_same; reflexivity
        | apply emits_record; split; reflexivity ].

Lemma call_unit_trace (j : nat) (t : Z) (frame : loc) (s : State) row (s1 : State) :
  TrackingUnit__call__ j t frame s = (Ok row, s1) ->
  exists pre, Forall silent pre /\ trace s1 = Called (Track j t frame) :: pre ++ trace s.
Proof.
  unfold TrackingUnit__call__.
  destruct (ext (Track j t frame) s) as [r0 s0] eqn:E0.
  destruct (ext_inv _ _ _ _ E0) as (_ & pre & Hpre & T0).
  rewrite (bind_eq _ _ _ _ _ E0). destruct r0 as [[]|e]; [|discriminate].
  unfold ndarray_get. mstep. destruct (arrays s0 !! frame); mstep; [|discriminate].
  destruct (_unit_trackers (self s0) !! j); mstep; [|discriminate].
  intros [= _ <-]. exists pre. split; [apply stops_silent, Hpre | exact T0].
Qed.

Lemma track_one_trackings (j : nat) (t : Z) (frame : loc) (u : Unit) (s s' : State) :
  track_one t frame j u s = (Ok tt, s') ->
  exists d, trace s' = d ++ trace s /\
            omap tracking_of d = [(j, t)] /\ omap acquisition_of d = [].
Proof.
  unfold track_one.
  lazymatch goal with
  | |- bind _ ?k s = _ -> _ =>
      assert (Hk : forall row, always (@emits Interactor Tracker silent) (k row))
  end.
  { pose proof silent_interleave. intros row. always_by; silent_leaves. }
  destruct (TrackingUnit__call__ j t frame s) as [r1 s1] eqn:E1.
  rewrite (bind_eq _ _ _ _ _ E1). destruct r1 as [row|e]; [|discriminate].
  destruct (call_unit_trace _ _ _ _ _ _ E1) as (pre & Hpre & T1).
  intros E2. destruct (Hk row s1) as (d2 & T2 & F2). rewrite E2 in T2. simpl in T2.
  exists (d2 ++ Called (Track j t frame) :: pre).
  split; [rewrite T2, T1, <- app_assoc; reflexivity|].
  destruct (omap_silent _ F2) as [A2 B2]. destruct (omap_silent _ Hpre) as [A1 B1].
  rewrite !omap_app, A2, B2.
  rewrite (omap_cons_Some tracking_of _ (j, t)) by reflexivity.
  rewrite (omap_cons_None acquisition_of) by reflexivity.
  rewrite A1, B1. auto.
Qed.

Lemma for_units_trackings (t : Z) (frame : loc) (us : list Unit) :
  forall (j : nat) (s s' : State),
  for_enumerate (track_one t frame) j us s = (Ok tt, s') ->
  exists d, trace s' = d ++ trace s /\
            omap tracking_of d = rev ((fun k => (k, t)) <$> seq j (length us)) /\
            omap acquisition_of d = [].
Proof.
  induction us as [|u us IH]; intros j s s'; simpl.
  - unfold ret. intros [= <-]. exists []. auto.
  - destruct (track_one t frame j u s) as [r1 s1] eqn:E1.
    rewrite (bind_eq _ _ _ _ _ E1). destruct r1 as [[]|e]; [|discriminate].
    destruct (track_one_trackings _ _ _ _ _ _ E1) as (d1 & T1 & A1 & B1).
    intros E2. destruct (IH _ _ _ E2) as (d2 & T2 & A2 & B2).
    exists (d2 ++ d1). split; [rewrite T2, T1; apply app_assoc|].
    rewrite !omap_app, A1, A2, B1, B2. auto.
Qed.

Lemma open_video_silent (frame : loc) :
  always (@emits Interactor Tracker silent) (open_video frame).
Proof. pose proof silent_interleave. always_by; silent_leaves. Qed.

Lemma flush_results_silent : always (@emits Interactor Tracker silent) flush_results.
Proof. pose proof silent_interleave. always_by; silent_leaves. Qed.

Lemma show_silent (i : Z) (frame : loc) :
  always (@emits Interactor Tracker silent) (show i frame).
Proof. pose proof silent_interleave. always_by; silent_leaves. Qed.

Lemma run_setup_silent : always (@emits Interactor Tracker silent) run_setup.
Proof. pose proof silent_interleave. always_by; silent_leaves. Qed.

Lemma run_finally_silent : always (@emits Interactor Tracker silent) run_finally.
Proof. pose proof silent_interleave. always_by; silent_leaves. Qed.

(** A frame processed to the end: every unit was called on it once, in the
    order of the list. *)
Lemma process_frame_trackings (i t : Z) (frame : loc) (s s' : State) :
  process_frame i t frame s = (Ok tt, s') ->
  exists d, trace s' = d ++ trace s /\
            omap tracking_of d = rev (round (length (_unit_trackers (self s))) t) /\
            omap acquisition_of d = [].
Proof.
  unfold process_frame. rewrite !bind_setattr.
  set (s0 := upd_self _ (upd_self _ s)).
  change (trace s) with (trace s0).
  change (_unit_trackers (self s)) with (_unit_trackers (self s0)). clearbody s0.
  pose proof (open_video_silent frame s0) as (d1 & T1 & F1).
  pose proof (open_video_tracked frame s0) as K1. unfold keeps in K1.
  destruct (open_video frame s0) as [r1 s1] eqn:E1. simpl in T1, K1.
  rewrite (bind_eq _ _ _ _ _ E1). destruct r1 as [[]|e]; [|discriminate].
  assert (U1 : _unit_trackers (self s1) = _unit_trackers (self s0))
    by exact (f_equal (fun x => snd (fst x)) K1).
  destruct (fan_out t frame s1) as [r2 s2] eqn:E2.
  rewrite (bind_eq _ _ _ _ _ E2). destruct r2 as [[]|e]; [|discriminate].
  unfold fan_out in E2. rewrite bind_getattr in E2.
  destruct (for_units_trackings _ _ _ _ _ _ E2) as (d2 & T2 & A2 & B2).
  pose proof (flush_results_silent s2) as (d3 & T3 & F3).
  destruct (flush_results s2) as [r3 s3] eqn:E3. simpl in T3.
  rewrite (bind_eq _ _ _ _ _ E3). destruct r3 as [[]|e]; [|discriminate].
  intros E4. pose proof (show_silent i frame s3) as (d4 & T4 & F4).
  rewrite E4 in T4. simpl in T4.
  exists (d4 ++ d3 ++ d2 ++ d1).
  split; [rewrite T4, T3, T2, T1, <- !app_assoc; reflexivity|].
  destruct (omap_silent _ F1) as [A1 B1]. destruct (omap_silent _ F3) as [A3 B3].
  destruct (omap_silent _ F4) as [A4 B4].
  rewrite !omap_app, A1, A2, A3, A4, B1, B2, B3, B4, U1. simpl. rewrite app_nil_r. auto.
Qed.

Lemma process_frame_essentials (i t : Z) (frame : loc) :
  always (keeps (essentials : State -> _)) (process_frame i t frame).
Proof. keeps_tac (essentials : State -> _). Qed.

Lemma process_frame_assignment (i t : Z) (frame : loc) :
  always (keeps (assignment : State -> _)) (process_frame i t frame).
Proof. pose proof call_assignment. keeps_by (assignment : State -> _). Qed.

(** Where nobody calls [stop()], the stop flag is left as it is. *)
Lemma undisturbed_interleave (s : State) : undisturbed s -> interleave s = (Ok tt, s).
Proof. intros H. unfold interleave. rewrite H. reflexivity. Qed.

Lemma process_frame_flag (i t : Z) (frame : loc) :
  always (under undisturbed (keeps (fun s : State => _force_stop (self s))))
    (process_frame i t frame).
Proof.
  assert (Hi : always (under undisturbed (keeps (fun s : State => _force_stop (self s))))
                 interleave).
  { intros s H. rewrite undisturbed_interleave by exact H. split; [exact H | reflexivity]. }
  always_by;
    first [ apply under_call; [intros ? ? HP; exact HP | apply keeps_call; reflexivity]
          | apply under_step; [intros HP; exact HP | reflexivity] ].
Qed.

Lemma process_frame_returns (i t : Z) (frame : loc) (a : ndarray) (s : State) :
  no_faults s -> undisturbed s ->
  arrays s !! frame = Some a -> is_Some (table s) -> displayable s ->
  fst (process_frame i t frame s) = Ok tt.
Proof.
  intros Hf Hu Ha [tbl Ht] Hd. unfold process_frame. rewrite !bind_setattr.
  set (s0 := upd_self _ (upd_self _ s)).
  assert (Hf0 : no_faults s0) by exact Hf. assert (Hu0 : undisturbed s0) by exact Hu.
  assert (Ha0 : arrays s0 !! frame = Some a) by exact Ha.
  assert (Ht0 : table s0 = Some tbl) by exact Ht.
  assert (Hd0 : displayable s0) by exact Hd. clearbody s0.
  assert (Hobs : forall (m : M State unit),
            always (keeps (fun s : State => (env s, cadence s))) m ->
            forall s1 : State, no_faults s1 -> undisturbed s1 -> displayable s1 ->
              no_faults (snd (m s1)) /\ undisturbed (snd (m s1)) /\ displayable (snd (m s1))).
  { intros m Hm s1 Hf1 Hu1 Hd1. specialize (Hm s1). unfold keeps in Hm.
    assert (He : env (snd (m s1)) = env s1) by exact (f_equal fst Hm).
    assert (Hc : cadence (snd (m s1)) = cadence s1) by exact (f_equal snd Hm).
    split; [intros n; rewrite He; apply Hf1|]. split; [intros n; rewrite He; apply Hu1|].
    unfold displayable.
    replace (_draw_results (self (snd (m s1)))) with (_draw_results (self s1))
      by (symmetry; exact (f_equal (fun x => fst (fst x)) Hc)).
    replace (draw_every_n (self (snd (m s1)))) with (draw_every_n (self s1))
      by (symmetry; exact (f_equal (fun x => snd (fst x)) Hc)).
    replace (_window_name (self (snd (m s1)))) with (_window_name (self s1))
      by (symmetry; exact (f_equal snd Hc)).
    exact Hd1. }
  (* the video writer *)
  pose proof (open_video_returns frame a s0 Hf0 Hu0 Ha0) as R1.
  destruct (Hobs (open_video frame)) with (s1 := s0) as (Hf1 & Hu1 & Hd1); auto.
  { keeps_tac (fun s : State => (env s, cadence s)). }
  pose proof (open_video_tracked frame s0) as K1. unfold keeps in K1.
  destruct (open_video frame s0) as [r1 s1] eqn:E1. simpl in *. subst r1.
  rewrite (bind_eq _ _ _ _ _ E1). cbv beta iota.
  assert (A1 : arrays s1 = arrays s0) by exact (f_equal (fun x => fst (fst (fst x))) K1).
  assert (D1 : dicts s1 = dicts s0) by exact (f_equal (fun x => snd (fst (fst x))) K1).
  assert (P1 : _last_positions (self s1) = _last_positions (self s0))
    by exact (f_equal snd K1).
  assert (T1 : table s1 = Some tbl) by (unfold table in *; rewrite P1, D1; exact Ht0).
  assert (Ha1 : arrays s1 !! frame = Some a) by (rewrite A1; exact Ha0).
  (* the tracking units *)
  pose proof (fan_out_returns t frame a s1 Hf1 Hu1 Ha1 (ex_intro _ _ T1)) as R2.
  destruct (Hobs (fan_out t frame)) with (s1 := s1) as (Hf2 & Hu2 & Hd2); auto.
  { keeps_tac (fun s : State => (env s, cadence s)). }
  destruct (fan_out t frame s1) as [r2 s2] eqn:E2. simpl in *. subst r2.
  destruct (fan_out_spec _ _ _ _ _ _ _ Ha1 T1 E2) as (A2 & _ & _ & O2).
  rewrite (bind_eq _ _ _ _ _ E2). cbv beta iota. specialize (O2 eq_refl).
  (* the result writer *)
  pose proof (flush_results_returns s2 Hf2 Hu2) as R3.
  destruct (Hobs flush_results) with (s1 := s2) as (Hf3 & Hu3 & Hd3); auto.
  { keeps_tac (fun s : State => (env s, cadence s)). }
  pose proof (flush_results_scene s2) as K3. unfold keeps in K3.
  destruct (flush_results s2) as [r3 s3] eqn:E3. simpl in *. subst r3.
  rewrite (bind_eq _ _ _ _ _ E3). cbv beta iota.
  apply (show_returns i frame a); auto.
  - replace (arrays s3) with (arrays s2)
      by (symmetry; exact (f_equal (fun x => fst (fst (fst x))) K3)).
    rewrite A2. exact Ha1.
  - replace (table s3) with (table s2)
      by (symmetry; exact (f_equal (fun x => snd (fst (fst x))) K3)).
    rewrite O2. eauto.
Qed.

End QuietLoop.

Section QuietWhole.
Context {TrackerClass Interactor Tracker : Type}.
Context `{API : TrackingUnitAPI TrackerClass Interactor Tracker}.
Abbreviation State := (@State Interactor Tracker).
Abbreviation Unit := (TrackingUnit Interactor Tracker).

Lemma omap_rev {A B} (f : A -> option B) (l : list A) : omap f (rev l) = rev (omap f l).
Proof.
  induction l as [|x l IH]; [reflexivity|].
  change (rev (x :: l)) with (rev l ++ [x]). rewrite omap_app, IH.
  destruct (f x) as [y|] eqn:E.
  - rewrite !(omap_cons_Some f x y) by exact E. reflexivity.
  - rewrite !(omap_cons_None f x) by exact E. apply app_nil_r.
Qed.

Lemma essentials_fields (s s' : State) :
  essentials s' = essentials s ->
  env s' = env s /\ stored s' = stored s /\ cadence s' = cadence s /\
  _max_duration (self s') = _max_duration (self s) /\
  _camera (self s') = _camera (self s).
Proof.
  unfold essentials, configuration, cadence. intros H. inversion H.
  repeat split; congruence.
Qed.

Lemma quiet_step (s s' : State) :
  env s' = env s -> cadence s' = cadence s ->
  no_faults s -> undisturbed s -> displayable s ->
  no_faults s' /\ undisturbed s' /\ displayable s'.
Proof.
  intros He Hc Hf Hu Hd. unfold cadence in Hc. inversion Hc as [[H1 H2 H3]].
  split; [intros n; rewrite He; apply Hf|]. split; [intros n; rewrite He; apply Hu|].
  unfold displayable. rewrite H1, H2, H3. exact Hd.
Qed.

Lemma camera_yield_quiet (t : Z) (a : ndarray) (s : State) :
  no_faults s -> undisturbed s ->
  camera_yield t a s
  = (Ok (length (arrays s)),
     set_arrays (arrays s ++ [a])
       (record (Called (CameraNext (Some (t, length (arrays s))))) s)).
Proof.
  intros Hf Hu. unfold camera_yield. rewrite bind_gets.
  rewrite (bind_eq _ _ _ _ _ (ext_quiet _ s Hf Hu)). reflexivity.
Qed.

(** The loop in quiet surroundings, with the stop flag down. *)
Lemma loop_quiet (md : option Z) (n : nat) (items : Camera) :
  forall (i : Z) (s : State),
  no_faults s -> undisturbed s -> displayable s ->
  _force_stop (self s) = false -> is_Some (table s) ->
  _max_duration (self s) = md -> length (_unit_trackers (self s)) = n ->
  exists s' : State,
    for_camera loop_body i items s = (Ok tt, s') /\
    essentials s' = essentials s /\
    _last_time_stamp (self s')
    = default (_last_time_stamp (self s)) (last (fst <$> in_duration md items)) /\
    exists d, trace s' = d ++ trace s /\
      omap tracking_of d = rev (in_duration md items ≫= (fun x => round n (fst x))) /\
      omap acquisition_of d
      = rev (fst <$> take (S (length (in_duration md items))) items).
Proof.
  induction items as [|[t a] rest IH]; intros i s Hf Hu Hd Hfs Ht Hm Hn.
  - simpl. rewrite (ext_quiet _ s Hf Hu). eexists. split; [reflexivity|].
    split; [reflexivity|]. split; [reflexivity|].
    exists [Called (CameraNext None)]. auto.
  - cbn [for_camera]. rewrite (bind_eq _ _ _ _ _ (camera_yield_quiet t a s Hf Hu)).
    cbv beta iota.
    set (frame := length (arrays s)).
    set (s1 := set_arrays _ (record _ s)).
    assert (Ha1 : arrays s1 !! frame = Some a).
    { unfold s1, frame. simpl. rewrite lookup_app_r by lia.
      rewrite Nat.sub_diag. reflexivity. }
    assert (T1 : trace s1 = Called (CameraNext (Some (t, frame))) :: trace s) by reflexivity.
    assert (E1 : essentials s1 = essentials s) by reflexivity.
    assert (Hf1 : no_faults s1) by exact Hf. assert (Hu1 : undisturbed s1) by exact Hu.
    assert (Hd1 : displayable s1) by exact Hd.
    assert (Hfs1 : _force_stop (self s1) = false) by exact Hfs.
    assert (Ht1 : is_Some (table s1)) by exact Ht.
    assert (Hm1 : _max_duration (self s1) = md) by exact Hm.
    assert (Hn1 : length (_unit_trackers (self s1)) = n) by exact Hn.
    assert (Hts1 : _last_time_stamp (self s1) = _last_time_stamp (self s)) by reflexivity.
    clearbody s1 frame.
    unfold loop_body. rewrite bind_bind, bind_getattr. cbv beta.
    rewrite bind_bind, bind_getattr. cbv beta. rewrite Hfs1, Hm1.
    simpl in_duration.
    destruct (match md with Some d => bool_decide (t > d) | None => false end).
    + unfold logging_info. rewrite bind_bind, bind_modify, bind_ret. unfold ret.
      eexists. split; [reflexivity|]. split; [exact E1|]. split; [exact Hts1|].
      exists [Logged INFO timeout_msg; Called (CameraNext (Some (t, frame)))].
      split; [simpl; rewrite T1; reflexivity|]. split; reflexivity.
    + pose proof (process_frame_returns i t frame a s1 Hf1 Hu1 Ha1 Ht1 Hd1) as R2.
      pose proof (process_frame_essentials i t frame s1) as E2.
      pose proof (process_frame_assignment i t frame s1) as G2.
      pose proof (process_frame_flag i t frame s1 Hu1) as [_ F2].
      destruct (process_frame_in_progress i t frame s1) as [P2 _].
      unfold keeps in E2, G2, F2.
      destruct (process_frame i t frame s1) as [r2 s2] eqn:X2.
      simpl in R2, E2, G2, F2, P2. subst r2.
      destruct (process_frame_trackings _ _ _ _ _ X2) as (d2 & T2 & A2 & B2).
      destruct Ht1 as [tbl Ht1].
      pose proof (process_frame_table _ _ _ _ _ _ _ Ha1 Ht1 X2) as Tb2.
      destruct (essentials_fields _ _ E2) as (He2 & _ & Hc2 & Hm2 & _).
      destruct (quiet_step _ _ He2 Hc2 Hf1 Hu1 Hd1) as (Hf2 & Hu2 & Hd2).
      rewrite bind_bind, (bind_eq _ _ _ _ _ X2). cbv beta iota. rewrite bind_ret.
      assert (Hfs2 : _force_stop (self s2) = false) by congruence.
      assert (Ht2 : is_Some (table s2)) by (rewrite Tb2; eauto).
      assert (Hmd2 : _max_duration (self s2) = md) by congruence.
      assert (Hn2 : length (_unit_trackers (self s2)) = n).
      { rewrite <- Hn1, <- (length_fmap roi), <- (length_fmap roi (_unit_trackers (self s1))).
        f_equal. exact (f_equal fst G2). }
      destruct (IH (i + 1) s2 Hf2 Hu2 Hd2 Hfs2 Ht2 Hmd2 Hn2)
        as (s' & X3 & E3 & Ts3 & d3 & T3 & A3 & B3).
      exists s'. split; [exact X3|]. split; [congruence|]. split.
      { rewrite Ts3. rewrite fmap_cons. simpl fst. rewrite default_last.
        f_equal. exact (f_equal fst P2). }
      exists (d3 ++ d2 ++ [Called (CameraNext (Some (t, frame)))]).
      split; [rewrite T3, T2, T1, <- !app_assoc; reflexivity|].
      rewrite !omap_app, A3, B3, A2, B2, Hn1.
      rewrite (omap_cons_None tracking_of) by reflexivity.
      rewrite (omap_cons_Some acquisition_of _ t) by reflexivity.
      split.
      * rewrite bind_cons, rev_app_distr. simpl. rewrite app_nil_r. reflexivity.
      * simpl. reflexivity.
Qed.

Lemma run_setup_returns (s : State) :
  no_faults s -> undisturbed s -> displayable s -> fst (run_setup s) = Ok tt.
Proof.
  intros Hf Hu Hd. unfold run_setup.
  assert (E1 : exists s1 : State,
            (let* dr := getattr _draw_results in
             when dr (let* name := getattr__window_name in
                      cv2_namedWindow name CV_WINDOW_AUTOSIZE)) s = (Ok tt, s1) /\
            env s1 = env s /\ self s1 = self s).
  { rewrite bind_getattr. destruct (_draw_results (self s)) eqn:Hdr; [|exists s; auto].
    destruct (Hd Hdr) as [[name Hname] _]. unfold when, getattr__window_name.
    rewrite bind_bind, bind_getattr, Hname, bind_ret. unfold cv2_namedWindow.
    rewrite (ext_quiet _ s Hf Hu). eexists. split; [reflexivity|]. auto. }
  destruct E1 as (s1 & E1 & He1 & Hs1). rewrite (bind_eq _ _ _ _ _ E1). cbv beta iota.
  rewrite bind_getattr. destruct (_result_file (self s1)); [|reflexivity].
  rewrite bind_getattr. unfold ResultWriter__init__. rewrite !bind_bind.
  rewrite (bind_eq _ _ _ _ _ (ext_quiet _ s1 ltac:(intros n; rewrite He1; apply Hf)
                                ltac:(intros n; rewrite He1; apply Hu))).
  reflexivity.
Qed.

Lemma run_finally_returns (s : State) :
  no_faults s -> undisturbed s -> fst (run_finally s) = Ok tt.
Proof.
  intros Hf Hu. unfold run_finally. rewrite bind_setattr.
  set (s0 := upd_self _ s).
  assert (Hf0 : no_faults s0) by exact Hf. assert (Hu0 : undisturbed s0) by exact Hu.
  clearbody s0. unfold teardown.
  pose proof (try_pass_ok (cv2_waitKey 1 >> cv2_destroyAllWindows >> cv2_waitKey 1) s0) as Ho.
  assert (Hk : always (keeps (env : State -> _))
                 (try_pass (cv2_waitKey 1 >> cv2_destroyAllWindows >> cv2_waitKey 1)))
    by (keeps_tac (env : State -> _)).
  specialize (Hk s0). unfold keeps in Hk.
  destruct (try_pass _ s0) as [r1 s1] eqn:E1. simpl in Ho, Hk. subst r1.
  rewrite (bind_eq _ _ _ _ _ E1). cbv beta iota. rewrite bind_bind, bind_gets.
  destruct (vw s1); [|reflexivity].
  unfold VideoWriter_release.
  rewrite (bind_eq _ _ _ _ _ (ext_quiet _ s1 ltac:(intros n; rewrite Hk; apply Hf0)
                                ltac:(intros n; rewrite Hk; apply Hu0))).
  reflexivity.
Qed.

Lemma run_setup_scene :
  always (keeps (fun s : State =>
                   (essentials s, table s, _unit_trackers (self s),
                    _last_time_stamp (self s))))
    run_setup.
Proof.
  keeps_tac (fun s : State =>
               (essentials s, table s, _unit_trackers (self s), _last_time_stamp (self s))).
Qed.

Lemma run_finally_scene :
  always (keeps (fun s : State => (essentials s, _last_time_stamp (self s)))) run_finally.
Proof. keeps_tac (fun s : State => (essentials s, _last_time_stamp (self s))). Qed.

Lemma run_setup_flag :
  always (under undisturbed (keeps (fun s : State => _force_stop (self s)))) run_setup.
Proof.
  assert (Hi : always (under undisturbed (keeps (fun s : State => _force_stop (self s))))
                 interleave).
  { intros s H. rewrite undisturbed_interleave by exact H. split; [exact H | reflexivity]. }
  always_by;
    first [ apply under_call; [intros ? ? HP; exact HP | apply keeps_call; reflexivity]
          | apply under_step; [intros HP; exact HP | reflexivity] ].
Qed.

(** X18. In quiet surroundings (no collaborator raises, nobody calls [stop()]),
    with the stop flag down: [run] returns and stores no error; the frames it
    acquires are those of the camera up to and including the first one stamped
    later than the duration, in order; every frame before that one is handed
    to every tracking unit once, frame by frame in the order of the camera and,
    for one frame, unit by unit in the order of the list; no other frame is
    tracked; and the last time stamp is that of the last frame tracked. *)
Theorem a_quiet_run_tracks_every_frame_in_time (s : State) :
  no_faults s -> undisturbed s -> displayable s ->
  _force_stop (self s) = false -> is_Some (table s) ->
  let done := in_duration (_max_duration (self s)) (_camera (self s)) in
  fst (run s) = Ok tt /\
  stored (snd (run s)) = stored s /\
  _last_time_stamp (self (snd (run s)))
  = default (_last_time_stamp (self s)) (last (fst <$> done)) /\
  exists d, trace (snd (run s)) = d ++ trace s /\
    omap tracking_of (rev d)
    = done ≫= (fun x => round (length (_unit_trackers (self s))) (fst x)) /\
    omap acquisition_of (rev d) = fst <$> take (S (length done)) (_camera (self s)).
Proof.
  intros Hf Hu Hd Hfs Ht done.
  unfold run. rewrite !bind_modify.
  set (s0 := set_result_writer None (set_vw None s)).
  assert (Hf0 : no_faults s0) by exact Hf. assert (Hu0 : undisturbed s0) by exact Hu.
  assert (Hd0 : displayable s0) by exact Hd.
  (* what precedes the loop *)
  pose proof (run_setup_returns s0 Hf0 Hu0 Hd0) as R1.
  pose proof (run_setup_scene s0) as K1. unfold keeps in K1.
  pose proof (run_setup_flag s0 Hu0) as [_ F1]. unfold keeps in F1.
  pose proof (run_setup_silent s0) as (d1 & T1 & S1).
  destruct (run_setup s0) as [r1 s1] eqn:X1. simpl in R1, K1, F1, T1. subst r1.
  assert (E1 : essentials s1 = essentials s)
    by exact (f_equal (fun x => fst (fst (fst x))) K1).
  assert (Tb1 : table s1 = table s) by exact (f_equal (fun x => snd (fst (fst x))) K1).
  assert (U1 : _unit_trackers (self s1) = _unit_trackers (self s))
    by exact (f_equal (fun x => snd (fst x)) K1).
  assert (Ts1 : _last_time_stamp (self s1) = _last_time_stamp (self s))
    by exact (f_equal snd K1).
  destruct (essentials_fields _ _ E1) as (He1 & Hst1 & Hc1 & Hm1 & Hcam1).
  destruct (quiet_step _ _ He1 Hc1 Hf Hu Hd) as (Hf1 & Hu1 & Hd1).
  (* the loop *)
  set (s1' := upd_self (set__is_running true) s1).
  destruct (loop_quiet (_max_duration (self s)) (length (_unit_trackers (self s)))
              (_camera (self s)) 0 s1')
    as (s2 & X2 & E2 & Ts2 & d2 & T2 & A2 & B2).
  { exact Hf1. } { exact Hu1. } { exact Hd1. }
  { unfold s1'. simpl. rewrite F1. exact Hfs. }
  { unfold s1'. change (is_Some (table s1)). rewrite Tb1. exact Ht. }
  { exact Hm1. } { unfold s1'. simpl. rewrite U1. reflexivity. }
  assert (Xtry : run_try s0 = (Ok tt, s2)).
  { unfold run_try. rewrite (bind_eq _ _ _ _ _ X1). cbv beta iota. rewrite bind_setattr.
    unfold run_loop. rewrite bind_getattr. fold s1'.
    change (_camera (self s1')) with (_camera (self s1)). rewrite Hcam1. exact X2. }
  (* the finally clause *)
  assert (E2' : essentials s2 = essentials s) by (rewrite E2; exact E1).
  destruct (essentials_fields _ _ E2') as (He2 & Hst2 & _).
  pose proof (run_finally_returns s2 ltac:(intros n; rewrite He2; apply Hf)
                ltac:(intros n; rewrite He2; apply Hu)) as R3.
  pose proof (run_finally_scene s2) as K3. unfold keeps in K3.
  pose proof (run_finally_silent s2) as (d3 & T3 & S3).
  unfold try_finally, try_except. rewrite Xtry.
  destruct (run_finally s2) as [r3 s3] eqn:X3. simpl in R3, K3, T3. subst r3. simpl.
  destruct (essentials_fields _ _ (f_equal fst K3)) as (_ & Hst3 & _).
  split; [reflexivity|]. split; [congruence|]. split.
  { rewrite (f_equal snd K3 : _last_time_stamp (self s3) = _last_time_stamp (self s2)).
    rewrite Ts2. unfold s1'. simpl. rewrite Ts1. reflexivity. }
  exists (d3 ++ d2 ++ d1). split.
  { rewrite T3, T2. unfold s1'. simpl. rewrite T1, <- !app_assoc. reflexivity. }
  destruct (omap_silent _ S1) as [A1 B1]. destruct (omap_silent _ S3) as [A3 B3].
  rewrite !omap_rev, !omap_app, A1, A2, A3, B1, B2, B3. simpl.
  rewrite !app_nil_r, !rev_involutive. split; reflexivity.
Qed.


End QuietWhole.

(** ** Construction, step by step *)

Section NewMonitor.
Context {TrackerClass Interactor Tracker : Type}.
Context `{API : TrackingUnitAPI TrackerClass Interactor Tracker}.
Abbreviation State := (@State Interactor Tracker).
Abbreviation Unit := (TrackingUnit Interactor Tracker).

Lemma call_ok (c : Call) (s s' : State) :
  call c s = (Ok tt, s') -> s' = record (Called c) s.
Proof. unfold call. destruct (fault _ _); intros [= <-]. reflexivity. Qed.

Lemma comprehension_ok {A} (f : A -> ROI) (g : A -> option Interactor)
    (tracker_class : TrackerClass) (l : list A) :
  forall (s : State) us (s' : State),
  comprehension (fun a => TrackingUnit__init__ tracker_class (f a) (g a)) l s = (Ok us, s') ->
  us = (fun a => mkTrackingUnit (f a) (g a) (tracker_new tracker_class (f a) (g a))) <$> l /\
  s' = logged (rev ((fun a => Called (NewTrackingUnit (idx (f a))
                                        (bool_decide (is_Some (g a))))) <$> l)) s.
Proof.
  induction l as [|a l IH]; intros s us s'; simpl.
  - unfold ret. intros [= <- <-]. split; [reflexivity|]. destruct s; reflexivity.
  - unfold TrackingUnit__init__ at 1. rewrite !bind_bind.
    destruct (call (NewTrackingUnit (idx (f a)) (bool_decide (is_Some (g a)))) s)
      as [r1 s1] eqn:E1.
    rewrite (bind_eq _ _ _ _ _ E1).
    destruct r1 as [[]|e]; [|discriminate]. apply call_ok in E1. subst s1. rewrite bind_ret.
    destruct (comprehension (fun a => TrackingUnit__init__ tracker_class (f a) (g a)) l
                (record (Called (NewTrackingUnit (idx (f a)) (bool_decide (is_Some (g a))))) s))
      as [r2 s2] eqn:E2.
    rewrite (bind_eq _ _ _ _ _ E2).
    destruct r2 as [us2|e]; [|discriminate]. unfold ret. intros [= <- <-].
    destruct (IH _ _ _ E2) as [-> ->]. split; [reflexivity|].
    unfold logged. simpl. rewrite <- app_assoc. reflexivity.
Qed.

Lemma init_attributes_ok (camera : Camera) (result_file : option string)
    (draw_results : bool) (n : Z) (video_out : option string)
    (max_duration : option Z) (metadata : option string) (s s' : State) :
  init_attributes camera result_file draw_results n video_out max_duration metadata s
  = (Ok tt, s') ->
  exists d, max_duration = Some d /\
    s' = mkState (env s)
           (mkMonitor camera result_file metadata None draw_results
              (if draw_results then Some ("psv_" +:+ pretty (pid (env s)))
               else _window_name (self s))
              n (Some (d * 1000)) video_out None false (length (dicts s)) 0 false
              (_unit_trackers (self s)))
           (vw s) (result_writer s) (arrays s) (dicts s ++ [∅])
           ((if draw_results then [Called GetPid] else []) ++ trace s).
Proof.
  unfold init_attributes, bind, setattr, getattr, gets, modify, when, call, mul, dict_new,
    raise, ret.
  destruct draw_results; simpl.
  - destruct (fault (env s) (length (trace s))); [discriminate|]. simpl.
    destruct max_duration as [d|]; [|discriminate]. simpl. intros [= <-].
    exists d. split; reflexivity.
  - destruct max_duration as [d|]; [|discriminate]. simpl. intros [= <-].
    exists d. split; reflexivity.
Qed.

Lemma init_rois_ok (rois : option (list ROI)) (s : State) l (s' : State) :
  init_rois rois s = (Ok l, s') ->
  l = default (default_rois (env s)) rois /\
  s' = logged (Called CameraRestart
               :: match rois with None => [Called BuildROIs] | Some _ => [] end) s.
Proof.
  unfold init_rois. destruct rois as [l0|].
  - rewrite bind_ret.
    destruct (call CameraRestart s) as [r1 s1] eqn:E1. rewrite (bind_eq _ _ _ _ _ E1).
    destruct r1 as [[]|e]; [|discriminate]. apply call_ok in E1. subst s1.
    unfold ret. intros [= <- <-]. split; [reflexivity|]. destruct s; reflexivity.
  - rewrite !bind_bind.
    destruct (call BuildROIs s) as [r0 s0] eqn:E0. rewrite (bind_eq _ _ _ _ _ E0).
    destruct r0 as [[]|e]; [|discriminate]. apply call_ok in E0. subst s0.
    rewrite bind_gets.
    destruct (call CameraRestart (record (Called BuildROIs) s)) as [r1 s1] eqn:E1.
    rewrite (bind_eq _ _ _ _ _ E1).
    destruct r1 as [[]|e]; [|discriminate]. apply call_ok in E1. subst s1.
    unfold ret. intros [= <- <-]. split; [reflexivity|]. destruct s; reflexivity.
Qed.

Lemma init_units_ok (tracker_class : TrackerClass) (rois : list ROI)
    (interactors : option (list Interactor)) (s s' : State) :
  init_units tracker_class rois interactors s = (Ok tt, s') ->
  (forall inters, interactors = Some inters -> length inters = length rois) /\
  roi <$> _unit_trackers (self s') = rois /\
  Forall (fun u => tracker u = tracker_new tracker_class (roi u) (interactor u))
    (_unit_trackers (self s')) /\
  s' = upd_self (set__unit_trackers (_unit_trackers (self s')))
         (logged (rev ((fun r => Called (NewTrackingUnit (idx r)
                                           (bool_decide (is_Some interactors)))) <$> rois))
            s).
Proof.
  unfold init_units. destruct interactors as [inters|].
  - destruct (Nat.eqb (length inters) (length rois)) eqn:Hlen; [|discriminate].
    apply Nat.eqb_eq in Hlen.
    destruct (comprehension
                (fun ri => TrackingUnit__init__ tracker_class (fst ri) (Some (snd ri)))
                (zip rois inters) s) as [r1 s1] eqn:E1.
    rewrite (bind_eq _ _ _ _ _ E1). destruct r1 as [us|e]; [|discriminate].
    unfold setattr, modify. intros [= <-].
    destruct (comprehension_ok fst (fun ri => Some (snd ri)) _ _ _ _ _ E1) as [-> ->].
    split; [intros ? [= <-]; exact Hlen|]. simpl. split.
    { rewrite <- list_fmap_compose. apply fst_zip. lia. }
    split.
    { apply Forall_fmap, Forall_forall. intros x _. reflexivity. }
    assert (Hl : (fun a : ROI * Interactor => Called (NewTrackingUnit (idx (fst a)) true))
                 <$> zip rois inters
                 = (fun r => Called (NewTrackingUnit (idx r) true)) <$> rois).
    { rewrite <- (fst_zip rois inters) at 2 by lia.
      rewrite <- list_fmap_compose. reflexivity. }
    rewrite Hl. reflexivity.
  - destruct (comprehension (fun r => TrackingUnit__init__ tracker_class r None) rois s)
      as [r1 s1] eqn:E1.
    rewrite (bind_eq _ _ _ _ _ E1). destruct r1 as [us|e]; [|discriminate].
    unfold setattr, modify. intros [= <-].
    destruct (comprehension_ok id (fun _ => None) _ _ _ _ _ E1) as [-> ->].
    split; [discriminate|]. simpl. split.
    { rewrite <- list_fmap_compose. apply list_fmap_id. }
    split.
    { apply Forall_fmap, Forall_forall. intros x _. reflexivity. }
    reflexivity.
Qed.

(** A construction that succeeded, step by step. *)
Lemma Monitor_new_ok (camera : Camera) (tracker_class : TrackerClass)
    (rois : option (list ROI)) (interactors : option (list Interactor))
    (result_file : option string) (draw_results : bool) (n : Z)
    (video_out : option string) (max_duration : option Z) (metadata : option string)
    (s s' : State) :
  Monitor_new camera tracker_class rois interactors result_file draw_results n
    video_out max_duration metadata s = (Ok tt, s') ->
  exists d us,
    max_duration = Some d /\
    self s' = mkMonitor camera result_file metadata None draw_results
                (if draw_results then Some ("psv_" +:+ pretty (pid (env s))) else None)
                n (Some (d * 1000)) video_out None false (length (dicts s)) 0 false us /\
    dicts s' = dicts s ++ [∅] /\
    arrays s' = arrays s /\
    trace s'
    = rev ((fun r => Called (NewTrackingUnit (idx r) (bool_decide (is_Some interactors))))
           <$> default (default_rois (env s)) rois)
      ++ Called CameraRestart
      :: match rois with None => [Called BuildROIs] | Some _ => [] end
      ++ (if draw_results then [Called GetPid] else []) ++ trace s.
Proof.
  unfold Monitor_new, __init__. rewrite bind_setattr.
  set (s0 := upd_self (fun _ => object_new) s).
  destruct (init_attributes camera result_file draw_results n video_out max_duration
              metadata s0) as [r1 s1] eqn:E1.
  rewrite (bind_eq _ _ _ _ _ E1). destruct r1 as [[]|e]; [|discriminate].
  destruct (init_attributes_ok _ _ _ _ _ _ _ _ _ E1) as (d & -> & Hs1).
  destruct (init_rois rois s1) as [r2 s2] eqn:E2.
  rewrite (bind_eq _ _ _ _ _ E2). destruct r2 as [l|e]; [|discriminate].
  destruct (init_rois_ok _ _ _ _ E2) as [-> Hs2].
  intros E3. destruct (init_units_ok _ _ _ _ _ E3) as (_ & _ & _ & Hs3).
  assert (Hself : self s' = set__unit_trackers (_unit_trackers (self s')) (self s2))
    by (rewrite Hs3 at 1; reflexivity).
  assert (Hd : dicts s' = dicts s2) by (rewrite Hs3; reflexivity).
  assert (Ha : arrays s' = arrays s2) by (rewrite Hs3; reflexivity).
  assert (Ht : trace s'
               = rev ((fun r => Called (NewTrackingUnit (idx r)
                                          (bool_decide (is_Some interactors))))
                      <$> default (default_rois (env s1)) rois) ++ trace s2)
    by (rewrite Hs3; reflexivity).
  exists d, (_unit_trackers (self s')). split; [reflexivity|].
  rewrite Hself, Hd, Ha, Ht, Hs2, Hs1. simpl.
  split; [destruct draw_results; reflexivity|].
  split; [reflexivity|]. split; [reflexivity|].
  destruct rois; reflexivity.
Qed.

(** X19. A construction that succeeds calls its collaborators in this order: the
    process id, if a window is asked for; the ROI builder, if no ROIs are
    given; [camera.restart()], once; then the constructor of [TrackingUnit]
    for each ROI, in the order of the ROIs. *)
Theorem construction_calls_in_order (camera : Camera) (tracker_class : TrackerClass)
    (rois : option (list ROI)) (interactors : option (list Interactor))
    (result_file : option string) (draw_results : bool) (n : Z)
    (video_out : option string) (max_duration : option Z) (metadata : option string)
    (s s' : State) :
  Monitor_new camera tracker_class rois interactors result_file draw_results n
    video_out max_duration metadata s = (Ok tt, s') ->
  trace s'
  = rev (Called <$> construction_calls draw_results rois (default_rois (env s))
                      (bool_decide (is_Some interactors)))
    ++ trace s.
Proof.
  intros E. destruct (Monitor_new_ok _ _ _ _ _ _ _ _ _ _ _ _ E) as (d & us & _ & _ & _ & _ & ->).
  unfold construction_calls. rewrite fmap_app, rev_app_distr, <- app_assoc.
  destruct rois as [l|]; simpl.
  - rewrite <- list_fmap_compose, <- !app_assoc. simpl.
    destruct draw_results; reflexivity.
  - rewrite <- list_fmap_compose, <- !app_assoc. simpl.
    destruct draw_results; reflexivity.
Qed.

(** X20. A monitor that was just constructed: the duration is kept in
    milliseconds; the window is named after the process, if a window was asked
    for; the table of last positions is a new, empty dictionary; the accessors
    return it, a time stamp of 0 and the list that holds the result file (or
    [None]), and [last_drawn_frame] raises for want of a frame; the monitor is
    neither running nor stopped. *)
Theorem a_new_monitor_is_blank (camera : Camera) (tracker_class : TrackerClass)
    (rois : option (list ROI)) (interactors : option (list Interactor))
    (result_file : option string) (draw_results : bool) (n : Z)
    (video_out : option string) (max_duration : option Z) (metadata : option string)
    (s s' : State) :
  Monitor_new camera tracker_class rois interactors result_file draw_results n
    video_out max_duration metadata s = (Ok tt, s') ->
  _max_duration (self s') = (fun d => d * 1000) <$> max_duration /\
  _window_name (self s')
  = (if draw_results then Some ("psv_" +:+ pretty (pid (env s))) else None) /\
  _last_positions (self s') = length (dicts s) /\
  table s' = Some ∅ /\
  serve [Get_last_positions; Get_last_time_stamp; Get_result_files; Get_last_drawn_frame] s'
  = ([Ok (VDict (length (dicts s))); Ok (VFloat (0 # 1000)%Q); Ok (VList [result_file]);
      Raise (mkExn AttributeError "'NoneType' object has no attribute 'copy'")], s') /\
  running s' = false /\ _force_stop (self s') = false.
Proof.
  intros E. destruct (Monitor_new_ok _ _ _ _ _ _ _ _ _ _ _ _ E)
    as (d & us & -> & Hs & Hd & _ & _).
  split; [rewrite Hs; reflexivity|]. split; [rewrite Hs; reflexivity|].
  split; [rewrite Hs; reflexivity|].
  assert (Ht : table s' = Some ∅).
  { unfold table. rewrite Hs, Hd. simpl. rewrite lookup_app_r by lia.
    rewrite Nat.sub_diag. reflexivity. }
  split; [exact Ht|]. split; [|unfold running; rewrite Hs; split; reflexivity].
  assert (He : _exception (self s') = None) by (rewrite Hs; reflexivity).
  assert (R1 : request Get_last_positions s' = (Ok (VDict (length (dicts s))), s')).
  { unfold request, last_positions, reraise. mstep. rewrite He. mstep.
    rewrite Hs. reflexivity. }
  assert (R2 : request Get_last_time_stamp s' = (Ok (VFloat (0 # 1000)%Q), s')).
  { unfold request, last_time_stamp, reraise. mstep. rewrite He. mstep.
    rewrite Hs. reflexivity. }
  assert (R3 : request Get_result_files s' = (Ok (VList [result_file]), s')).
  { unfold request, result_files, reraise. mstep. rewrite He. mstep.
    rewrite Hs. reflexivity. }
  assert (R4 : request Get_last_drawn_frame s'
               = (Raise (mkExn AttributeError "'NoneType' object has no attribute 'copy'"),
                  s')).
  { unfold request, last_drawn_frame, reraise, _draw_on_frame, ndarray_copy.
    mstep. rewrite He. mstep. rewrite Hs. reflexivity. }
  cbn [serve]. rewrite R1, R2, R3, R4. reflexivity.
Qed.

End NewMonitor.

(** * The statements on concrete scenes *)

Lemma C4_witness :
  fst (Monitor_new [(10, blank); (20, blank)] scripts (Some [roi1; roi2])
         (Some ["lamp"; "motor"]) None false 1 None (Some 5) None (world0 calm)) = Ok tt /\
  roi <$> _unit_trackers (self (snd (Monitor_new [(10, blank); (20, blank)] scripts
         (Some [roi1; roi2]) (Some ["lamp"; "motor"]) None false 1 None (Some 5) None
         (world0 calm)))) = [roi1; roi2].
Proof.
  destruct (C4_one_unit_per_roi_or_error [(10, blank); (20, blank)] scripts
              (Some [roi1; roi2]) (Some ["lamp"; "motor"]) None false 1 None (Some 5) None
              (world0 calm)) as [_ H].
  destruct H as (H1 & _ & H3 & _).
  - intros n. reflexivity.
  - exists 5. reflexivity.
  - intros inters [= <-]. reflexivity.
  - split; [exact H1 | exact H3].
Defined.

Lemma C10_witness :
  last_drawn_frame (built calm)
  = (Raise (mkExn AttributeError "'NoneType' object has no attribute 'copy'"), built calm).
Proof.
  apply C10_last_drawn_frame_before_first_frame; reflexivity.
Defined.

Lemma C9_witness :
  exists d s',
    last_positions (built calm) = (Ok d, built calm) /\
    d = _last_positions (self (built calm)) /\
    dict_setitem d 7 pos1 (built calm) = (Ok tt, s') /\
    self s' = self (built calm) /\
    table s' = Some (<[7 := pos1]> ∅).
Proof.
  apply (C9_last_positions_is_shared (built calm) ∅ 7 pos1); vm_compute; reflexivity.
Defined.

(** C9 as the spec has it fails: the client stores a position under key 7 in
    what [last_positions] returned, and the monitor's own table, empty
    before, has it. *)
Lemma C9_counterexample :
  exists d s',
    last_positions (built calm) = (Ok d, built calm) /\
    dict_setitem d 7 pos1 (built calm) = (Ok tt, s') /\
    table (built calm) ≫= (fun m => m !! 7) = None /\
    table s' ≫= (fun m => m !! 7) = Some pos1.
Proof.
  exists 0%nat, (snd (dict_setitem 0%nat 7 pos1 (built calm))).
  split; [vm_compute; reflexivity|].
  split; [vm_compute; reflexivity|].
  split; vm_compute; reflexivity.
Qed.

Lemma C7_witness :
  arrays (snd (_draw_on_frame (Some 1%nat) ran)) !! 1%nat = Some blank /\
  exists l', fst (_draw_on_frame (Some 1%nat) ran) = Ok l'.
Proof.
  destruct (C7_renderer_is_pure ran 1%nat blank {[1 := pos1]}) as (H1 & _ & _ & H4 & _).
  - vm_compute. reflexivity.
  - vm_compute. reflexivity.
  - split.
    + apply H1. vm_compute. reflexivity.
    + apply H4. intros n. reflexivity.
Defined.

Lemma C5_witness :
  exists l' s' a' opss,
    _draw_on_frame (Some 1%nat) ran = (Ok l', s') /\
    arrays s' !! l' = Some a' /\
    drawn a' = drawn blank ++ concat opss /\
    Forall2 (fun u ops =>
               (({[1 := pos1]} : gmap Z Position) !! idx (roi u) = None ->
                ops = [label (roi u)]) /\
               (forall pos, ({[1 := pos1]} : gmap Z Position) !! idx (roi u) = Some pos ->
                            ops = [label (roi u); outline (roi u) pos; mark pos]))
            (_unit_trackers (self ran)) opss.
Proof.
  apply (C5_only_the_label_without_position ran 1%nat blank {[1 := pos1]}).
  - vm_compute. reflexivity.
  - vm_compute. reflexivity.
  - intros n. reflexivity.
Defined.

(** C5 as the spec has it fails: ROI 2 has no known position, the renderer
    returns, and the annotated frame carries the label of ROI 2 but no
    outline of its polygon. *)
Lemma C5_counterexample :
  exists l' s' a',
    last_drawn_frame ran = (Ok l', s') /\
    table ran ≫= (fun m => m !! idx roi2) = None /\
    arrays s' !! l' = Some a' /\
    drawn a' = [label roi1; outline roi1 pos1; mark pos1; label roi2] /\
    Forall (not_outline_of roi2) (drawn a').
Proof.
  exists 2%nat, (snd (last_drawn_frame ran)),
    (imprint [label roi1; outline roi1 pos1; mark pos1; label roi2] blank).
  split; [vm_compute; reflexivity|].
  split; [vm_compute; reflexivity|].
  split; [vm_compute; reflexivity|].
  split; [reflexivity|].
  repeat constructor. simpl. discriminate.
Qed.



Lemma C2_witness :
  exists tbl', table (snd (process_frame 0 10 0%nat framed)) = Some tbl' /\
               tbl' !! idx roi1 = Some pos1 /\ tbl' !! idx roi2 = None.
Proof.
  destruct (C2_last_positions_follow_the_units 10 0%nat blank ∅ framed) as [_ H].
  - vm_compute. reflexivity.
  - vm_compute. reflexivity.
  - destruct (H 0 (snd (process_frame 0 10 0%nat framed))) as (tbl' & Ht & Hu).
    + apply (bool_decide_unpack _). vm_compute. reflexivity.
    + vm_compute. reflexivity.
    + set (u1 := mkTrackingUnit roi1 (None : option string) (mkReplay (scripts 1) None)).
      set (u2 := mkTrackingUnit roi2 (None : option string) (mkReplay (scripts 2) None)).
      assert (Hl : _unit_trackers (self framed) = [u1; u2]) by (vm_compute; reflexivity).
      rewrite Hl in Hu.
      destruct (Hu u1) as [H1 _]; [left|].
      destruct (Hu u2) as [_ H2]; [right; left|].
      exists tbl'. split; [exact Ht|]. split.
      * apply (H1 [7] pos1); vm_compute; reflexivity.
      * apply H2. vm_compute. reflexivity.
Defined.

Lemma C6_witness :
  exists down t frame inflight,
    take 14 (trace (snd (run (recording interrupted))))
    = down ++ Logged INFO stop_msg :: Called (CameraNext (Some (t, frame))) :: inflight /\
    Forall (fun it => is_shutdown it = true) down /\
    Forall (fun it => is_acquisition it = false) inflight /\
    stored (snd (run (recording interrupted))) = None.
Proof.
  destruct (C6_stop_is_seen_at_the_next_frame (recording interrupted)) as (d & Hd & H).
  set (tr := trace (snd (run (recording interrupted)))) in *.
  assert (Hd' : d = take 20 tr).
  { apply (app_inv_tail (trace (recording interrupted))). rewrite <- Hd.
    vm_compute. reflexivity. }
  destruct (H (take 14 tr) (drop 15 (take 20 tr))) as [Hno | Hyes].
  - rewrite Hd'. vm_compute. reflexivity.
  - apply Forall_lookup_1
      with (i := 6%nat) (x := Called (CameraNext (Some (20, 2%nat)))) in Hno.
    + discriminate Hno.
    + vm_compute. reflexivity.
  - exact Hyes.
Defined.




Lemma nothing_is_rendered_unasked_witness :
  exists d, trace (snd (run (built calm))) = d ++ trace (built calm) /\
            Forall (avoids render_call) d.
Proof. apply (nothing_is_rendered_unasked (built calm)); vm_compute; reflexivity. Defined.

Lemma nothing_is_written_unasked_witness :
  exists d, trace (snd (run (built calm))) = d ++ trace (built calm) /\
            Forall (avoids result_call) d.
Proof. apply (nothing_is_written_unasked (built calm)); vm_compute; reflexivity. Defined.

Lemma a_stopped_monitor_processes_no_frame_witness :
  _force_stop (self (snd (run halted))) = true /\
  _last_time_stamp (self (snd (run halted))) = _last_time_stamp (self halted) /\
  _frame_buffer (self (snd (run halted))) = _frame_buffer (self halted) /\
  dicts (snd (run halted)) = dicts halted /\
  _unit_trackers (self (snd (run halted))) = _unit_trackers (self halted) /\
  exists d, trace (snd (run halted)) = d ++ trace halted /\ Forall (avoids frame_work) d.
Proof. apply (a_stopped_monitor_processes_no_frame halted). vm_compute. reflexivity. Defined.

Lemma the_table_takes_only_the_units_keys_witness :
  exists tbl', table (snd (run (built calm))) = Some tbl' /\
    forall k, (is_Some ((∅ : gmap Z Position) !! k) -> is_Some (tbl' !! k)) /\
              (k ∉ idx ∘ roi <$> _unit_trackers (self (built calm)) ->
               tbl' !! k = (∅ : gmap Z Position) !! k).
Proof.
  apply (the_table_takes_only_the_units_keys (built calm) ∅). vm_compute. reflexivity.
Defined.


Lemma draw_every_zero_raises_witness :
  show 0 0%nat stuck
  = (Raise (mkExn ZeroDivisionError "integer division or modulo by zero"), stuck) /\
  exists e, fst (process_frame 0 10 0%nat stuck) = Raise e.
Proof. apply (draw_every_zero_raises 0 10 0%nat stuck); vm_compute; reflexivity. Defined.

Lemma a_row_is_written_for_every_yield_witness :
  head (trace (snd (track_one 10 0%nat 0%nat unit1 writing)))
  = Some (Called (WriteRow 10 1 [7])).
Proof.
  refine (a_row_is_written_for_every_yield 0%nat 10 0%nat unit1 blank
            (mkResultWriter "out.db" None) writing
            (snd (track_one 10 0%nat 0%nat unit1 writing)) _ _ _ _);
    vm_compute; reflexivity.
Defined.

Lemma the_video_gets_every_frame_annotated_witness :
  exists tmp,
    head (trace (snd (process_frame 0 10 0%nat filming))) = Some (Called (WriteVideo tmp)) /\
    arrays (snd (process_frame 0 10 0%nat filming)) !! tmp
    = Some (annotate blank (roi <$> _unit_trackers (self filming))
              (aggregate 10 blank (_unit_trackers (self filming)) ∅)) /\
    arrays (snd (process_frame 0 10 0%nat filming)) !! 0%nat = Some blank.
Proof.
  apply (the_video_gets_every_frame_annotated 0 10 0%nat blank ∅ "out.avi" filming).
  - vm_compute. reflexivity.
  - vm_compute. reflexivity.
  - vm_compute. reflexivity.
  - vm_compute. reflexivity.
Defined.

Lemma a_quiet_run_tracks_every_frame_in_time_witness :
  fst (run (overrun calm)) = Ok tt /\
  _last_time_stamp (self (snd (run (overrun calm)))) = 10 /\
  exists d, trace (snd (run (overrun calm))) = d ++ trace (overrun calm) /\
    omap tracking_of (rev d) = [(0%nat, 10); (1%nat, 10)] /\
    omap acquisition_of (rev d) = [10; 6000].
Proof.
  destruct (a_quiet_run_tracks_every_frame_in_time (overrun calm))
    as (H1 & _ & H3 & d & Hd & Ht & Ha).
  - intros n. reflexivity.
  - intros n. reflexivity.
  - intros H. vm_compute in H. discriminate.
  - vm_compute. reflexivity.
  - exists ∅. vm_compute. reflexivity.
  - split; [exact H1|]. split; [exact H3|]. exists d. split; [exact Hd|].
    split; [exact Ht | exact Ha].
Defined.

Lemma construction_calls_in_order_witness :
  trace (showing calm)
  = [Called (NewTrackingUnit 2 false); Called (NewTrackingUnit 1 false);
     Called CameraRestart; Called GetPid].
Proof.
  apply (construction_calls_in_order [(10, blank); (20, blank)] scripts (Some [roi1; roi2])
           None (Some "out.db") true 2 None (Some 5) None (world0 calm) (showing calm)).
  vm_compute. reflexivity.
Defined.

Lemma a_new_monitor_is_blank_witness :
  _max_duration (self (showing calm)) = Some 5000 /\
  _window_name (self (showing calm)) = Some "psv_4242" /\
  _last_positions (self (showing calm)) = 0%nat /\
  table (showing calm) = Some ∅ /\
  serve [Get_last_positions; Get_last_time_stamp; Get_result_files; Get_last_drawn_frame]
    (showing calm)
  = ([Ok (VDict 0%nat); Ok (VFloat (0 # 1000)%Q); Ok (VList [Some "out.db"]);
      Raise (mkExn AttributeError "'NoneType' object has no attribute 'copy'")],
     showing calm) /\
  running (showing calm) = false /\ _force_stop (self (showing calm)) = false.
Proof.
  apply (a_new_monitor_is_blank [(10, blank); (20, blank)] scripts (Some [roi1; roi2])
           None (Some "out.db") true 2 None (Some 5) None (world0 calm) (showing calm)).
  vm_compute. reflexivity.
Defined.
